(** * School-records manager: entity model and persistence adapter

    A shallow embedding of [models.py], of [data_manager.py] and of the
    classes of [models_PyQt.py], with the properties of the specification
    stated over it.

    Python objects live in a heap of three stores (students, instructors,
    courses); a reference is an index into its store, so that object identity
    (the [in] tests of the source compare by identity) is index equality and
    the aliasing between a student's [registered_courses] and a course's
    [enrolled_students] is kept.  Code that can raise runs in a state monad
    whose state survives the exception, as a Python object mutated before a
    [raise] stays mutated.

    Names, e-mails and identifiers are strings, as the forms supply them; a
    string is a sequence of code points below 256.  An age is any scalar. *)

From Stdlib Require Import ZArith QArith.QArith_base Ascii String.
From stdpp Require Import base list strings.

Local Open Scope string_scope.
Local Open Scope Z_scope.

(* ===================================================================== *)
(** ** Python values, exceptions and the effect monad *)
(* ===================================================================== *)

Module py.

(** The scalar values an [age] can hold: what a caller or a JSON document
    can supply.  A float is represented by the rational it denotes (every
    finite double is one); NaN and the infinities are left out. *)
Inductive pyval : Type :=
  | PNone
  | PInt (z : Z)
  | PFloat (q : Q)
  | PStr (s : string).

(** The exception classes the modelled code raises or catches.
    [sqlite3_Error] stands for [sqlite3.Error] and its subclasses. *)
Inductive exn : Type :=
  | ValueError (msg : string)
  | TypeError (msg : string)
  | AttributeError (msg : string)
  | OverflowError (msg : string)
  | IOError (msg : string)
  | sqlite3_Error (msg : string).

(** [str(e)] for an exception created with one message. *)
Definition exn_str (e : exn) : string :=
  match e with
  | ValueError m | TypeError m | AttributeError m
  | OverflowError m | IOError m | sqlite3_Error m => m
  end.

(** How a call ends: it returns, it raises, or the model's recursion depth
    was used up (which the theorems show does not happen). *)
Inductive outcome (A : Type) : Type :=
  | Ret (a : A)
  | Raise (e : exn)
  | Fuel.
Arguments Ret {A} a.
Arguments Raise {A} e.
Arguments Fuel {A}.

(** Stateful code: the state is returned in every case. *)
Definition M (St A : Type) : Type := St -> St * outcome A.

Definition ret {St A} (a : A) : M St A := fun s => (s, Ret a).

Definition raise {St A} (e : exn) : M St A := fun s => (s, Raise e).

Definition bind {St A B} (m : M St A) (k : A -> M St B) : M St B :=
  fun s =>
    match m s with
    | (s', Ret a) => k a s'
    | (s', Raise e) => (s', Raise e)
    | (s', Fuel) => (s', Fuel)
    end.

Definition get {St} : M St St := fun s => (s, Ret s).

Definition modify {St} (f : St -> St) : M St unit := fun s => (f s, Ret tt).

(** A pure computation that may raise, run inside stateful code. *)
Definition lift {St A} (o : outcome A) : M St A := fun s => (s, o).

(** [try: m  except C as e: h e], where [catches e] says that [e] is an
    instance of [C]. *)
Definition try_except {St A} (m : M St A) (catches : exn -> bool)
    (h : exn -> M St A) : M St A :=
  fun s =>
    match m s with
    | (s', Raise e) => if catches e then h e s' else (s', Raise e)
    | r => r
    end.

(** [for x in xs: body x]. *)
Fixpoint for_each {St A} (xs : list A) (body : A -> M St unit) : M St unit :=
  match xs with
  | [] => ret tt
  | x :: xs' => bind (body x) (fun _ => for_each xs' body)
  end.

(** The same for a computation without state. *)
Definition obind {A B} (o : outcome A) (k : A -> outcome B) : outcome B :=
  match o with
  | Ret a => k a
  | Raise e => Raise e
  | Fuel => Fuel
  end.

(** [x >= 0] for the left operands modelled; Python orders numbers with
    numbers only. *)
Definition ge_zero (x : pyval) : outcome bool :=
  match x with
  | PInt z => Ret (0 <=? z)
  | PFloat q => Ret (Qle_bool (inject_Z 0) q)
  | PStr _ =>
      Raise (TypeError "'>=' not supported between instances of 'str' and 'int'")
  | PNone =>
      Raise (TypeError "'>=' not supported between instances of 'NoneType' and 'int'")
  end.

(** [type(x) != int]. *)
Definition type_is_not_int (x : pyval) : bool :=
  match x with
  | PInt _ => false
  | _ => true
  end.

(** [x < 0], used after [type(x) != int] was excluded. *)
Definition lt_zero (x : pyval) : outcome bool :=
  match x with
  | PInt z => Ret (z <? 0)
  | PFloat q => Ret (negb (Qle_bool (inject_Z 0) q))
  | PStr _ =>
      Raise (TypeError "'<' not supported between instances of 'str' and 'int'")
  | PNone =>
      Raise (TypeError "'<' not supported between instances of 'NoneType' and 'int'")
  end.

(** [xs.remove(x)]: drops the first occurrence, [ValueError] when there is
    none. *)
Fixpoint list_remove (x : nat) (xs : list nat) : option (list nat) :=
  match xs with
  | [] => None
  | y :: ys =>
      if decide (x = y) then Some ys
      else match list_remove x ys with
           | Some ys' => Some (y :: ys')
           | None => None
           end
  end.

(** A [dict] with string keys: an association list in insertion order, at
    most one entry per key. *)
Definition dict (V : Type) : Type := list (string * V).

(** [d.get(k)]. *)
Fixpoint dict_get {V} (k : string) (d : dict V) : option V :=
  match d with
  | [] => None
  | (k', v) :: d' => if decide (k = k') then Some v else dict_get k d'
  end.

(** [d[k] = v]: an existing key keeps its place. *)
Fixpoint dict_set {V} (k : string) (v : V) (d : dict V) : dict V :=
  match d with
  | [] => [(k, v)]
  | (k', v') :: d' =>
      if decide (k = k') then (k, v) :: d' else (k', v') :: dict_set k v d'
  end.

(** [d.pop(k, None)]. *)
Fixpoint dict_pop {V} (k : string) (d : dict V) : dict V :=
  match d with
  | [] => []
  | (k', v') :: d' =>
      if decide (k = k') then d' else (k', v') :: dict_pop k d'
  end.

(** [d.values()] and [d.keys()]. *)
Definition dict_values {V} (d : dict V) : list V := map snd d.
Definition dict_keys {V} (d : dict V) : list string := map fst d.

End py.

Export py.

Notation "'let*' x ':=' m 'in' k" := (bind m (fun x => k))
  (at level 10, x name, m at level 100, k at level 200, only parsing).
Notation "m '>>' k" := (bind m (fun _ => k))
  (at level 100, k at level 200, right associativity, only parsing).

(* ===================================================================== *)
(** ** Regular expressions of the two e-mail patterns *)
(* ===================================================================== *)

Module regex.

(** The fragment of [re] the patterns use: character classes, concatenation
    and [+].  Matching is by derivatives. *)
Inductive re : Type :=
  | Void
  | Eps
  | Class (p : ascii -> bool)
  | Cat (r1 r2 : re)
  | Alt (r1 r2 : re)
  | Star (r : re).

Definition Plus (r : re) : re := Cat r (Star r).

Fixpoint nullable (r : re) : bool :=
  match r with
  | Void => false
  | Eps => true
  | Class _ => false
  | Cat r1 r2 => nullable r1 && nullable r2
  | Alt r1 r2 => nullable r1 || nullable r2
  | Star _ => true
  end.

Fixpoint deriv (c : ascii) (r : re) : re :=
  match r with
  | Void => Void
  | Eps => Void
  | Class p => if p c then Eps else Void
  | Cat r1 r2 =>
      if nullable r1 then Alt (Cat (deriv c r1) r2) (deriv c r2)
      else Cat (deriv c r1) r2
  | Alt r1 r2 => Alt (deriv c r1) (deriv c r2)
  | Star r1 => Cat (deriv c r1) (Star r1)
  end.

(** The whole of [s] is in the language of [r]. *)
Fixpoint matches (r : re) (s : string) : bool :=
  match s with
  | EmptyString => nullable r
  | String c s' => matches (deriv c r) s'
  end.

(** [s] without a final line feed, when it has one. *)
Fixpoint chomp (s : string) : option string :=
  match s with
  | EmptyString => None
  | String c EmptyString =>
      if Ascii.eqb c "010"%char then Some EmptyString else None
  | String c s' =>
      match chomp s' with
      | Some t => Some (String c t)
      | None => None
      end
  end.

(** [re.match('^' + r + '$', s) is not None]: the body must reach the end
    of [s], or the line feed that ends [s], which is where [$] matches. *)
Definition re_match (r : re) (s : string) : bool :=
  matches r s ||
  match chomp s with
  | Some t => matches r t
  | None => false
  end.

Definition code (c : ascii) : N := N_of_ascii c.

(** [\s] of a [str] pattern on the code points below 256: the characters
    for which [str.isspace] holds. *)
Definition is_space (c : ascii) : bool :=
  let n := code c in
  ((9 <=? n) && (n <=? 13) || (28 <=? n) && (n <=? 32)
   || (n =? 133) || (n =? 160))%N.

Definition non_space (c : ascii) : bool := negb (is_space c).

Definition is_char (x : ascii) (c : ascii) : bool := Ascii.eqb x c.

Definition in_range (lo hi : ascii) (c : ascii) : bool :=
  ((code lo <=? code c) && (code c <=? code hi))%N.

Definition alnum (c : ascii) : bool :=
  in_range "a" "z" c || in_range "A" "Z" c || in_range "0" "9" c.

End regex.

(* ===================================================================== *)
(** ** models.py *)
(* ===================================================================== *)

Module models.

Import regex.

(** [r'^\S+@\S+\.\S+$'], without its anchors. *)
Definition pattern : re :=
  Cat (Plus (Class non_space))
    (Cat (Class (is_char "@"))
       (Cat (Plus (Class non_space))
          (Cat (Class (is_char ".")) (Plus (Class non_space))))).

(** [Person.validate_email]. *)
Definition validate_email (email : string) : bool := re_match pattern email.

(** The attributes of a [Person]; [Student] and [Instructor] inherit them. *)
Record Person : Type := {
  name : string;
  age : pyval;
  _email : string
}.

(** [Person.__init__]: the instance exists only when no check raised. *)
Definition Person_init (name : string) (age : pyval) (email : string)
    : outcome Person :=
  obind (ge_zero age) (fun nonneg =>
    if nonneg then
      if validate_email email then
        Ret {| name := name; age := age; _email := email |}
      else Raise (ValueError "Invalid email format")
    else Raise (ValueError "Age cannot be negative")).

(** [Person.get_email]. *)
Definition Person_get_email (self : Person) : string := _email self.

(** [Person.set_email], on the attributes of [self]. *)
Definition Person_set_email (email : string) : M Person unit :=
  fun self =>
    if validate_email email then
      ({| name := name self; age := age self; _email := email |}, Ret tt)
    else (self, Raise (ValueError "Invalid email format")).

(** The dictionary of [Person.to_dict]: keys ['name'], ['age'], ['_email']. *)
Record PersonDict : Type := {
  pd_name : string;
  pd_age : pyval;
  pd__email : string
}.

Definition Person_to_dict (self : Person) : PersonDict :=
  {| pd_name := name self; pd_age := age self; pd__email := _email self |}.

(** [Person.from_dict] called on the class [Person]. *)
Definition Person_from_dict (data : PersonDict) : outcome Person :=
  Person_init (pd_name data) (pd_age data) (pd__email data).

(** *** The object heap *)

Record Student : Type := {
  Student_super : Person;
  student_id : string;
  registered_courses : list nat      (* references to Course objects *)
}.

Record Instructor : Type := {
  Instructor_super : Person;
  instructor_id : string;
  assigned_courses : list nat        (* references to Course objects *)
}.

Record Course : Type := {
  course_id : string;
  course_name : string;
  instructor : option nat;           (* a reference to an Instructor, or None *)
  enrolled_students : list nat       (* references to Student objects *)
}.

Record Heap : Type := {
  h_students : list Student;
  h_instructors : list Instructor;
  h_courses : list Course
}.

Definition empty_heap : Heap :=
  {| h_students := []; h_instructors := []; h_courses := [] |}.

#[global] Instance Person_inhabited : Inhabited Person :=
  populate {| name := ""; age := PNone; _email := "" |}.
#[global] Instance Student_inhabited : Inhabited Student :=
  populate {| Student_super := inhabitant; student_id := "";
              registered_courses := [] |}.
#[global] Instance Instructor_inhabited : Inhabited Instructor :=
  populate {| Instructor_super := inhabitant; instructor_id := "";
              assigned_courses := [] |}.
#[global] Instance Course_inhabited : Inhabited Course :=
  populate {| course_id := ""; course_name := ""; instructor := None;
              enrolled_students := [] |}.

(** Dereferencing.  A Python reference always designates a live object;
    the theorems assume references inside the stores where it matters. *)
Definition student_at (h : Heap) (s : nat) : Student := h_students h !!! s.
Definition instructor_at (h : Heap) (i : nat) : Instructor := h_instructors h !!! i.
Definition course_at (h : Heap) (c : nat) : Course := h_courses h !!! c.

(** Attribute assignment on the object behind a reference. *)
Definition update_student (s : nat) (f : Student -> Student) (h : Heap) : Heap :=
  {| h_students := alter f s (h_students h);
     h_instructors := h_instructors h;
     h_courses := h_courses h |}.

Definition update_instructor (i : nat) (f : Instructor -> Instructor) (h : Heap)
    : Heap :=
  {| h_students := h_students h;
     h_instructors := alter f i (h_instructors h);
     h_courses := h_courses h |}.

Definition update_course (c : nat) (f : Course -> Course) (h : Heap) : Heap :=
  {| h_students := h_students h;
     h_instructors := h_instructors h;
     h_courses := alter f c (h_courses h) |}.

Definition with_registered_courses (l : list nat) (x : Student) : Student :=
  {| Student_super := Student_super x; student_id := student_id x;
     registered_courses := l |}.

Definition with_assigned_courses (l : list nat) (x : Instructor) : Instructor :=
  {| Instructor_super := Instructor_super x; instructor_id := instructor_id x;
     assigned_courses := l |}.

Definition with_enrolled_students (l : list nat) (x : Course) : Course :=
  {| course_id := course_id x; course_name := course_name x;
     instructor := instructor x; enrolled_students := l |}.

Definition with_instructor (i : option nat) (x : Course) : Course :=
  {| course_id := course_id x; course_name := course_name x;
     instructor := i; enrolled_students := enrolled_students x |}.

Definition with_course_name (n : string) (x : Course) : Course :=
  {| course_id := course_id x; course_name := n;
     instructor := instructor x; enrolled_students := enrolled_students x |}.

(** [Student(name, age, email, student_id)]. *)
Definition Student_init (name : string) (age : pyval) (email student_id : string)
    : M Heap nat :=
  let* p := lift (Person_init name age email) in
  fun h =>
    ({| h_students := h_students h ++
          [{| Student_super := p; student_id := student_id;
              registered_courses := [] |}];
        h_instructors := h_instructors h;
        h_courses := h_courses h |},
     Ret (length (h_students h))).

(** [Instructor(name, age, email, instructor_id)]. *)
Definition Instructor_init (name : string) (age : pyval)
    (email instructor_id : string) : M Heap nat :=
  let* p := lift (Person_init name age email) in
  fun h =>
    ({| h_students := h_students h;
        h_instructors := h_instructors h ++
          [{| Instructor_super := p; instructor_id := instructor_id;
              assigned_courses := [] |}];
        h_courses := h_courses h |},
     Ret (length (h_instructors h))).

(** [Course(course_id, course_name, instructor)]. *)
Definition Course_init (course_id course_name : string) (instructor : option nat)
    : M Heap nat :=
  fun h =>
    ({| h_students := h_students h;
        h_instructors := h_instructors h;
        h_courses := h_courses h ++
          [{| course_id := course_id; course_name := course_name;
              instructor := instructor; enrolled_students := [] |}] |},
     Ret (length (h_courses h))).

(** [set_email] inherited by [Student] and by [Instructor]. *)
Definition Student_set_email (self : nat) (email : string) : M Heap unit :=
  fun h =>
    let (p, r) := Person_set_email email (Student_super (student_at h self)) in
    (update_student self (fun x =>
       {| Student_super := p; student_id := student_id x;
          registered_courses := registered_courses x |}) h, r).

Definition Instructor_set_email (self : nat) (email : string) : M Heap unit :=
  fun h =>
    let (p, r) := Person_set_email email (Instructor_super (instructor_at h self)) in
    (update_instructor self (fun x =>
       {| Instructor_super := p; instructor_id := instructor_id x;
          assigned_courses := assigned_courses x |}) h, r).

(** [Student.register_course] and [Course.add_student] call each other; the
    first argument bounds the depth of the calls. *)
Fixpoint Student_register_course_rec (depth : nat) (self course : nat)
    : M Heap unit :=
  match depth with
  | O => lift Fuel
  | S n =>
      let* h := get in
      if decide (course ∈ registered_courses (student_at h self)) then ret tt
      else
        modify (update_student self (fun x =>
          with_registered_courses (registered_courses x ++ [course]) x)) >>
        Course_add_student_rec n course self
  end
with Course_add_student_rec (depth : nat) (self student : nat) : M Heap unit :=
  match depth with
  | O => lift Fuel
  | S n =>
      let* h := get in
      if decide (student ∈ enrolled_students (course_at h self)) then ret tt
      else
        modify (update_course self (fun x =>
          with_enrolled_students (enrolled_students x ++ [student]) x)) >>
        let* h' := get in
        if decide (self ∈ registered_courses (student_at h' student)) then ret tt
        else Student_register_course_rec n student self
  end.

(** [Instructor.assign_course] and [Course.set_instructor], likewise.
    [set_instructor] stores its argument before it reads
    [instructor.assigned_courses], which [None] does not have. *)
Fixpoint Instructor_assign_course_rec (depth : nat) (self course : nat)
    : M Heap unit :=
  match depth with
  | O => lift Fuel
  | S n =>
      let* h := get in
      if decide (course ∈ assigned_courses (instructor_at h self)) then ret tt
      else
        modify (update_instructor self (fun x =>
          with_assigned_courses (assigned_courses x ++ [course]) x)) >>
        Course_set_instructor_rec n course (Some self)
  end
with Course_set_instructor_rec (depth : nat) (self : nat) (instr : option nat)
    : M Heap unit :=
  match depth with
  | O => lift Fuel
  | S n =>
      modify (update_course self (with_instructor instr)) >>
      match instr with
      | None =>
          raise (AttributeError
                   "'NoneType' object has no attribute 'assigned_courses'")
      | Some i =>
          let* h := get in
          if decide (self ∈ assigned_courses (instructor_at h i)) then ret tt
          else Instructor_assign_course_rec n i self
      end
  end.

(** The depth the four methods are run with; three calls are the most a
    chain can make (see [depth_enough_register] and its siblings). *)
Definition call_depth : nat := 8.

Definition Student_register_course := Student_register_course_rec call_depth.
Definition Course_add_student := Course_add_student_rec call_depth.
Definition Instructor_assign_course := Instructor_assign_course_rec call_depth.
Definition Course_set_instructor := Course_set_instructor_rec call_depth.

(** [Student.unregister_course]. *)
Definition Student_unregister_course (self course : nat) : M Heap unit :=
  let* h := get in
  if decide (course ∈ registered_courses (student_at h self)) then
    match list_remove course (registered_courses (student_at h self)) with
    | None => raise (ValueError "list.remove(x): x not in list")
    | Some l =>
        modify (update_student self (with_registered_courses l)) >>
        let* h' := get in
        match list_remove self (enrolled_students (course_at h' course)) with
        | None => raise (ValueError "list.remove(x): x not in list")
        | Some l' => modify (update_course course (with_enrolled_students l'))
        end
    end
  else ret tt.

(** [Instructor.unassign_course]. *)
Definition Instructor_unassign_course (self course : nat) : M Heap unit :=
  let* h := get in
  if decide (course ∈ assigned_courses (instructor_at h self)) then
    match list_remove course (assigned_courses (instructor_at h self)) with
    | None => raise (ValueError "list.remove(x): x not in list")
    | Some l =>
        modify (update_instructor self (with_assigned_courses l)) >>
        modify (update_course course (with_instructor None))
    end
  else ret tt.

(** The dictionaries of [Student.to_dict], [Instructor.to_dict] and
    [Course.to_dict]: related objects appear by their identifiers. *)
Record StudentDict : Type := {
  sd_name : string;
  sd_age : pyval;
  sd__email : string;
  sd_student_id : string;
  sd_registered_courses : list string
}.

Record InstructorDict : Type := {
  id_name : string;
  id_age : pyval;
  id__email : string;
  id_instructor_id : string;
  id_assigned_courses : list string
}.

Record CourseDict : Type := {
  cd_course_id : string;
  cd_course_name : string;
  cd_instructor_id : option string;
  cd_enrolled_students : list string
}.

Definition Student_to_dict (h : Heap) (self : nat) : StudentDict :=
  let x := student_at h self in
  let data := Person_to_dict (Student_super x) in
  {| sd_name := pd_name data; sd_age := pd_age data; sd__email := pd__email data;
     sd_student_id := student_id x;
     sd_registered_courses :=
       map (fun c => course_id (course_at h c)) (registered_courses x) |}.

Definition Instructor_to_dict (h : Heap) (self : nat) : InstructorDict :=
  let x := instructor_at h self in
  let data := Person_to_dict (Instructor_super x) in
  {| id_name := pd_name data; id_age := pd_age data; id__email := pd__email data;
     id_instructor_id := instructor_id x;
     id_assigned_courses :=
       map (fun c => course_id (course_at h c)) (assigned_courses x) |}.

Definition Course_to_dict (h : Heap) (self : nat) : CourseDict :=
  let x := course_at h self in
  {| cd_course_id := course_id x;
     cd_course_name := course_name x;
     cd_instructor_id :=
       match instructor x with
       | Some i => Some (instructor_id (instructor_at h i))
       | None => None
       end;
     cd_enrolled_students :=
       map (fun s => student_id (student_at h s)) (enrolled_students x) |}.

(** [Student.from_dict], [Instructor.from_dict], [Course.from_dict]: the
    relations are left for the caller to restore. *)
Definition Student_from_dict (data : StudentDict) : M Heap nat :=
  Student_init (sd_name data) (sd_age data) (sd__email data) (sd_student_id data).

Definition Instructor_from_dict (data : InstructorDict) : M Heap nat :=
  Instructor_init (id_name data) (id_age data) (id__email data)
    (id_instructor_id data).

Definition Course_from_dict (data : CourseDict) : M Heap nat :=
  Course_init (cd_course_id data) (cd_course_name data) None.

End models.

(* ===================================================================== *)
(** ** The SQLite store behind [DataManager.conn] *)
(* ===================================================================== *)

Module sqlite3.

(** A value bound to a statement parameter or stored in a column.
    [SNumericText s] is what a column of INTEGER affinity stores for a text
    [s] that is not an integer literal within 64 bits: the REAL or INTEGER
    that [s] spells when it is a numeric literal with a fraction, an
    exponent or too many digits, the text [s] otherwise.  That conversion
    is a function of [s] alone and is not computed here; no modelled
    operation reads an age back. *)
Inductive sqlval : Type :=
  | SNull
  | SInteger (z : Z)
  | SReal (q : Q)
  | SText (s : string)
  | SNumericText (s : string).

(** Rows of [students] and of [instructors]: key, name, age, email; the
    age is stored as the INTEGER affinity of its column leaves it. *)
Record PersonRow : Type := {
  pr_id : string;
  pr_name : string;
  pr_age : sqlval;
  pr_email : string
}.

(** Rows of [courses]: [instructor_id] is nullable. *)
Record CourseRow : Type := {
  cr_course_id : string;
  cr_course_name : string;
  cr_instructor_id : option string
}.

(** The four tables [create_tables] declares.  [CREATE TABLE IF NOT EXISTS]
    leaves the content of an existing table alone. *)
Record Database : Type := {
  t_students : list PersonRow;
  t_instructors : list PersonRow;
  t_courses : list CourseRow;
  t_registrations : list (string * string)  (* student_id, course_id *)
}.

Definition empty_db : Database :=
  {| t_students := []; t_instructors := []; t_courses := [];
     t_registrations := [] |}.

(** Binding a Python value: an [int] outside 64 bits raises
    [OverflowError], which is not an [sqlite3.Error]. *)
Definition bind_param (v : pyval) : outcome sqlval :=
  match v with
  | PNone => Ret SNull
  | PInt z =>
      if (- 2 ^ 63 <=? z) && (z <? 2 ^ 63) then Ret (SInteger z)
      else Raise (OverflowError "Python int too large to convert to SQLite INTEGER")
  | PFloat q => Ret (SReal q)
  | PStr s => Ret (SText s)
  end.

Definition is_null (v : sqlval) : bool :=
  match v with
  | SNull => true
  | _ => false
  end.

(** The white space a numeric literal may start and end with: tab, line
    feed, vertical tab, form feed, carriage return, space. *)
Definition sql_space (c : ascii) : bool :=
  let n := N_of_ascii c in
  ((9 <=? n) && (n <=? 13) || (n =? 32))%N.

Fixpoint skip_spaces (s : string) : string :=
  match s with
  | String c s' => if sql_space c then skip_spaces s' else s
  | EmptyString => s
  end.

(** The decimal digits a string starts with: their value after [acc],
    whether there was one, and the rest of the string. *)
Fixpoint read_digits (s : string) (acc : Z) (seen : bool)
    : Z * bool * string :=
  match s with
  | String c s' =>
      let n := N_of_ascii c in
      if ((48 <=? n) && (n <=? 57))%N
      then read_digits s' (10 * acc + (Z.of_N n - 48)) true
      else (acc, seen, s)
  | EmptyString => (acc, seen, s)
  end.

(** The integer a text spells: white space, a sign or none, digits, white
    space. *)
Definition integer_literal (s : string) : option Z :=
  let s1 := skip_spaces s in
  let '(negative, s2) :=
    match s1 with
    | String "-" r => (true, r)
    | String "+" r => (false, r)
    | _ => (false, s1)
    end in
  let '(v, seen, s3) := read_digits s2 0 false in
  match skip_spaces s3 with
  | EmptyString => if seen then Some (if negative then - v else v) else None
  | _ => None
  end.

(** The INTEGER affinity of the column [age], applied to the value to
    store: a REAL that is an integer strictly between the least and the
    greatest 64-bit integer becomes that INTEGER, every other REAL stays; a
    text that is an integer literal within 64 bits becomes that INTEGER. *)
Definition integer_affinity (v : sqlval) : sqlval :=
  match v with
  | SReal q =>
      let z := Qnum q / Zpos (Qden q) in
      if (Qnum q mod Zpos (Qden q) =? 0) && (- 2 ^ 63 <? z) && (z <? 2 ^ 63 - 1)
      then SInteger z
      else SReal q
  | SText s =>
      match integer_literal s with
      | Some z =>
          if (- 2 ^ 63 <=? z) && (z <? 2 ^ 63) then SInteger z
          else SNumericText s
      | None => SNumericText s
      end
  | _ => v
  end.

Definition has_person (id : string) (t : list PersonRow) : bool :=
  bool_decide (id ∈ map pr_id t).

Definition has_course (id : string) (t : list CourseRow) : bool :=
  bool_decide (id ∈ map cr_course_id t).

(** [INSERT INTO <table> (<key>, name, age, email) VALUES (?, ?, ?, ?)] on a
    table of persons: [age] has INTEGER affinity and is [NOT NULL], the key
    is the primary key. *)
Definition insert_person (table key : string) (id nm : string) (ag : pyval)
    (em : string) (t : list PersonRow) : outcome (list PersonRow) :=
  obind (bind_param ag) (fun a =>
    if is_null a then
      Raise (sqlite3_Error ("NOT NULL constraint failed: " ++ table ++ ".age"))
    else if has_person id t then
      Raise (sqlite3_Error
               ("UNIQUE constraint failed: " ++ table ++ "." ++ key))
    else
      Ret (t ++ [{| pr_id := id; pr_name := nm;
                    pr_age := integer_affinity a;
                    pr_email := em |}])%list).

Definition insert_student (id nm : string) (ag : pyval) (em : string)
    (db : Database) : outcome Database :=
  obind (insert_person "students" "student_id" id nm ag em (t_students db))
    (fun t =>
       Ret {| t_students := t; t_instructors := t_instructors db;
              t_courses := t_courses db;
              t_registrations := t_registrations db |}).

Definition insert_instructor (id nm : string) (ag : pyval) (em : string)
    (db : Database) : outcome Database :=
  obind (insert_person "instructors" "instructor_id" id nm ag em
           (t_instructors db))
    (fun t =>
       Ret {| t_students := t_students db; t_instructors := t;
              t_courses := t_courses db;
              t_registrations := t_registrations db |}).

(** [INSERT INTO courses (course_id, course_name, instructor_id)]: primary
    key, and the foreign key to [instructors] ([PRAGMA foreign_keys = ON]). *)
Definition insert_course (id nm : string) (instr : option string)
    (db : Database) : outcome Database :=
  if has_course id (t_courses db) then
    Raise (sqlite3_Error "UNIQUE constraint failed: courses.course_id")
  else if match instr with
          | Some i => negb (has_person i (t_instructors db))
          | None => false
          end then
    Raise (sqlite3_Error "FOREIGN KEY constraint failed")
  else
    Ret {| t_students := t_students db; t_instructors := t_instructors db;
           t_courses := (t_courses db ++
             [{| cr_course_id := id; cr_course_name := nm;
                 cr_instructor_id := instr |}])%list;
           t_registrations := t_registrations db |}.

(** [DELETE FROM students WHERE student_id = ?], with [ON DELETE CASCADE]
    on [registrations] when a row was deleted: the registrations of an
    identifier that has no row in [students] stay. *)
Definition delete_student (id : string) (db : Database) : Database :=
  {| t_students := filter (fun r => pr_id r ≠ id) (t_students db);
     t_instructors := t_instructors db;
     t_courses := t_courses db;
     t_registrations :=
       if has_person id (t_students db)
       then filter (fun r => r.1 ≠ id) (t_registrations db)
       else t_registrations db |}.

(** [UPDATE courses SET instructor_id = NULL WHERE instructor_id = ?]. *)
Definition null_instructor (id : string) (r : CourseRow) : CourseRow :=
  if decide (cr_instructor_id r = Some id) then
    {| cr_course_id := cr_course_id r; cr_course_name := cr_course_name r;
       cr_instructor_id := None |}
  else r.

Definition update_courses_null (id : string) (db : Database) : Database :=
  {| t_students := t_students db; t_instructors := t_instructors db;
     t_courses := map (null_instructor id) (t_courses db);
     t_registrations := t_registrations db |}.

(** [DELETE FROM instructors WHERE instructor_id = ?], with
    [ON DELETE SET NULL] on [courses] when a row was deleted. *)
Definition delete_instructor (id : string) (db : Database) : Database :=
  {| t_students := t_students db;
     t_instructors := filter (fun r => pr_id r ≠ id) (t_instructors db);
     t_courses :=
       if has_person id (t_instructors db)
       then map (null_instructor id) (t_courses db)
       else t_courses db;
     t_registrations := t_registrations db |}.

(** [DELETE FROM courses WHERE course_id = ?], with [ON DELETE CASCADE]
    on [registrations] when a row was deleted. *)
Definition delete_course (id : string) (db : Database) : Database :=
  {| t_students := t_students db;
     t_instructors := t_instructors db;
     t_courses := filter (fun r => cr_course_id r ≠ id) (t_courses db);
     t_registrations :=
       if has_course id (t_courses db)
       then filter (fun r => r.2 ≠ id) (t_registrations db)
       else t_registrations db |}.

End sqlite3.

(* ===================================================================== *)
(** ** data_manager.py *)
(* ===================================================================== *)

Module data_manager.

Import models sqlite3.

(** The attributes of a [DataManager]: the store behind its connection and
    the three in-memory dictionaries (the mirror), from an identifier to a
    reference. *)
Record DataManager : Type := {
  conn : Database;
  students : dict nat;
  instructors : dict nat;
  courses : dict nat
}.

(** The document [save_data] writes and [load_data] reads: [json.dump] and
    [json.load] carry these lists of dictionaries unchanged. *)
Record Document : Type := {
  doc_students : list StudentDict;
  doc_instructors : list InstructorDict;
  doc_courses : list CourseDict
}.

(** What a method of a [DataManager] can see and change: the object heap,
    the manager itself, what was printed, and the files.  [unwritable]
    maps each path that cannot be opened for writing to the text of the
    [OSError] that [open] raises for it. *)
Record World : Type := {
  heap : Heap;
  self : DataManager;
  stdout : list string;
  files : dict Document;
  unwritable : dict string
}.

(** [DataManager(db_name)], for a database file whose content is [db]. *)
Definition DataManager_init (db : Database) : DataManager :=
  {| conn := db; students := []; instructors := []; courses := [] |}.

Definition set_heap (h : Heap) (w : World) : World :=
  {| heap := h; self := self w; stdout := stdout w; files := files w;
     unwritable := unwritable w |}.

Definition set_self (d : DataManager) (w : World) : World :=
  {| heap := heap w; self := d; stdout := stdout w; files := files w;
     unwritable := unwritable w |}.

Definition set_conn (db : Database) (w : World) : World :=
  set_self {| conn := db; students := students (self w);
              instructors := instructors (self w);
              courses := courses (self w) |} w.

Definition set_students (d : dict nat) (w : World) : World :=
  set_self {| conn := conn (self w); students := d;
              instructors := instructors (self w);
              courses := courses (self w) |} w.

Definition set_instructors (d : dict nat) (w : World) : World :=
  set_self {| conn := conn (self w); students := students (self w);
              instructors := d; courses := courses (self w) |} w.

Definition set_courses (d : dict nat) (w : World) : World :=
  set_self {| conn := conn (self w); students := students (self w);
              instructors := instructors (self w); courses := d |} w.

(** A method of the entity model, run on the heap of the world. *)
Definition on_heap {A} (m : M Heap A) : M World A :=
  fun w => let (h, r) := m (heap w) in (set_heap h w, r).

(** [print(line)]. *)
Definition print (line : string) : M World unit :=
  modify (fun w =>
    {| heap := heap w; self := self w; stdout := (stdout w ++ [line])%list;
       files := files w; unwritable := unwritable w |}).

(** [cursor.execute(...)] followed by [self.conn.commit()]. *)
Definition execute (stmt : Database -> outcome Database) : M World unit :=
  let* w := get in
  let* db := lift (stmt (conn (self w))) in
  modify (set_conn db).

Definition is_sqlite3_Error (e : exn) : bool :=
  match e with
  | sqlite3_Error _ => true
  | _ => false
  end.

Definition is_IOError (e : exn) : bool :=
  match e with
  | IOError _ => true
  | _ => false
  end.

(** [DataManager.add_student]. *)
Definition add_student (student : nat) : M World unit :=
  try_except
    (let* w := get in
     let x := student_at (heap w) student in
     execute (insert_student (student_id x) (name (Student_super x))
                (age (Student_super x)) (Person_get_email (Student_super x))) >>
     modify (fun w => set_students (dict_set (student_id x) student
                                      (students (self w))) w))
    is_sqlite3_Error
    (fun e => print ("An error occurred while adding student: " ++ exn_str e)).

(** [DataManager.add_instructor]. *)
Definition add_instructor (instr : nat) : M World unit :=
  try_except
    (let* w := get in
     let x := instructor_at (heap w) instr in
     execute (insert_instructor (instructor_id x) (name (Instructor_super x))
                (age (Instructor_super x))
                (Person_get_email (Instructor_super x))) >>
     modify (fun w => set_instructors (dict_set (instructor_id x) instr
                                         (instructors (self w))) w))
    is_sqlite3_Error
    (fun e => print ("An error occurred while adding instructor: " ++ exn_str e)).

(** [DataManager.add_course]. *)
Definition add_course (course : nat) : M World unit :=
  try_except
    (let* w := get in
     let x := course_at (heap w) course in
     execute (insert_course (course_id x) (course_name x)
                match instructor x with
                | Some i => Some (instructor_id (instructor_at (heap w) i))
                | None => None
                end) >>
     modify (fun w => set_courses (dict_set (course_id x) course
                                     (courses (self w))) w))
    is_sqlite3_Error
    (fun e => print ("An error occurred while adding course: " ++ exn_str e)).

(** [DataManager.delete_student]. *)
Definition delete_student (student_id : string) : M World unit :=
  try_except
    (execute (fun db => Ret (sqlite3.delete_student student_id db)) >>
     modify (fun w => set_students (dict_pop student_id (students (self w))) w))
    is_sqlite3_Error
    (fun e => print ("An error occurred while deleting student: " ++ exn_str e)).

(** The body of the loop of [delete_instructor] over the resident courses. *)
Definition clear_instructor (instructor_id : string) (course : nat)
    : M World unit :=
  let* w := get in
  match instructor (course_at (heap w) course) with
  | Some i =>
      if decide (models.instructor_id (instructor_at (heap w) i) = instructor_id)
      then on_heap (modify (update_course course (with_instructor None)))
      else ret tt
  | None => ret tt
  end.

(** [DataManager.delete_instructor]. *)
Definition delete_instructor (instructor_id : string) : M World unit :=
  try_except
    (execute (fun db =>
       Ret (update_courses_null instructor_id
              (sqlite3.delete_instructor instructor_id db))) >>
     modify (fun w =>
       set_instructors (dict_pop instructor_id (instructors (self w))) w) >>
     let* w := get in
     for_each (dict_values (courses (self w))) (clear_instructor instructor_id))
    is_sqlite3_Error
    (fun e => print ("An error occurred while deleting instructor: " ++ exn_str e)).

(** [DataManager.delete_course]. *)
Definition delete_course (course_id : string) : M World unit :=
  try_except
    (execute (fun db => Ret (sqlite3.delete_course course_id db)) >>
     modify (fun w => set_courses (dict_pop course_id (courses (self w))) w))
    is_sqlite3_Error
    (fun e => print ("An error occurred while deleting course: " ++ exn_str e)).

(** The dictionary [save_data] builds. *)
Definition snapshot (w : World) : Document :=
  {| doc_students :=
       map (Student_to_dict (heap w)) (dict_values (students (self w)));
     doc_instructors :=
       map (Instructor_to_dict (heap w)) (dict_values (instructors (self w)));
     doc_courses :=
       map (Course_to_dict (heap w)) (dict_values (courses (self w))) |}.

(** [open(filename, 'w')] and [json.dump]. *)
Definition write_file (filename : string) (data : Document) : M World unit :=
  let* w := get in
  match dict_get filename (unwritable w) with
  | Some msg => raise (IOError msg)
  | None =>
      modify (fun w =>
        {| heap := heap w; self := self w; stdout := stdout w;
           files := dict_set filename data (files w);
           unwritable := unwritable w |})
  end.

(** [open(filename, 'r')] and [json.load]. *)
Definition read_file (filename : string) : M World Document :=
  let* w := get in
  match dict_get filename (files w) with
  | Some data => ret data
  | None =>
      raise (IOError ("[Errno 2] No such file or directory: '" ++ filename ++ "'"))
  end.

(** [DataManager.save_data]. *)
Definition save_data (filename : string) : M World unit :=
  let* w := get in
  let data := snapshot w in
  try_except (write_file filename data) is_IOError
    (fun e => print ("An error occurred while saving data: " ++ exn_str e)).

(** The truth value of an optional identifier: [None] and the empty string
    are false. *)
Definition truthy (id : option string) : bool :=
  match id with
  | Some s => negb (bool_decide (s = ""))
  | None => false
  end.

(** The three loading loops of [load_data], one entry each.  The mirror is
    written before the [add_] method is called. *)
Definition load_student (s_data : StudentDict) : M World unit :=
  let* student := on_heap (Student_from_dict s_data) in
  let* w := get in
  modify (set_students
            (dict_set (student_id (student_at (heap w) student)) student
               (students (self w)))) >>
  add_student student.

Definition load_instructor (i_data : InstructorDict) : M World unit :=
  let* instr := on_heap (Instructor_from_dict i_data) in
  let* w := get in
  modify (set_instructors
            (dict_set (instructor_id (instructor_at (heap w) instr)) instr
               (instructors (self w)))) >>
  add_instructor instr.

Definition load_course (c_data : CourseDict) : M World unit :=
  let* w := get in
  let instructor_id := cd_instructor_id c_data in
  let instr :=
    if truthy instructor_id then
      match instructor_id with
      | Some i => dict_get i (instructors (self w))
      | None => None
      end
    else None in
  let* course := on_heap (Course_from_dict c_data) in
  on_heap (Course_set_instructor course instr) >>
  let* w := get in
  modify (set_courses
            (dict_set (course_id (course_at (heap w) course)) course
               (courses (self w)))) >>
  add_course course.

(** [self.register_student_in_course(student_id, course_id)]: the class
    defines no such method, so the attribute lookup raises. *)
Definition register_student_in_course (student_id course_id : string)
    : M World unit :=
  raise (AttributeError
    "'DataManager' object has no attribute 'register_student_in_course'").

(** The enrolment loop of [load_data], one course entry. *)
Definition enroll_students (c_data : CourseDict) : M World unit :=
  let course_id := cd_course_id c_data in
  let student_ids := cd_enrolled_students c_data in
  let* w := get in
  match dict_get course_id (courses (self w)) with
  | Some course =>
      for_each student_ids (fun student_id =>
        let* w := get in
        match dict_get student_id (students (self w)) with
        | Some student =>
            on_heap (Course_add_student course student) >>
            register_student_in_course student_id course_id
        | None => ret tt
        end)
  | None => ret tt
  end.

(** [DataManager.load_data]. *)
Definition load_data (filename : string) : M World unit :=
  fun w =>
    match read_file filename w with
    | (w', Raise e) =>
        if is_IOError e then
          print ("An error occurred while loading data: " ++ exn_str e) w'
        else (w', Raise e)
    | (w', Fuel) => (w', Fuel)
    | (w', Ret data) =>
        (modify (set_students []) >>
         for_each (doc_students data) load_student >>
         modify (set_instructors []) >>
         for_each (doc_instructors data) load_instructor >>
         modify (set_courses []) >>
         for_each (doc_courses data) load_course >>
         for_each (doc_courses data) enroll_students) w'
    end.

End data_manager.

(* ===================================================================== *)
(** ** models_PyQt.py *)
(* ===================================================================== *)

Module models_PyQt.

Import regex.

(** [r'^[a-zA-Z0-9_.+-]+@[a-zA-Z0-9-]+\.[a-zA-Z0-9-.]+$'], without its
    anchors. *)
Definition local_part (c : ascii) : bool :=
  alnum c || is_char "_" c || is_char "." c || is_char "+" c || is_char "-" c.
Definition domain_part (c : ascii) : bool := alnum c || is_char "-" c.
Definition suffix_part (c : ascii) : bool :=
  alnum c || is_char "-" c || is_char "." c.

Definition reg : re :=
  Cat (Plus (Class local_part))
    (Cat (Class (is_char "@"))
       (Cat (Plus (Class domain_part))
          (Cat (Class (is_char ".")) (Plus (Class suffix_part))))).

(** [person.validate_name], [validate_age], [validate_email]: each returns
    [None] or raises. *)
Definition validate_name (name : string) : outcome unit :=
  if bool_decide (name = "") then Raise (ValueError "Name cannot be empty.")
  else Ret tt.

Definition validate_age (age : pyval) : outcome unit :=
  if type_is_not_int age then Raise (ValueError "Age must be an integer.")
  else obind (lt_zero age) (fun neg =>
    if neg then Raise (ValueError "Age must be a non-negative integer.")
    else Ret tt).

Definition validate_email (email : string) : outcome unit :=
  if re_match reg email then Ret tt
  else Raise (ValueError "Email address is invalid!").

Record person : Type := {
  name : string;
  age : pyval;
  _email : string
}.

(** [person.__init__]. *)
Definition person_init (name : string) (age : pyval) (_email : string)
    : outcome person :=
  obind (validate_name name) (fun _ =>
  obind (validate_age age) (fun _ =>
  obind (validate_email _email) (fun _ =>
    Ret {| name := name; age := age; _email := _email |}))).

Record student : Type := {
  student_super : person;
  student_id : string;
  registered_courses : list string
}.

Definition validate_student_id (student_id : string) : outcome unit :=
  if bool_decide (student_id = "") then
    Raise (ValueError "Student ID cannot be empty.")
  else Ret tt.

(** [student.__init__]. *)
Definition student_init (name : string) (age : pyval) (_email student_id : string)
    (registered_courses : list string) : outcome student :=
  obind (person_init name age _email) (fun p =>
  obind (validate_student_id student_id) (fun _ =>
    Ret {| student_super := p; student_id := student_id;
           registered_courses := registered_courses |})).

Record instructor : Type := {
  instructor_super : person;
  instructor_id : string;
  assigned_courses : list string
}.

(** The classes a caller can name, and the objects it can pass to
    [course.add_student]: instances of the model classes, scalars, and
    classes themselves. *)
Inductive pyclass : Type :=
  | class_object | class_type | class_int | class_str
  | class_person | class_student | class_instructor | class_course.

Inductive pyobj : Type :=
  | a_student (s : student)
  | an_instructor (i : instructor)
  | a_value (v : pyval)
  | a_class (c : pyclass).

Record course : Type := {
  course_id : string;
  course_name : string;
  course_instructor : option instructor;
  enrolled_students : list pyobj
}.

(** [isinstance(x, x)]: the second argument must be a class; among the
    classes only [object] and [type] are instances of themselves. *)
Definition isinstance_of_itself (x : pyobj) : outcome bool :=
  match x with
  | a_class class_object | a_class class_type => Ret true
  | a_class _ => Ret false
  | _ =>
      Raise (TypeError
        "isinstance() arg 2 must be a type, a tuple of types, or a union")
  end.

(** [course.add_student]: inside the method the name [student] is the
    parameter, not the class, so the test is [isinstance(student, student)]
    on the argument. *)
Definition add_student (student : pyobj) : M course unit :=
  let* ok := lift (isinstance_of_itself student) in
  if negb ok then raise (ValueError "Student must be a valid student object.")
  else
    modify (fun self =>
      {| course_id := course_id self; course_name := course_name self;
         course_instructor := course_instructor self;
         enrolled_students := enrolled_students self ++ [student] |}).

End models_PyQt.

(* ===================================================================== *)
(** ** Vocabulary of the properties *)
(* ===================================================================== *)

Module predicates.

Import models sqlite3 data_manager.
Local Open Scope nat_scope.
Local Open Scope list_scope.

(** An age below zero: an [int] or a float. *)
Definition negative (age : pyval) : Prop :=
  match age with
  | PInt z => (z < 0)%Z
  | PFloat q => (q < inject_Z 0)%Q
  | _ => False
  end.

(** An [int] or a float. *)
Definition is_number (age : pyval) : Prop :=
  match age with
  | PInt _ | PFloat _ => True
  | _ => False
  end.

(** The exception is an instance of [ValueError]. *)
Definition is_ValueError (e : exn) : Prop :=
  match e with
  | ValueError _ => True
  | _ => False
  end.

(** The exception is an instance of [TypeError]. *)
Definition is_TypeError (e : exn) : Prop :=
  match e with
  | TypeError _ => True
  | _ => False
  end.

(** A number that is not below zero: an [int] or a float. *)
Definition non_negative (age : pyval) : Prop :=
  match age with
  | PInt z => (0 <= z)%Z
  | PFloat q => (inject_Z 0 <= q)%Q
  | _ => False
  end.

(** The heap after a student, or an instructor, was created. *)
Definition heap_with_student (x : Student) (h : Heap) : Heap :=
  {| h_students := h_students h ++ [x];
     h_instructors := h_instructors h;
     h_courses := h_courses h |}.

Definition heap_with_instructor (y : Instructor) (h : Heap) : Heap :=
  {| h_students := h_students h;
     h_instructors := h_instructors h ++ [y];
     h_courses := h_courses h |}.

(** The stores of [h'] have the sizes of those of [h]: no object was
    created. *)
Definition same_shape (h h' : Heap) : Prop :=
  length (h_students h') = length (h_students h) /\
  length (h_instructors h') = length (h_instructors h) /\
  length (h_courses h') = length (h_courses h).

(** Referential symmetry between students and courses: a student's
    [registered_courses] holds a course exactly when the course's
    [enrolled_students] holds the student. *)
Definition student_course_symmetric (h : Heap) : Prop :=
  forall s c, s < length (h_students h) -> c < length (h_courses h) ->
    (c ∈ registered_courses (student_at h s) <->
     s ∈ enrolled_students (course_at h c)).

(** Referential symmetry between instructors and courses: an instructor's
    [assigned_courses] holds a course exactly when the course's [instructor]
    is that instructor. *)
Definition instructor_course_symmetric (h : Heap) : Prop :=
  forall i c, i < length (h_instructors h) -> c < length (h_courses h) ->
    (c ∈ assigned_courses (instructor_at h i) <->
     instructor (course_at h c) = Some i).

(** The three kinds of entity [add_student], [add_instructor] and
    [add_course] take, as references. *)
Inductive entity : Type :=
  | the_student (s : nat)
  | the_instructor (i : nat)
  | the_course (c : nat).

(** The [add_] method of the entity's kind. *)
Definition add (e : entity) : M World unit :=
  match e with
  | the_student s => add_student s
  | the_instructor i => add_instructor i
  | the_course c => add_course c
  end.

(** The [INSERT] the method executes for the entity, on the store of [w]. *)
Definition insert_of (w : World) (e : entity) : outcome Database :=
  match e with
  | the_student s =>
      let x := student_at (heap w) s in
      insert_student (student_id x) (name (Student_super x))
        (age (Student_super x)) (_email (Student_super x)) (conn (self w))
  | the_instructor i =>
      let x := instructor_at (heap w) i in
      insert_instructor (instructor_id x) (name (Instructor_super x))
        (age (Instructor_super x)) (_email (Instructor_super x)) (conn (self w))
  | the_course c =>
      let x := course_at (heap w) c in
      insert_course (course_id x) (course_name x)
        match instructor x with
        | Some i => Some (instructor_id (instructor_at (heap w) i))
        | None => None
        end (conn (self w))
  end.

(** The line the method prints when [sqlite3] raised with message [msg]. *)
Definition report (e : entity) (msg : string) : string :=
  match e with
  | the_student _ => "An error occurred while adding student: " ++ msg
  | the_instructor _ => "An error occurred while adding instructor: " ++ msg
  | the_course _ => "An error occurred while adding course: " ++ msg
  end%string.

(** Whether the identifier of the entity is already a key of its table. *)
Definition key_taken (w : World) (e : entity) : bool :=
  match e with
  | the_student s =>
      has_person (student_id (student_at (heap w) s)) (t_students (conn (self w)))
  | the_instructor i =>
      has_person (instructor_id (instructor_at (heap w) i))
        (t_instructors (conn (self w)))
  | the_course c =>
      has_course (course_id (course_at (heap w) c)) (t_courses (conn (self w)))
  end.

(** The age of a person as [sqlite3] takes it: not [None], and within 64
    bits when it is an [int]. *)
Definition age_storable (w : World) (e : entity) : Prop :=
  match e with
  | the_student s =>
      exists a, bind_param (age (Student_super (student_at (heap w) s))) = Ret a /\
                is_null a = false
  | the_instructor i =>
      exists a, bind_param (age (Instructor_super (instructor_at (heap w) i)))
                = Ret a /\ is_null a = false
  | the_course _ => True
  end.

(** What one round of the loop of [delete_instructor] does to the heap. *)
Definition cleared (iid : string) (h : Heap) (c : nat) : Heap :=
  match instructor (course_at h c) with
  | Some i =>
      if decide (instructor_id (instructor_at h i) = iid)
      then update_course c (with_instructor None) h
      else h
  | None => h
  end.

(** A run ends: it returns with [Q] on its value and state, or it raises;
    the depth bound is not hit. *)
Definition ends {St A} (Q : A -> St -> Prop) (r : St * outcome A) : Prop :=
  match r with
  | (s, Ret a) => Q a s
  | (_, Raise _) => True
  | (_, Fuel) => False
  end.

(** A run raises. *)
Definition raises {St A} (r : St * outcome A) : Prop :=
  match r with
  | (_, Raise _) => True
  | _ => False
  end.

(** While [load_data] runs its second and third loop, every entry of the
    mirror of instructors has one of the identifiers [ids] of the document
    and leads to a live instructor. *)
Definition mirror_live (ids : list string) (w : World) : Prop :=
  forall k v, dict_get k (instructors (self w)) = Some v ->
              k ∈ ids /\ v < length (h_instructors (heap w)).

(** The instructor [load_data] looks up for a course entry. *)
Definition looked_up (d : CourseDict) (w : World) : option nat :=
  if truthy (cd_instructor_id d) then
    match cd_instructor_id d with
    | Some i => dict_get i (instructors (self w))
    | None => None
    end
  else None.

End predicates.

(* ===================================================================== *)
(** ** States the examples start from *)
(* ===================================================================== *)

Module scenarios.

Import models sqlite3 data_manager.
Local Open Scope nat_scope.
Local Open Scope list_scope.

(** A student registered in a course, built with the constructors. *)
Definition ann_in_algebra : Heap :=
  (bind (Student_init "Ann" (PInt 20) "a@b.com" "S1") (fun s =>
   bind (Course_init "C1" "Algebra" None) (fun c =>
   Student_register_course s c)) empty_heap).1.

(** Two instructors and a course assigned to the first of them, built with
    the constructors and [assign_course]. *)
Definition algebra_with_first_instructor : Heap :=
  (bind (Instructor_init "Ira" (PInt 40) "ira@b.com" "I1") (fun i1 =>
   bind (Instructor_init "Joe" (PInt 50) "joe@b.com" "I2") (fun i2 =>
   bind (Course_init "C1" "Algebra" None) (fun c =>
   Instructor_assign_course i1 c))) empty_heap).1.

(** A manager on an empty store, before anything was created. *)
Definition initial_world : World :=
  {| heap := empty_heap; self := DataManager_init empty_db; stdout := [];
     files := []; unwritable := [] |}.



(** Ann, registered in Algebra, both added to the manager. *)
Definition ann_registered : World :=
  (bind (on_heap (Student_init "Ann" (PInt 20) "a@b.com" "S1")) (fun s1 =>
   bind (on_heap (Course_init "C1" "Algebra" None)) (fun c1 =>
   bind (add_student s1) (fun _ =>
   bind (add_course c1) (fun _ =>
   on_heap (Student_register_course s1 c1))))) initial_world).1.

(** The example of the specification: Ann registered in Algebra, saved. *)
Definition ann_saved : World :=
  (save_data "school.json" ann_registered).1.

(** The same with an instructor assigned to the course. *)
Definition ann_and_ira_saved : World :=
  (bind (on_heap (Student_init "Ann" (PInt 20) "a@b.com" "S1")) (fun s1 =>
   bind (on_heap (Instructor_init "Ira" (PInt 40) "ira@b.com" "I1")) (fun i1 =>
   bind (on_heap (Course_init "C1" "Algebra" None)) (fun c1 =>
   bind (add_student s1) (fun _ =>
   bind (add_instructor i1) (fun _ =>
   bind (add_course c1) (fun _ =>
   bind (on_heap (Instructor_assign_course i1 c1)) (fun _ =>
   bind (on_heap (Student_register_course s1 c1)) (fun _ =>
   save_data "school.json")))))))) initial_world).1.

(** A new manager in the world [w], connected to a store with content
    [db]. *)
Definition fresh_manager (db : Database) (w : World) : World :=
  {| heap := heap w; self := DataManager_init db; stdout := [];
     files := files w; unwritable := unwritable w |}.


(** Ira assigned to Algebra before the course was added, so that the row of
    the course references Ira. *)
Definition ira_teaches_algebra : World :=
  (bind (on_heap (Instructor_init "Ira" (PInt 40) "ira@b.com" "I1")) (fun i1 =>
   bind (on_heap (Course_init "C1" "Algebra" None)) (fun c1 =>
   bind (add_instructor i1) (fun _ =>
   bind (on_heap (Instructor_assign_course i1 c1)) (fun _ =>
   add_course c1)))) initial_world).1.

(** Algebra stored with Joe as its instructor, then handed over in memory
    from Joe to Ira: no method writes an assignment to the store, so the
    row of the course still references Joe. *)
Definition algebra_handed_to_ira : World :=
  (bind (on_heap (Instructor_init "Joe" (PInt 50) "joe@b.com" "I2")) (fun i2 =>
   bind (on_heap (Instructor_init "Ira" (PInt 40) "ira@b.com" "I1")) (fun i1 =>
   bind (on_heap (Course_init "C1" "Algebra" None)) (fun c1 =>
   bind (add_instructor i2) (fun _ =>
   bind (add_instructor i1) (fun _ =>
   bind (on_heap (Instructor_assign_course i2 c1)) (fun _ =>
   bind (add_course c1) (fun _ =>
   bind (on_heap (Instructor_unassign_course i2 c1)) (fun _ =>
   on_heap (Instructor_assign_course i1 c1))))))))) initial_world).1.

End scenarios.

(* ===================================================================== *)
(** ** The language of a regular expression *)
(* ===================================================================== *)

Module regex_lang.

Import regex.

(** The strings a regular expression denotes. *)
Inductive lang : re -> string -> Prop :=
  | lang_eps : lang Eps ""
  | lang_class (p : ascii -> bool) (c : ascii) :
      p c = true -> lang (Class p) (String c "")
  | lang_cat (r1 r2 : re) (s1 s2 : string) :
      lang r1 s1 -> lang r2 s2 -> lang (Cat r1 r2) (s1 ++ s2)
  | lang_alt_l (r1 r2 : re) (s : string) : lang r1 s -> lang (Alt r1 r2) s
  | lang_alt_r (r1 r2 : re) (s : string) : lang r2 s -> lang (Alt r1 r2) s
  | lang_star_nil (r : re) : lang (Star r) ""
  | lang_star_cons (r : re) (s1 s2 : string) :
      lang r s1 -> lang (Star r) s2 -> lang (Star r) (s1 ++ s2).

(** Every character of the string is in the class. *)
Fixpoint all_chars (p : ascii -> bool) (s : string) : bool :=
  match s with
  | EmptyString => true
  | String c s' => p c && all_chars p s'
  end.

(** A non-empty run of characters of the class: what [[...]+] takes. *)
Definition word (p : ascii -> bool) (s : string) : Prop :=
  s <> "" /\ all_chars p s = true.

(** The shape both e-mail patterns have: [p1+ @ p2+ \. p3+]. *)
Definition email_re (p1 p2 p3 : ascii -> bool) : re :=
  Cat (Plus (Class p1))
    (Cat (Class (is_char "@"))
       (Cat (Plus (Class p2))
          (Cat (Class (is_char ".")) (Plus (Class p3))))).

(** [a@b.c] with the three parts words of the classes. *)
Definition email_shape (p1 p2 p3 : ascii -> bool) (s : string) : Prop :=
  exists a b c, s = a ++ "@" ++ b ++ "." ++ c /\
                word p1 a /\ word p2 b /\ word p3 c.

(** The line feed. *)
Definition LF : string := String "010" "".

End regex_lang.

(* ===================================================================== *)
(** ** Vocabulary of the further properties *)
(* ===================================================================== *)

Module invariants.

Import models sqlite3 data_manager predicates.
Local Open Scope nat_scope.
Local Open Scope list_scope.

(** The fields the constructor of the PyQt [person] lets through: a
    non-empty name, an [int] age that is not negative, an e-mail of the
    pattern. *)
Definition PyQt_valid (nm : string) (ag : pyval) (em : string) : Prop :=
  nm <> ""%string /\ (exists z, ag = PInt z /\ (0 <= z)%Z) /\
  models_PyQt.validate_email em = Ret tt.

(** The registrations are in order: the lists of students and courses
    mirror each other and hold nothing twice. *)
Definition registrations_ok (h : Heap) : Prop :=
  student_course_symmetric h /\
  (forall s, s < length (h_students h) ->
             NoDup (registered_courses (student_at h s))) /\
  (forall c, c < length (h_courses h) ->
             NoDup (enrolled_students (course_at h c))).

(** The assignments are in order: an instructor's list holds exactly the
    courses that point at the instructor, each once. *)
Definition assignments_ok (h : Heap) : Prop :=
  instructor_course_symmetric h /\
  (forall i, i < length (h_instructors h) ->
             NoDup (assigned_courses (instructor_at h i))).

(** Heaps that agree on every registration but, possibly, the one between
    [s] and [c]. *)
Definition same_registrations_but (s c : nat) (h h' : Heap) : Prop :=
  forall s' c', (s', c') <> (s, c) ->
    (c' ∈ registered_courses (student_at h' s') <->
     c' ∈ registered_courses (student_at h s')) /\
    (s' ∈ enrolled_students (course_at h' c') <->
     s' ∈ enrolled_students (course_at h c')).

(** The identifier of an entity, the reference the mirror stores for it,
    its mirror in a manager, and the keys of its table. *)
Definition key_of (w : World) (e : entity) : string :=
  match e with
  | the_student s => student_id (student_at (heap w) s)
  | the_instructor i => instructor_id (instructor_at (heap w) i)
  | the_course c => course_id (course_at (heap w) c)
  end.



Definition table_keys (db : Database) (e : entity) : list string :=
  match e with
  | the_student _ => map pr_id (t_students db)
  | the_instructor _ => map pr_id (t_instructors db)
  | the_course _ => map cr_course_id (t_courses db)
  end.

(** The foreign key of a course to add: its instructor, if it has one, has
    a row in [instructors]. *)
Definition reference_stored (w : World) (e : entity) : Prop :=
  match e with
  | the_course c =>
      match instructor (course_at (heap w) c) with
      | Some i =>
          instructor_id (instructor_at (heap w) i) ∈
            map pr_id (t_instructors (conn (self w)))
      | None => True
      end
  | _ => True
  end.





(** The calls of a [DataManager] that write to the store. *)
Inductive manager_call : Type :=
  | call_add (e : entity)
  | call_delete_student (student_id : string)
  | call_delete_instructor (instructor_id : string)
  | call_delete_course (course_id : string).

Definition run_call (c : manager_call) : M World unit :=
  match c with
  | call_add e => add e
  | call_delete_student id => delete_student id
  | call_delete_instructor id => delete_instructor id
  | call_delete_course id => delete_course id
  end.

(** Every identifier of a mirror has a row in its table, and no mirror
    holds an identifier twice. *)
Definition mirror_stored (w : World) : Prop :=
  (NoDup (dict_keys (students (self w))) /\
   forall k, k ∈ dict_keys (students (self w)) ->
             k ∈ map pr_id (t_students (conn (self w)))) /\
  (NoDup (dict_keys (instructors (self w))) /\
   forall k, k ∈ dict_keys (instructors (self w)) ->
             k ∈ map pr_id (t_instructors (conn (self w)))) /\
  (NoDup (dict_keys (courses (self w))) /\
   forall k, k ∈ dict_keys (courses (self w)) ->
             k ∈ map cr_course_id (t_courses (conn (self w)))).

(** The constraints of the schema: primary keys are unique, and the
    foreign keys of [courses] and [registrations] lead to rows. *)
Definition store_ok (db : Database) : Prop :=
  NoDup (map pr_id (t_students db)) /\
  NoDup (map pr_id (t_instructors db)) /\
  NoDup (map cr_course_id (t_courses db)) /\
  (forall r i, r ∈ t_courses db -> cr_instructor_id r = Some i ->
               i ∈ map pr_id (t_instructors db)) /\
  (forall r, r ∈ t_registrations db ->
             r.1 ∈ map pr_id (t_students db) /\
             r.2 ∈ map cr_course_id (t_courses db)).

(** The store after a row was appended to the table of the entity. *)
Definition with_row (w : World) (e : entity) : Database :=
  let db := conn (self w) in
  match e with
  | the_student s =>
      let x := student_at (heap w) s in
      {| t_students := t_students db ++
           [{| pr_id := student_id x; pr_name := name (Student_super x);
               pr_age := match bind_param (age (Student_super x)) with
                         | Ret a => integer_affinity a
                         | _ => SNull
                         end;
               pr_email := _email (Student_super x) |}];
         t_instructors := t_instructors db; t_courses := t_courses db;
         t_registrations := t_registrations db |}
  | the_instructor i =>
      let x := instructor_at (heap w) i in
      {| t_students := t_students db;
         t_instructors := t_instructors db ++
           [{| pr_id := instructor_id x; pr_name := name (Instructor_super x);
               pr_age := match bind_param (age (Instructor_super x)) with
                         | Ret a => integer_affinity a
                         | _ => SNull
                         end;
               pr_email := _email (Instructor_super x) |}];
         t_courses := t_courses db;
         t_registrations := t_registrations db |}
  | the_course c =>
      let x := course_at (heap w) c in
      {| t_students := t_students db; t_instructors := t_instructors db;
         t_courses := t_courses db ++
           [{| cr_course_id := course_id x; cr_course_name := course_name x;
               cr_instructor_id :=
                 match instructor x with
                 | Some i => Some (instructor_id (instructor_at (heap w) i))
                 | None => None
                 end |}];
         t_registrations := t_registrations db |}
  end.

(** The manager after the entity was written to its mirror. *)
Definition with_entry (w : World) (e : entity) (d : DataManager) : DataManager :=
  match e with
  | the_student s =>
      {| conn := conn d;
         students := dict_set (key_of w e) s (students d);
         instructors := instructors d; courses := courses d |}
  | the_instructor i =>
      {| conn := conn d; students := students d;
         instructors := dict_set (key_of w e) i (instructors d);
         courses := courses d |}
  | the_course c =>
      {| conn := conn d; students := students d;
         instructors := instructors d;
         courses := dict_set (key_of w e) c (courses d) |}
  end.

(** A mirror whose identifiers are distinct and all among [keys]. *)
Definition stored (d : dict nat) (keys : list string) : Prop :=
  NoDup (dict_keys d) /\ forall k, k ∈ dict_keys d -> k ∈ keys.

(** The references of the mirror of students lead to objects. *)
Definition students_live (w : World) : Prop :=
  forall k v, dict_get k (students (self w)) = Some v ->
              v < length (h_students (heap w)).

(** The mirror has an entry under each of the keys. *)
Definition has_keys (ks : list string) (d : dict nat) : Prop :=
  forall k, k ∈ ks -> exists v, dict_get k d = Some v.

(** The world after a line was printed, and after a file was written. *)
Definition printed (line : string) (w : World) : World :=
  {| heap := heap w; self := self w; stdout := stdout w ++ [line];
     files := files w; unwritable := unwritable w |}.

Definition written (filename : string) (data : Document) (w : World) : World :=
  {| heap := heap w; self := self w; stdout := stdout w;
     files := dict_set filename data (files w);
     unwritable := unwritable w |}.

End invariants.

(* ===================================================================== *)
(** ** Properties of the entity model ([models.py]) *)
(* ===================================================================== *)

Module models_spec.

Import models predicates scenarios.
Local Open Scope nat_scope.
Local Open Scope list_scope.

(** *** Lists and stores *)

Lemma alter_fixed {A} (f : A -> A) (i : nat) (l : list A) :
  (forall x, l !! i = Some x -> f x = x) -> alter f i l = l.
Proof.
  revert i. induction l as [|a l IH]; intros [|i] Hf; simpl; try reflexivity.
  - f_equal. apply Hf. reflexivity.
  - f_equal. apply IH. intros x Hx. apply Hf. exact Hx.
Qed.

Lemma list_remove_app_new (x : nat) (l : list nat) :
  x ∉ l -> list_remove x (l ++ [x]) = Some l.
Proof.
  induction l as [|y l IH]; intros Hx; simpl.
  - rewrite decide_True by reflexivity. reflexivity.
  - rewrite not_elem_of_cons in Hx. destruct Hx as [Hne Hx].
    rewrite decide_False by exact Hne. rewrite IH by exact Hx. reflexivity.
Qed.

Lemma list_remove_elem_of (x : nat) (l : list nat) :
  x ∈ l -> exists l', list_remove x l = Some l'.
Proof.
  induction l as [|y l IH]; intros Hx.
  - inversion Hx.
  - simpl. destruct (decide (x = y)) as [->|Hne]; [eauto|].
    apply elem_of_cons in Hx. destruct Hx as [?|Hx]; [contradiction|].
    destruct (IH Hx) as [l' ->]. eauto.
Qed.

Lemma student_at_update_eq (h : Heap) (s : nat) (f : Student -> Student) :
  s < length (h_students h) ->
  student_at (update_student s f h) s = f (student_at h s).
Proof.
  intros Hs. unfold student_at, update_student. simpl.
  apply list_lookup_total_alter_eq. exact Hs.
Qed.

Lemma student_at_update_ne (h : Heap) (s s' : nat) (f : Student -> Student) :
  s <> s' -> student_at (update_student s f h) s' = student_at h s'.
Proof.
  intros Hs. unfold student_at, update_student. simpl.
  apply list_lookup_total_alter_ne. exact Hs.
Qed.

Lemma course_at_update_eq (h : Heap) (c : nat) (f : Course -> Course) :
  c < length (h_courses h) ->
  course_at (update_course c f h) c = f (course_at h c).
Proof.
  intros Hc. unfold course_at, update_course. simpl.
  apply list_lookup_total_alter_eq. exact Hc.
Qed.

Lemma course_at_update_ne (h : Heap) (c c' : nat) (f : Course -> Course) :
  c <> c' -> course_at (update_course c f h) c' = course_at h c'.
Proof.
  intros Hc. unfold course_at, update_course. simpl.
  apply list_lookup_total_alter_ne. exact Hc.
Qed.

Lemma instructor_at_update_eq (h : Heap) (i : nat) (f : Instructor -> Instructor) :
  i < length (h_instructors h) ->
  instructor_at (update_instructor i f h) i = f (instructor_at h i).
Proof.
  intros Hi. unfold instructor_at, update_instructor. simpl.
  apply list_lookup_total_alter_eq. exact Hi.
Qed.

Lemma instructor_at_update_ne (h : Heap) (i i' : nat)
    (f : Instructor -> Instructor) :
  i <> i' -> instructor_at (update_instructor i f h) i' = instructor_at h i'.
Proof.
  intros Hi. unfold instructor_at, update_instructor. simpl.
  apply list_lookup_total_alter_ne. exact Hi.
Qed.

(** Writing back what an object already holds changes nothing. *)
Lemma update_student_fixed (h : Heap) (s : nat) (f : Student -> Student) :
  f (student_at h s) = student_at h s -> update_student s f h = h.
Proof.
  intros Hf. destruct h as [ss ins cs]. unfold update_student. simpl. f_equal.
  apply alter_fixed. intros x Hx.
  unfold student_at in Hf. simpl in Hf.
  rewrite (list_lookup_total_correct _ _ _ Hx) in Hf. exact Hf.
Qed.

Lemma update_instructor_fixed (h : Heap) (i : nat) (f : Instructor -> Instructor) :
  f (instructor_at h i) = instructor_at h i -> update_instructor i f h = h.
Proof.
  intros Hf. destruct h as [ss ins cs]. unfold update_instructor. simpl. f_equal.
  apply alter_fixed. intros x Hx.
  unfold instructor_at in Hf. simpl in Hf.
  rewrite (list_lookup_total_correct _ _ _ Hx) in Hf. exact Hf.
Qed.

Lemma update_course_fixed (h : Heap) (c : nat) (f : Course -> Course) :
  f (course_at h c) = course_at h c -> update_course c f h = h.
Proof.
  intros Hf. destruct h as [ss ins cs]. unfold update_course. simpl. f_equal.
  apply alter_fixed. intros x Hx.
  unfold course_at in Hf. simpl in Hf.
  rewrite (list_lookup_total_correct _ _ _ Hx) in Hf. exact Hf.
Qed.

(** *** Validation *)

Lemma Qle_bool_false_lt (q : Q) :
  (q < inject_Z 0)%Q -> Qle_bool (inject_Z 0) q = false.
Proof.
  intros Hq. destruct (Qle_bool (inject_Z 0) q) eqn:E; [|reflexivity].
  apply Qle_bool_iff in E. exfalso. exact (Qlt_not_le _ _ Hq E).
Qed.

Lemma Person_init_rejects (name : string) (age : pyval) (email : string) :
  negative age \/ ~ is_number age \/ validate_email email = false ->
  exists e, Person_init name age email = Raise e /\
            (is_number age -> is_ValueError e) /\
            (~ is_number age -> is_TypeError e).
Proof.
  intros [Hneg|[Hnan|Hmail]]; unfold Person_init.
  - destruct age as [|z|q|s]; simpl in Hneg; try contradiction; simpl.
    + assert ((0 <=? z)%Z = false) as -> by (apply Z.leb_gt; exact Hneg).
      eexists; split; [reflexivity|]. split; [intros _; exact I|].
      intros H; exfalso; apply H; exact I.
    + rewrite Qle_bool_false_lt by exact Hneg.
      eexists; split; [reflexivity|]. split; [intros _; exact I|].
      intros H; exfalso; apply H; exact I.
  - destruct age as [|z|q|s]; simpl in Hnan; try (exfalso; apply Hnan; exact I);
      simpl; eexists; (split; [reflexivity|]); (split; [intros []|intros _; exact I]).
  - rewrite Hmail.
    destruct age as [|z|q|s]; simpl.
    + eexists; split; [reflexivity|]. split; [intros []|intros _; exact I].
    + destruct (0 <=? z)%Z; eexists; (split; [reflexivity|]);
        (split; [intros _; exact I|intros H; exfalso; apply H; exact I]).
    + destruct (Qle_bool (inject_Z 0) q); eexists; (split; [reflexivity|]);
        (split; [intros _; exact I|intros H; exfalso; apply H; exact I]).
    + eexists; split; [reflexivity|]. split; [intros []|intros _; exact I].
Qed.

Lemma Person_init_accepts (name : string) (age : pyval) (email : string) :
  non_negative age -> validate_email email = true ->
  Person_init name age email =
  Ret {| name := name; age := age; _email := email |}.
Proof.
  intros Hage Hmail. unfold Person_init.
  destruct age as [|z|q|s]; simpl in Hage; try contradiction; simpl.
  - assert ((0 <=? z)%Z = true) as -> by (apply Z.leb_le; exact Hage).
    rewrite Hmail. reflexivity.
  - assert (Qle_bool (inject_Z 0) q = true) as ->
      by (apply Qle_bool_iff; exact Hage).
    rewrite Hmail. reflexivity.
Qed.

Lemma student_at_new (h : Heap) (x : Student) :
  student_at {| h_students := h_students h ++ [x];
                h_instructors := h_instructors h;
                h_courses := h_courses h |} (length (h_students h)) = x.
Proof. unfold student_at. simpl. apply list_lookup_total_middle. reflexivity. Qed.

Lemma instructor_at_new (h : Heap) (x : Instructor) :
  instructor_at {| h_students := h_students h;
                   h_instructors := h_instructors h ++ [x];
                   h_courses := h_courses h |} (length (h_instructors h)) = x.
Proof.
  unfold instructor_at. simpl. apply list_lookup_total_middle. reflexivity.
Qed.

Lemma course_at_new (h : Heap) (x : Course) :
  course_at {| h_students := h_students h;
               h_instructors := h_instructors h;
               h_courses := h_courses h ++ [x] |} (length (h_courses h)) = x.
Proof. unfold course_at. simpl. apply list_lookup_total_middle. reflexivity. Qed.

Lemma Student_init_accepts (nm : string) (ag : pyval) (email sid : string)
    (h : Heap) :
  non_negative ag -> validate_email email = true ->
  Student_init nm ag email sid h =
  (heap_with_student
     {| Student_super := {| name := nm; age := ag; _email := email |};
        student_id := sid; registered_courses := [] |} h,
   Ret (length (h_students h))).
Proof.
  intros Hage Hmail. unfold Student_init, bind, lift.
  rewrite Person_init_accepts by assumption. reflexivity.
Qed.

Lemma Instructor_init_accepts (nm : string) (ag : pyval) (email iid : string)
    (h : Heap) :
  non_negative ag -> validate_email email = true ->
  Instructor_init nm ag email iid h =
  (heap_with_instructor
     {| Instructor_super := {| name := nm; age := ag; _email := email |};
        instructor_id := iid; assigned_courses := [] |} h,
   Ret (length (h_instructors h))).
Proof.
  intros Hage Hmail. unfold Instructor_init, bind, lift.
  rewrite Person_init_accepts by assumption. reflexivity.
Qed.

(** C5 (as amended).  When the age is a negative number or is not a number,
    or the e-mail does not match the pattern, [Person], [Student] and
    [Instructor] are not constructed: the constructor raises, a
    [ValueError] when the age is a number and a [TypeError] when it is not,
    and the heap holds no new object.  [set_email] with an e-mail that does
    not match raises [ValueError] and leaves the object as it was.  In every
    other case the object is built: the name takes no part in the checks,
    and an age that is a number and not below zero is taken, integer or
    not. *)
Theorem invalid_fields_rejected (nm : string) (ag : pyval)
    (email email' : string) :
  negative ag \/ ~ is_number ag \/ validate_email email = false ->
  validate_email email' = false ->
  (exists e,
      Person_init nm ag email = Raise e /\
      (is_number ag -> is_ValueError e) /\
      (~ is_number ag -> is_TypeError e) /\
      (forall sid h, Student_init nm ag email sid h = (h, Raise e)) /\
      (forall iid h, Instructor_init nm ag email iid h = (h, Raise e))) /\
  (forall p, Person_set_email email' p =
             (p, Raise (ValueError "Invalid email format"))) /\
  (forall h s, Student_set_email s email' h =
               (h, Raise (ValueError "Invalid email format"))) /\
  (forall h i, Instructor_set_email i email' h =
               (h, Raise (ValueError "Invalid email format"))) /\
  (forall nm' ag' em sid iid h,
      non_negative ag' -> validate_email em = true ->
      Person_init nm' ag' em =
        Ret {| name := nm'; age := ag'; _email := em |} /\
      Student_init nm' ag' em sid h =
        (heap_with_student
           {| Student_super := {| name := nm'; age := ag'; _email := em |};
              student_id := sid; registered_courses := [] |} h,
         Ret (length (h_students h))) /\
      Instructor_init nm' ag' em iid h =
        (heap_with_instructor
           {| Instructor_super := {| name := nm'; age := ag'; _email := em |};
              instructor_id := iid; assigned_courses := [] |} h,
         Ret (length (h_instructors h)))).
Proof.
  intros Hbad Hmail'. split; [|split; [|split; [|split]]].
  - destruct (Person_init_rejects nm ag email Hbad) as (e & He & Hv & Ht).
    exists e. repeat split; try assumption.
    + intros sid h. unfold Student_init, bind, lift. rewrite He. reflexivity.
    + intros iid h. unfold Instructor_init, bind, lift. rewrite He. reflexivity.
  - intros p. unfold Person_set_email. rewrite Hmail'. reflexivity.
  - intros h s. unfold Student_set_email, Person_set_email. rewrite Hmail'.
    f_equal. apply update_student_fixed. destruct (student_at h s); reflexivity.
  - intros h i. unfold Instructor_set_email, Person_set_email. rewrite Hmail'.
    f_equal. apply update_instructor_fixed.
    destruct (instructor_at h i); reflexivity.
  - intros nm' ag' em sid iid h Hage Hmail. split; [|split].
    + apply Person_init_accepts; assumption.
    + apply Student_init_accepts; assumption.
    + apply Instructor_init_accepts; assumption.
Qed.

Lemma invalid_fields_rejected_witness :
  (negative (PInt (-1)) /\ validate_email "ann.example.com" = false /\
   (exists e, Person_init "Ann" (PInt (-1)) "a@b.com" = Raise e /\
              is_ValueError e) /\
   Person_set_email "ann.example.com"
     {| name := "Ann"; age := PInt 20; _email := "a@b.com" |} =
   ({| name := "Ann"; age := PInt 20; _email := "a@b.com" |},
    Raise (ValueError "Invalid email format")) /\
   Person_init "" (PFloat (5 # 2)) "a@b.com" =
     Ret {| name := ""; age := PFloat (5 # 2); _email := "a@b.com" |}) /\
  (~ is_number (PStr "20") /\
   exists e, Person_init "Ann" (PStr "20") "a@b.com" = Raise e /\
             is_TypeError e).
Proof.
  assert (H2 : validate_email "ann.example.com" = false) by reflexivity.
  split.
  - assert (H1 : negative (PInt (-1)) \/ ~ is_number (PInt (-1)) \/
                 validate_email "a@b.com" = false)
      by (left; reflexivity).
    destruct (invalid_fields_rejected "Ann" (PInt (-1)) "a@b.com"
                "ann.example.com" H1 H2)
      as ((e & He & Hv & _) & Hp & _ & _ & Hok).
    split; [reflexivity|]. split; [exact H2|]. split; [|split].
    + exists e. split; [exact He|]. apply Hv. exact I.
    + apply Hp.
    + apply (Hok "" (PFloat (5 # 2)) "a@b.com" "" "" empty_heap);
        [discriminate|reflexivity].
  - assert (Hn : ~ is_number (PStr "20")) by (intros H; exact H).
    assert (H1 : negative (PStr "20") \/ ~ is_number (PStr "20") \/
                 validate_email "a@b.com" = false)
      by (right; left; exact Hn).
    destruct (invalid_fields_rejected "Ann" (PStr "20") "a@b.com"
                "ann.example.com" H1 H2) as ((e & He & _ & Ht & _) & _).
    split; [exact Hn|]. exists e. split; [exact He|]. apply Ht. exact Hn.
Defined.

(** C5, as stated, fails on an empty name: the constructors take it, and so
    they take an age that is not an integer. *)
Lemma empty_name_accepted :
  Person_init "" (PInt 20) "a@b.com" =
    Ret {| name := ""; age := PInt 20; _email := "a@b.com" |} /\
  ~ (exists e, Person_init "" (PInt 20) "a@b.com" = Raise e) /\
  Student_init "" (PInt 20) "a@b.com" "S1" empty_heap =
    ({| h_students :=
          [{| Student_super :=
                {| name := ""; age := PInt 20; _email := "a@b.com" |};
              student_id := "S1"; registered_courses := [] |}];
        h_instructors := []; h_courses := [] |}, Ret 0) /\
  Person_init "Ann" (PFloat (5 # 2)) "a@b.com" =
    Ret {| name := "Ann"; age := PFloat (5 # 2); _email := "a@b.com" |}.
Proof.
  split; [reflexivity|]. split; [|split; reflexivity].
  intros [e He]. discriminate He.
Qed.

(** C8.  For an age that is a number and not below zero and an e-mail that
    matches the pattern, whatever the name (so for every non-empty name),
    construction succeeds with the fields as given; [from_dict] builds the
    object from the fields of its dictionary, as a new object that leaves
    the others alone; and [from_dict] of [to_dict] of any object that holds
    these fields builds a new object with the same name, age, e-mail and
    identifier (and no course). *)
Theorem valid_fields_round_trip (nm : string) (ag : pyval)
    (email sid iid : string) (h : Heap) :
  non_negative ag -> validate_email email = true ->
  (Person_init nm ag email = Ret {| name := nm; age := ag; _email := email |} /\
   Student_init nm ag email sid h =
     (heap_with_student
        {| Student_super := {| name := nm; age := ag; _email := email |};
           student_id := sid; registered_courses := [] |} h,
      Ret (length (h_students h))) /\
   Instructor_init nm ag email iid h =
     (heap_with_instructor
        {| Instructor_super := {| name := nm; age := ag; _email := email |};
           instructor_id := iid; assigned_courses := [] |} h,
      Ret (length (h_instructors h)))) /\
  (Person_from_dict {| pd_name := nm; pd_age := ag; pd__email := email |} =
     Ret {| name := nm; age := ag; _email := email |} /\
   (forall rc,
      Student_from_dict
        {| sd_name := nm; sd_age := ag; sd__email := email;
           sd_student_id := sid; sd_registered_courses := rc |} h =
      (heap_with_student
         {| Student_super := {| name := nm; age := ag; _email := email |};
            student_id := sid; registered_courses := [] |} h,
       Ret (length (h_students h)))) /\
   (forall ac,
      Instructor_from_dict
        {| id_name := nm; id_age := ag; id__email := email;
           id_instructor_id := iid; id_assigned_courses := ac |} h =
      (heap_with_instructor
         {| Instructor_super := {| name := nm; age := ag; _email := email |};
            instructor_id := iid; assigned_courses := [] |} h,
       Ret (length (h_instructors h))))) /\
  (Person_from_dict
     (Person_to_dict {| name := nm; age := ag; _email := email |}) =
     Ret {| name := nm; age := ag; _email := email |} /\
   (forall s,
      Student_super (student_at h s) =
        {| name := nm; age := ag; _email := email |} ->
      Student_from_dict (Student_to_dict h s) h =
        (heap_with_student (with_registered_courses [] (student_at h s)) h,
         Ret (length (h_students h))) /\
      student_at
        (heap_with_student (with_registered_courses [] (student_at h s)) h)
        (length (h_students h)) =
        with_registered_courses [] (student_at h s)) /\
   (forall i,
      Instructor_super (instructor_at h i) =
        {| name := nm; age := ag; _email := email |} ->
      Instructor_from_dict (Instructor_to_dict h i) h =
        (heap_with_instructor
           (with_assigned_courses [] (instructor_at h i)) h,
         Ret (length (h_instructors h))) /\
      instructor_at
        (heap_with_instructor
           (with_assigned_courses [] (instructor_at h i)) h)
        (length (h_instructors h)) =
        with_assigned_courses [] (instructor_at h i))).
Proof.
  intros Hage Hmail. split; [|split].
  - split; [apply Person_init_accepts; assumption|].
    split; [apply Student_init_accepts; assumption
           |apply Instructor_init_accepts; assumption].
  - split; [apply Person_init_accepts; assumption|]. split.
    + intros rc. unfold Student_from_dict. simpl.
      apply Student_init_accepts; assumption.
    + intros ac. unfold Instructor_from_dict. simpl.
      apply Instructor_init_accepts; assumption.
  - split; [apply Person_init_accepts; assumption|]. split.
    + intros s Hs. split; [|apply student_at_new].
      unfold Student_from_dict, Student_to_dict, Person_to_dict,
        with_registered_courses.
      rewrite Hs. simpl. apply Student_init_accepts; assumption.
    + intros i Hi. split; [|apply instructor_at_new].
      unfold Instructor_from_dict, Instructor_to_dict, Person_to_dict,
        with_assigned_courses.
      rewrite Hi. simpl. apply Instructor_init_accepts; assumption.
Qed.

Lemma valid_fields_round_trip_witness :
  non_negative (PInt 20) /\ validate_email "a@b.com" = true /\
  Student_init "Ann" (PInt 20) "a@b.com" "S1" empty_heap =
    (heap_with_student
       {| Student_super :=
            {| name := "Ann"; age := PInt 20; _email := "a@b.com" |};
          student_id := "S1"; registered_courses := [] |} empty_heap,
     Ret 0) /\
  Student_from_dict (Student_to_dict ann_in_algebra 0) ann_in_algebra =
    (heap_with_student
       {| Student_super :=
            {| name := "Ann"; age := PInt 20; _email := "a@b.com" |};
          student_id := "S1"; registered_courses := [] |} ann_in_algebra,
     Ret 1).
Proof.
  assert (H1 : non_negative (PInt 20)) by (simpl; lia).
  assert (H2 : validate_email "a@b.com" = true) by reflexivity.
  split; [exact H1|]. split; [exact H2|]. split.
  - exact (proj1 (proj2 (proj1
             (valid_fields_round_trip "Ann" (PInt 20) "a@b.com" "S1" "I1"
                empty_heap H1 H2)))).
  - exact (proj1 (proj1 (proj2 (proj2 (proj2
             (valid_fields_round_trip "Ann" (PInt 20) "a@b.com" "S1" "I1"
                ann_in_algebra H1 H2)))) 0 eq_refl)).
Defined.

(** *** Registration *)

Ltac run :=
  cbn [Student_register_course_rec Course_add_student_rec
       Instructor_assign_course_rec Course_set_instructor_rec];
  unfold bind, get, modify, ret, raise, lift; cbn beta iota.

Lemma elem_of_snoc (x : nat) (l : list nat) : x ∈ l ++ [x].
Proof. apply elem_of_app. right. apply list_elem_of_singleton. reflexivity. Qed.

(** Registering a student who is on neither list appends on both sides;
    two nested calls are made. *)
Lemma register_course_new (n : nat) (h : Heap) (s c : nat) :
  s < length (h_students h) ->
  c ∉ registered_courses (student_at h s) ->
  s ∉ enrolled_students (course_at h c) ->
  Student_register_course_rec (S (S n)) s c h =
  (update_course c
     (fun x => with_enrolled_students (enrolled_students x ++ [s]) x)
     (update_student s
        (fun x => with_registered_courses (registered_courses x ++ [c]) x) h),
   Ret tt).
Proof.
  intros Hs Hrc Hes. run.
  rewrite decide_False by exact Hrc.
  change (course_at (update_student s _ h) c) with (course_at h c).
  rewrite decide_False by exact Hes.
  rewrite decide_True; [reflexivity|].
  change (student_at (update_course c _ ?hh) s) with (student_at hh s).
  rewrite student_at_update_eq by exact Hs. simpl. apply elem_of_snoc.
Qed.

(** A student whose list already holds the course: nothing happens. *)
Lemma register_course_registered (n : nat) (h : Heap) (s c : nat) :
  c ∈ registered_courses (student_at h s) ->
  Student_register_course_rec (S n) s c h = (h, Ret tt).
Proof. intros Hrc. run. rewrite decide_True by exact Hrc. reflexivity. Qed.

(** The course already lists the student but not the other way round: only
    the student's list grows. *)
Lemma register_course_half (n : nat) (h : Heap) (s c : nat) :
  c ∉ registered_courses (student_at h s) ->
  s ∈ enrolled_students (course_at h c) ->
  Student_register_course_rec (S (S n)) s c h =
  (update_student s
     (fun x => with_registered_courses (registered_courses x ++ [c]) x) h,
   Ret tt).
Proof.
  intros Hrc Hes. run.
  rewrite decide_False by exact Hrc.
  change (course_at (update_student s _ h) c) with (course_at h c).
  rewrite decide_True by exact Hes. reflexivity.
Qed.

(** With a live student, [register_course] returns at depth two or more. *)
Lemma depth_enough_register (n : nat) (h : Heap) (s c : nat) :
  s < length (h_students h) ->
  exists h', Student_register_course_rec (S (S n)) s c h = (h', Ret tt).
Proof.
  intros Hs.
  destruct (decide (c ∈ registered_courses (student_at h s))) as [Hrc|Hrc].
  - eexists. apply register_course_registered. exact Hrc.
  - destruct (decide (s ∈ enrolled_students (course_at h c))) as [Hes|Hes].
    + eexists. apply register_course_half; assumption.
    + eexists. apply register_course_new; assumption.
Qed.

(** [add_student] with a live student returns at depth three or more. *)
Lemma depth_enough_add_student (n : nat) (h : Heap) (c s : nat) :
  s < length (h_students h) ->
  exists h', Course_add_student_rec (S (S (S n))) c s h = (h', Ret tt).
Proof.
  intros Hs.
  cbn [Course_add_student_rec]. unfold bind, get, modify, ret. cbn beta iota.
  destruct (decide (s ∈ enrolled_students (course_at h c))) as [Hes|Hes];
    [eauto|].
  match goal with
  | |- context [decide ?P] => destruct (decide P) as [Hrc|Hrc]; [eauto|]
  end.
  apply depth_enough_register.
  unfold update_course. simpl. exact Hs.
Qed.

Lemma unregister_course_registered (h : Heap) (s c : nat) (rc es : list nat) :
  s < length (h_students h) ->
  c ∈ registered_courses (student_at h s) ->
  list_remove c (registered_courses (student_at h s)) = Some rc ->
  list_remove s (enrolled_students (course_at h c)) = Some es ->
  Student_unregister_course s c h =
  (update_course c (with_enrolled_students es)
     (update_student s (with_registered_courses rc) h), Ret tt).
Proof.
  intros Hs Hin Hrc Hes. unfold Student_unregister_course. run.
  rewrite decide_True by exact Hin. rewrite Hrc.
  change (course_at (update_student s _ h) c) with (course_at h c).
  rewrite Hes. reflexivity.
Qed.

Lemma unregister_course_absent (h : Heap) (s c : nat) :
  c ∉ registered_courses (student_at h s) ->
  Student_unregister_course s c h = (h, Ret tt).
Proof.
  intros Hin. unfold Student_unregister_course. run.
  rewrite decide_False by exact Hin. reflexivity.
Qed.

(** Undoing an append on both sides gives the heap back. *)
Lemma undo_registration (h : Heap) (s c : nat) :
  update_course c (with_enrolled_students (enrolled_students (course_at h c)))
    (update_student s
       (with_registered_courses (registered_courses (student_at h s)))
       (update_course c
          (fun x => with_enrolled_students (enrolled_students x ++ [s]) x)
          (update_student s
             (fun x => with_registered_courses (registered_courses x ++ [c]) x)
             h))) = h.
Proof.
  destruct h as [ss ins cs]. unfold update_course, update_student. simpl.
  rewrite !list_alter_alter_eq. f_equal.
  - apply alter_fixed. intros x Hx. unfold student_at. simpl.
    rewrite (list_lookup_total_correct _ _ _ Hx). destruct x; reflexivity.
  - apply alter_fixed. intros x Hx. unfold course_at. simpl.
    rewrite (list_lookup_total_correct _ _ _ Hx). destruct x; reflexivity.
Qed.

(** C7 (as amended).  For a student and a course that are not yet linked
    (neither list holds the other), [register_course] returns having
    appended the course to the student's list and the student to the
    course's list, and [unregister_course] after it restores the heap, so
    both lists are as before the two calls.  For a course the student's list
    already holds, [register_course] changes nothing. *)
Theorem register_unregister_round_trip (h : Heap) (s c : nat) :
  s < length (h_students h) -> c < length (h_courses h) ->
  c ∉ registered_courses (student_at h s) ->
  s ∉ enrolled_students (course_at h c) ->
  (exists h1,
      Student_register_course s c h = (h1, Ret tt) /\
      registered_courses (student_at h1 s) =
        registered_courses (student_at h s) ++ [c] /\
      enrolled_students (course_at h1 c) =
        enrolled_students (course_at h c) ++ [s] /\
      Student_unregister_course s c h1 = (h, Ret tt)) /\
  (forall c', c' ∈ registered_courses (student_at h s) ->
              Student_register_course s c' h = (h, Ret tt)).
Proof.
  intros Hs Hc Hrc Hes. split.
  - eexists. split; [apply register_course_new; assumption|].
    set (h0 := update_student s _ h).
    assert (E1 : registered_courses (student_at (update_course c
                   (fun x => with_enrolled_students (enrolled_students x ++ [s]) x)
                   h0) s) = registered_courses (student_at h s) ++ [c]).
    { change (student_at (update_course c _ h0) s) with (student_at h0 s).
      unfold h0. rewrite student_at_update_eq by exact Hs. reflexivity. }
    assert (E2 : enrolled_students (course_at (update_course c
                   (fun x => with_enrolled_students (enrolled_students x ++ [s]) x)
                   h0) c) = enrolled_students (course_at h c) ++ [s]).
    { rewrite course_at_update_eq by exact Hc. reflexivity. }
    split; [exact E1|]. split; [exact E2|].
    rewrite (unregister_course_registered _ s c
               (registered_courses (student_at h s))
               (enrolled_students (course_at h c))).
    + f_equal. apply undo_registration.
    + unfold h0, update_course, update_student. simpl.
      rewrite length_alter. exact Hs.
    + rewrite E1. apply elem_of_snoc.
    + rewrite E1. apply list_remove_app_new. exact Hrc.
    + rewrite E2. apply list_remove_app_new. exact Hes.
  - intros c' Hin. apply register_course_registered. exact Hin.
Qed.

Lemma register_unregister_round_trip_witness :
  0 < length (h_students (Course_init "C1" "Algebra" None
        (Student_init "Ann" (PInt 20) "a@b.com" "S1" empty_heap).1).1) /\
  Student_register_course 0 0
    (Course_init "C1" "Algebra" None
       (Student_init "Ann" (PInt 20) "a@b.com" "S1" empty_heap).1).1 =
  (ann_in_algebra, Ret tt) /\
  Student_unregister_course 0 0 ann_in_algebra =
  ((Course_init "C1" "Algebra" None
      (Student_init "Ann" (PInt 20) "a@b.com" "S1" empty_heap).1).1, Ret tt).
Proof.
  set (h := (Course_init "C1" "Algebra" None
               (Student_init "Ann" (PInt 20) "a@b.com" "S1" empty_heap).1).1).
  assert (Hs : 0 < length (h_students h)) by (vm_compute; lia).
  assert (Hc : 0 < length (h_courses h)) by (vm_compute; lia).
  assert (Hrc : 0 ∉ registered_courses (student_at h 0))
    by (vm_compute; apply not_elem_of_nil).
  assert (Hes : 0 ∉ enrolled_students (course_at h 0))
    by (vm_compute; apply not_elem_of_nil).
  destruct (register_unregister_round_trip h 0 0 Hs Hc Hrc Hes)
    as ((h1 & Hreg & _ & _ & Hun) & _).
  split; [exact Hs|].
  assert (Eh : h1 = ann_in_algebra).
  { assert (E : Student_register_course 0 0 h = (ann_in_algebra, Ret tt))
      by (vm_compute; reflexivity).
    rewrite E in Hreg. congruence. }
  rewrite <- Eh. split; [exact Hreg|exact Hun].
Defined.

(** C7, as stated, fails for a student who is already registered: the pair
    of calls removes the registration instead of restoring it. *)
Lemma registered_pair_not_restored :
  registered_courses (student_at ann_in_algebra 0) = [0] /\
  enrolled_students (course_at ann_in_algebra 0) = [0] /\
  exists h2,
    bind (Student_register_course 0 0)
      (fun _ => Student_unregister_course 0 0) ann_in_algebra = (h2, Ret tt) /\
    registered_courses (student_at h2 0) = [] /\
    enrolled_students (course_at h2 0) = [] /\
    registered_courses (student_at h2 0) <>
      registered_courses (student_at ann_in_algebra 0) /\
    enrolled_students (course_at h2 0) <>
      enrolled_students (course_at ann_in_algebra 0).
Proof.
  split; [reflexivity|]. split; [reflexivity|].
  eexists. split; [vm_compute; reflexivity|].
  split; [reflexivity|]. split; [reflexivity|]. split; discriminate.
Qed.

(** *** Assignment *)

Lemma same_shape_refl (h : Heap) : same_shape h h.
Proof. repeat split. Qed.

Lemma same_shape_trans (h1 h2 h3 : Heap) :
  same_shape h1 h2 -> same_shape h2 h3 -> same_shape h1 h3.
Proof. unfold same_shape. intros (?&?&?) (?&?&?). repeat split; congruence. Qed.

Lemma same_shape_update_student (h : Heap) s f :
  same_shape h (update_student s f h).
Proof. unfold same_shape, update_student. simpl. rewrite length_alter. auto. Qed.

Lemma same_shape_update_instructor (h : Heap) i f :
  same_shape h (update_instructor i f h).
Proof.
  unfold same_shape, update_instructor. simpl. rewrite length_alter. auto.
Qed.

Lemma same_shape_update_course (h : Heap) c f :
  same_shape h (update_course c f h).
Proof. unfold same_shape, update_course. simpl. rewrite length_alter. auto. Qed.

Create HintDb shape.

#[local] Hint Resolve same_shape_refl same_shape_update_student
  same_shape_update_instructor same_shape_update_course : shape.

(** [set_instructor] with a live instructor returns at depth three or more,
    with the course pointing at the instructor and on the instructor's
    list. *)
Lemma depth_enough_set_instructor (n : nat) (h : Heap) (c i : nat) :
  i < length (h_instructors h) ->
  exists h',
    Course_set_instructor_rec (S (S (S n))) c (Some i) h = (h', Ret tt) /\
    same_shape h h' /\
    c ∈ assigned_courses (instructor_at h' i) /\
    (c < length (h_courses h) -> instructor (course_at h' c) = Some i).
Proof.
  intros Hi. run.
  change (instructor_at (update_course c ?f h) i) with (instructor_at h i).
  destruct (decide (c ∈ assigned_courses (instructor_at h i))) as [Hin|Hin].
  - eexists. split; [reflexivity|]. split; [auto with shape|].
    split; [exact Hin|]. intros Hc.
    rewrite course_at_update_eq by exact Hc. reflexivity.
  - rewrite decide_False by exact Hin.
    set (h1 := update_course c (with_instructor (Some i)) h).
    set (h2 := update_instructor i _ h1).
    set (h3 := update_course c (with_instructor (Some i)) h2).
    assert (Hin3 : c ∈ assigned_courses (instructor_at h3 i)).
    { change (instructor_at h3 i) with (instructor_at h2 i).
      unfold h2. rewrite instructor_at_update_eq by exact Hi.
      simpl. apply elem_of_snoc. }
    rewrite decide_True by exact Hin3.
    eexists. split; [reflexivity|]. split; [|split; [exact Hin3|]].
    + eapply same_shape_trans; [|apply same_shape_update_course].
      eapply same_shape_trans; [|apply same_shape_update_instructor].
      apply same_shape_update_course.
    + intros Hc. unfold h3. rewrite course_at_update_eq; [reflexivity|].
      unfold h2, h1, update_instructor, update_course. simpl.
      rewrite length_alter. exact Hc.
Qed.

(** [set_instructor(None)] stores [None] and then raises, at any depth. *)
Lemma set_instructor_None (n : nat) (h : Heap) (c : nat) :
  Course_set_instructor_rec (S n) c None h =
  (update_course c (with_instructor None) h,
   Raise (AttributeError
            "'NoneType' object has no attribute 'assigned_courses'")).
Proof. reflexivity. Qed.

(** *** Referential symmetry *)

(** From a symmetric heap, [register_course] returns and keeps the lists of
    students and courses symmetric. *)
Lemma register_course_keeps_symmetry (h : Heap) (s c : nat) :
  s < length (h_students h) -> c < length (h_courses h) ->
  student_course_symmetric h ->
  exists h', Student_register_course s c h = (h', Ret tt) /\
             same_shape h h' /\ student_course_symmetric h'.
Proof.
  intros Hs Hc Hsym. unfold Student_register_course, call_depth.
  destruct (decide (c ∈ registered_courses (student_at h s))) as [Hrc|Hrc].
  - exists h. split; [apply register_course_registered; exact Hrc|].
    split; [apply same_shape_refl|exact Hsym].
  - assert (Hes : s ∉ enrolled_students (course_at h c)).
    { intros Hes. apply Hrc. apply Hsym; assumption. }
    eexists. split; [apply register_course_new; assumption|].
    split.
    { eapply same_shape_trans;
        [apply same_shape_update_student|apply same_shape_update_course]. }
    intros s' c' Hs' Hc'.
    assert (Hs0 : s' < length (h_students h)).
    { unfold update_course, update_student in Hs'. simpl in Hs'.
      rewrite length_alter in Hs'. exact Hs'. }
    assert (Hc0 : c' < length (h_courses h)).
    { unfold update_course, update_student in Hc'. simpl in Hc'.
      rewrite length_alter in Hc'. exact Hc'. }
    change (student_at (update_course c ?f ?hh) s') with (student_at hh s').
    specialize (Hsym s' c' Hs0 Hc0).
    destruct (decide (s = s')) as [<-|Hns]; destruct (decide (c = c')) as [<-|Hnc].
    + rewrite student_at_update_eq, course_at_update_eq by assumption. simpl.
      split; intros _; apply elem_of_snoc.
    + rewrite student_at_update_eq by assumption.
      rewrite course_at_update_ne by exact Hnc. simpl.
      change (course_at (update_student s ?f h) c') with (course_at h c').
      rewrite elem_of_app, list_elem_of_singleton. split.
      * intros [H|H]; [apply Hsym; exact H|congruence].
      * intros H. left. apply Hsym. exact H.
    + rewrite student_at_update_ne by exact Hns.
      rewrite course_at_update_eq by assumption. simpl.
      rewrite elem_of_app, list_elem_of_singleton. split.
      * intros H. left. apply Hsym. exact H.
      * intros [H|H]; [apply Hsym; exact H|congruence].
    + rewrite student_at_update_ne by exact Hns.
      rewrite course_at_update_ne by exact Hnc.
      change (course_at (update_student s ?f h) c') with (course_at h c').
      exact Hsym.
Qed.

(** C2 at its failing input.  From a symmetric heap in which the course has
    the first instructor, assigning the second one (by [assign_course] or by
    [set_instructor]) returns normally and makes the course point at the
    second instructor, but the first instructor's [assigned_courses] still
    holds the course: the symmetry between [assigned_courses] and
    [instructor] is lost. *)
Theorem reassignment_keeps_old_link :
  instructor_course_symmetric algebra_with_first_instructor /\
  instructor (course_at algebra_with_first_instructor 0) = Some 0 /\
  exists h',
    Instructor_assign_course 1 0 algebra_with_first_instructor = (h', Ret tt) /\
    Course_set_instructor 0 (Some 1) algebra_with_first_instructor =
      (h', Ret tt) /\
    instructor (course_at h' 0) = Some 1 /\
    0 ∈ assigned_courses (instructor_at h' 0) /\
    ~ instructor_course_symmetric h'.
Proof.
  split; [|split; [reflexivity|]].
  - intros i c Hi Hc. change (c < 1) in Hc. change (i < 2) in Hi.
    destruct c as [|c]; [|lia]. destruct i as [|[|i]]; [| |lia].
    + split; intros _; [reflexivity|]. apply list_elem_of_here.
    + split; intros H; [inversion H|discriminate H].
  - eexists. split; [vm_compute; reflexivity|].
    split; [vm_compute; reflexivity|].
    split; [reflexivity|]. split; [apply list_elem_of_here|].
    intros Hsym.
    assert (H : instructor (course_at
              (Instructor_assign_course 1 0 algebra_with_first_instructor).1 0)
              = Some 0).
    { apply (Hsym 0 0); [vm_compute; lia|vm_compute; lia|].
      apply list_elem_of_here. }
    discriminate H.
Qed.

End models_spec.

(* ===================================================================== *)
(** ** Properties of the persistence adapter ([data_manager.py]) *)
(* ===================================================================== *)

Module data_manager_spec.

Import models sqlite3 data_manager predicates scenarios invariants models_spec.
Local Open Scope nat_scope.
Local Open Scope list_scope.

(** *** Adding *)

(** A duplicate key is a storage failure. *)
Lemma duplicate_key_fails (w : World) (e : entity) :
  key_taken w e = true -> age_storable w e ->
  exists msg, insert_of w e = Raise (sqlite3_Error msg).
Proof.
  destruct e as [s|i|c]; simpl; intros Hkey Hage.
  - destruct Hage as (a & Ha & Hnull).
    unfold insert_student, insert_person. rewrite Ha. simpl.
    rewrite Hnull, Hkey. eauto.
  - destruct Hage as (a & Ha & Hnull).
    unfold insert_instructor, insert_person. rewrite Ha. simpl.
    rewrite Hnull, Hkey. eauto.
  - unfold insert_course. rewrite Hkey. eauto.
Qed.

(** An [INSERT] that raised [sqlite3.Error] is reported: the method
    returns, and only the printed line is new. *)
Lemma failed_add_reported (w : World) (e : entity) (msg : string) :
  insert_of w e = Raise (sqlite3_Error msg) ->
  add e w = (printed (report e msg) w, Ret tt).
Proof.
  destruct e as [s|i|c]; simpl; intros Hfail.
  - unfold add_student, try_except, execute, bind, get, lift, Person_get_email.
    rewrite Hfail. reflexivity.
  - unfold add_instructor, try_except, execute, bind, get, lift,
      Person_get_email.
    rewrite Hfail. reflexivity.
  - unfold add_course, try_except, execute, bind, get, lift.
    rewrite Hfail. reflexivity.
Qed.






(** *** Deleting a course *)

Lemma delete_course_run (w : World) (cid : string) :
  delete_course cid w =
  (set_courses (dict_pop cid (courses (self w)))
     (set_conn (sqlite3.delete_course cid (conn (self w))) w), Ret tt).
Proof. reflexivity. Qed.

(** C3 at its failing input.  [delete_course] always returns, never touches
    an object, and leaves no row of the course in [courses], nor in
    [registrations] when every registration row referred to a course row,
    as the foreign key demands (the cascade runs for a deleted row only).
    So for Ann registered in Algebra, deleting the course empties the
    mirror and the table, but Ann's [registered_courses] still holds the
    course. *)
Theorem delete_course_keeps_registration :
  (forall w cid,
      let w' := (delete_course cid w).1 in
      (delete_course cid w).2 = Ret tt /\
      heap w' = heap w /\
      (cid ∉ map cr_course_id (t_courses (conn (self w')))) /\
      ((forall r, r ∈ t_registrations (conn (self w)) ->
                  r.2 ∈ map cr_course_id (t_courses (conn (self w)))) ->
       forall sid, (sid, cid) ∉ t_registrations (conn (self w')))) /\
  dict_get "C1"%string (courses (self ann_registered)) = Some 0 /\
  registered_courses (student_at (heap ann_registered) 0) = [0] /\
  exists w',
    delete_course "C1" ann_registered = (w', Ret tt) /\
    courses (self w') = [] /\
    t_courses (conn (self w')) = [] /\
    t_registrations (conn (self w')) = [] /\
    registered_courses (student_at (heap w') 0) = [0].
Proof.
  split.
  - intros w cid. rewrite delete_course_run. simpl.
    split; [reflexivity|]. split; [reflexivity|]. split.
    + intros Hin. apply list_elem_of_fmap in Hin. destruct Hin as (r & Hr & Hin).
      apply list_elem_of_filter in Hin. destruct Hin as [Hne _]. congruence.
    + intros Hfk sid Hin. unfold has_course in Hin.
      destruct (bool_decide (cid ∈ map cr_course_id (t_courses (conn (self w)))))
        eqn:Hrow.
      * apply list_elem_of_filter in Hin.
        destruct Hin as [Hne _]. apply Hne. reflexivity.
      * apply bool_decide_eq_false in Hrow. apply Hrow.
        exact (Hfk (sid, cid) Hin).
  - split; [reflexivity|]. split; [reflexivity|].
    eexists. split; [apply delete_course_run|]. repeat split.
Qed.

(** *** Export and import *)

(** C1 at its failing input, the example of the specification.  The
    document is written with the registration in it, but [load_data] into
    a fresh manager (on a new store, or on the store of the first manager)
    raises while it loads the course, whose instructor is [None]: the
    mirror of courses stays empty and the loaded Ann has no course.  With an
    instructor on the course, [load_data] raises at the first enrolment,
    on the missing method [register_student_in_course]. *)
Theorem export_import_example_raises :
  dict_get "school.json"%string (files ann_saved) =
    Some {| doc_students :=
              [{| sd_name := "Ann"; sd_age := PInt 20; sd__email := "a@b.com";
                  sd_student_id := "S1"; sd_registered_courses := ["C1"] |}];
            doc_instructors := [];
            doc_courses :=
              [{| cd_course_id := "C1"; cd_course_name := "Algebra";
                  cd_instructor_id := None;
                  cd_enrolled_students := ["S1"] |}] |}%string /\
  (exists w2,
      load_data "school.json" (fresh_manager empty_db ann_saved) =
        (w2, Raise (AttributeError
                      "'NoneType' object has no attribute 'assigned_courses'")) /\
      courses (self w2) = [] /\
      students (self w2) = [("S1"%string, 1)] /\
      registered_courses (student_at (heap w2) 1) = []) /\
  (exists w2,
      load_data "school.json"
        (fresh_manager (conn (self ann_saved)) ann_saved) =
        (w2, Raise (AttributeError
                      "'NoneType' object has no attribute 'assigned_courses'")) /\
      courses (self w2) = [] /\
      students (self w2) = [("S1"%string, 1)] /\
      registered_courses (student_at (heap w2) 1) = []) /\
  (exists w2,
      load_data "school.json" (fresh_manager empty_db ann_and_ira_saved) =
        (w2, Raise (AttributeError
           "'DataManager' object has no attribute 'register_student_in_course'")) /\
      registered_courses (student_at (heap w2) 1) = [1] /\
      t_registrations (conn (self w2)) = []).
Proof.
  split; [vm_compute; reflexivity|].
  split; [|split]; eexists; (split; [vm_compute; reflexivity|]); repeat split.
Qed.

(** *** Deleting an instructor *)

Lemma set_heap_same (w : World) : set_heap (heap w) w = w.
Proof. destruct w. reflexivity. Qed.

Lemma dict_get_values {V} (k : string) (v : V) (d : dict V) :
  dict_get k d = Some v -> v ∈ dict_values d.
Proof.
  induction d as [|[k' v'] d IH]; simpl; intros H; [discriminate|].
  destruct (decide (k = k')).
  - injection H as ->. apply list_elem_of_here.
  - apply list_elem_of_further. apply IH. exact H.
Qed.

Lemma clear_instructor_run (iid : string) (c : nat) (w : World) :
  clear_instructor iid c w = (set_heap (cleared iid (heap w) c) w, Ret tt).
Proof.
  unfold clear_instructor, cleared, bind, get, ret, on_heap, modify.
  destruct (instructor (course_at (heap w) c)) as [i|];
    [|rewrite set_heap_same; reflexivity].
  destruct (decide (instructor_id (instructor_at (heap w) i) = iid));
    [reflexivity|rewrite set_heap_same; reflexivity].
Qed.

Lemma clear_loop_run (iid : string) (cs : list nat) (w : World) :
  for_each cs (clear_instructor iid) w =
  (set_heap (fold_left (cleared iid) cs (heap w)) w, Ret tt).
Proof.
  revert w. induction cs as [|c cs IH]; intros w; simpl.
  - unfold ret. rewrite set_heap_same. reflexivity.
  - unfold bind. rewrite clear_instructor_run, IH. reflexivity.
Qed.

(** A course that has an instructor is a live object. *)
Lemma course_live (h : Heap) (c i : nat) :
  instructor (course_at h c) = Some i -> c < length (h_courses h).
Proof.
  intros H. destruct (decide (c < length (h_courses h))) as [|Hge]; [assumption|].
  unfold course_at in H. rewrite list_lookup_total_alt in H.
  rewrite lookup_ge_None_2 in H by lia. discriminate H.
Qed.

Lemma cleared_instructors (iid : string) (h : Heap) (c : nat) :
  h_instructors (cleared iid h c) = h_instructors h.
Proof.
  unfold cleared. destruct (instructor (course_at h c)); [|reflexivity].
  destruct (decide _); reflexivity.
Qed.

(** A round leaves another course alone; on its own course it keeps or
    clears the instructor. *)
Lemma cleared_other (iid : string) (h : Heap) (c' c : nat) :
  c' <> c -> course_at (cleared iid h c') c = course_at h c.
Proof.
  intros Hne. unfold cleared. destruct (instructor (course_at h c')); [|reflexivity].
  destruct (decide _); [|reflexivity]. apply course_at_update_ne. exact Hne.
Qed.

Lemma cleared_keeps_None (iid : string) (h : Heap) (c' c : nat) :
  instructor (course_at h c) = None ->
  instructor (course_at (cleared iid h c') c) = None.
Proof.
  intros Hnone. destruct (decide (c' = c)) as [->|Hne].
  - unfold cleared. rewrite Hnone. exact Hnone.
  - rewrite cleared_other by exact Hne. exact Hnone.
Qed.

Lemma cleared_fields (iid : string) (h : Heap) (c' c : nat) :
  course_id (course_at (cleared iid h c') c) = course_id (course_at h c) /\
  course_name (course_at (cleared iid h c') c) = course_name (course_at h c) /\
  enrolled_students (course_at (cleared iid h c') c) =
    enrolled_students (course_at h c).
Proof.
  destruct (decide (c' = c)) as [->|Hne].
  - unfold cleared. destruct (instructor (course_at h c)) as [i|] eqn:E;
      [|repeat split].
    destruct (decide _); [|repeat split].
    rewrite course_at_update_eq by (eapply course_live; exact E). repeat split.
  - rewrite cleared_other by exact Hne. repeat split.
Qed.

Lemma clear_loop_keeps_None (iid : string) (cs : list nat) (h : Heap) (c : nat) :
  instructor (course_at h c) = None ->
  instructor (course_at (fold_left (cleared iid) cs h) c) = None.
Proof.
  revert h. induction cs as [|c' cs IH]; intros h Hnone; simpl; [exact Hnone|].
  apply IH. apply cleared_keeps_None. exact Hnone.
Qed.

Lemma clear_loop_fields (iid : string) (cs : list nat) (h : Heap) (c : nat) :
  course_id (course_at (fold_left (cleared iid) cs h) c) =
    course_id (course_at h c) /\
  course_name (course_at (fold_left (cleared iid) cs h) c) =
    course_name (course_at h c) /\
  enrolled_students (course_at (fold_left (cleared iid) cs h) c) =
    enrolled_students (course_at h c).
Proof.
  revert h. induction cs as [|c' cs IH]; intros h; simpl; [repeat split|].
  destruct (IH (cleared iid h c')) as (E1 & E2 & E3).
  destruct (cleared_fields iid h c' c) as (F1 & F2 & F3).
  repeat split; congruence.
Qed.

(** The loop clears every course it visits whose instructor has the
    identifier. *)
Lemma clear_loop_clears (iid : string) (cs : list nat) (h : Heap) (c i : nat) :
  c ∈ cs ->
  instructor (course_at h c) = Some i ->
  instructor_id (instructor_at h i) = iid ->
  instructor (course_at (fold_left (cleared iid) cs h) c) = None.
Proof.
  revert h. induction cs as [|c' cs IH]; intros h Hin Hc Hi; [inversion Hin|].
  simpl. destruct (decide (c' = c)) as [->|Hne].
  - apply clear_loop_keeps_None. unfold cleared. rewrite Hc.
    rewrite decide_True by exact Hi.
    rewrite course_at_update_eq by (eapply course_live; exact Hc). reflexivity.
  - apply elem_of_cons in Hin. destruct Hin as [->|Hin]; [contradiction|].
    apply IH; [exact Hin| |].
    + rewrite cleared_other by exact Hne. exact Hc.
    + unfold instructor_at. rewrite cleared_instructors. exact Hi.
Qed.

Lemma null_instructor_id (iid : string) (r : CourseRow) :
  cr_course_id (null_instructor iid r) = cr_course_id r.
Proof. unfold null_instructor. destruct (decide _); reflexivity. Qed.

Lemma null_instructor_clears (iid : string) (r : CourseRow) :
  cr_instructor_id r = None \/ cr_instructor_id r = Some iid ->
  cr_instructor_id (null_instructor iid r) = None.
Proof.
  intros [H|H]; unfold null_instructor.
  - rewrite decide_False by congruence. exact H.
  - rewrite decide_True by exact H. reflexivity.
Qed.

(** The [courses] table after the two statements of [delete_instructor]. *)
Lemma delete_instructor_courses (iid : string) (db : Database) :
  exists f,
    t_courses (update_courses_null iid (sqlite3.delete_instructor iid db)) =
      map f (t_courses db) /\
    forall r, cr_course_id (f r) = cr_course_id r /\
              (cr_instructor_id r = None \/ cr_instructor_id r = Some iid ->
               cr_instructor_id (f r) = None).
Proof.
  unfold update_courses_null, sqlite3.delete_instructor. simpl.
  destruct (has_person iid (t_instructors db)).
  - exists (fun r => null_instructor iid (null_instructor iid r)).
    split; [apply map_map|]. intros r. split.
    + rewrite !null_instructor_id. reflexivity.
    + intros H. apply null_instructor_clears. left.
      apply null_instructor_clears. exact H.
  - exists (null_instructor iid). split; [reflexivity|]. intros r. split.
    + apply null_instructor_id.
    + apply null_instructor_clears.
Qed.

Lemma delete_instructor_run (iid : string) (w : World) :
  delete_instructor iid w =
  (set_heap
     (fold_left (cleared iid) (dict_values (courses (self w))) (heap w))
     (set_instructors (dict_pop iid (instructors (self w)))
        (set_conn (update_courses_null iid
                     (sqlite3.delete_instructor iid (conn (self w)))) w)),
   Ret tt).
Proof.
  unfold delete_instructor, try_except, execute, bind, get, lift, modify.
  cbn beta iota. rewrite clear_loop_run. reflexivity.
Qed.

(** C4 (as amended).  Let course C be resident under [cid] with
    [C.instructor == I], let [courses] hold a row for [cid], and let every
    such row reference I or nothing.  Then [delete_instructor] of I's
    identifier returns normally; C's [instructor] is [None] in memory; the
    mirror of courses is unchanged, so C is still resident, with its
    identifier, name and students; and [courses] still holds a row for
    [cid], each with a NULL [instructor_id]. *)
Theorem delete_instructor_clears_course (w : World) (cid : string) (c i : nat) :
  dict_get cid (courses (self w)) = Some c ->
  instructor (course_at (heap w) c) = Some i ->
  cid ∈ map cr_course_id (t_courses (conn (self w))) ->
  (forall r, r ∈ t_courses (conn (self w)) -> cr_course_id r = cid ->
             cr_instructor_id r = None \/
             cr_instructor_id r =
               Some (instructor_id (instructor_at (heap w) i))) ->
  exists w',
    delete_instructor (instructor_id (instructor_at (heap w) i)) w =
      (w', Ret tt) /\
    instructor (course_at (heap w') c) = None /\
    courses (self w') = courses (self w) /\
    course_id (course_at (heap w') c) = course_id (course_at (heap w) c) /\
    course_name (course_at (heap w') c) = course_name (course_at (heap w) c) /\
    enrolled_students (course_at (heap w') c) =
      enrolled_students (course_at (heap w) c) /\
    (cid ∈ map cr_course_id (t_courses (conn (self w')))) /\
    (forall r, r ∈ t_courses (conn (self w')) -> cr_course_id r = cid ->
               cr_instructor_id r = None).
Proof.
  intros Hres Hinstr Hrow Hrefs.
  set (iid := instructor_id (instructor_at (heap w) i)).
  set (h' := fold_left (cleared iid) (dict_values (courses (self w))) (heap w)).
  set (db' := update_courses_null iid
                (sqlite3.delete_instructor iid (conn (self w)))).
  exists (set_heap h'
            (set_instructors (dict_pop iid (instructors (self w)))
               (set_conn db' w))).
  split; [apply delete_instructor_run|].
  change (heap (set_heap h' _)) with h'.
  change (courses (self (set_heap h' _))) with (courses (self w)).
  change (t_courses (conn (self (set_heap h' _)))) with (t_courses db').
  destruct (clear_loop_fields iid (dict_values (courses (self w))) (heap w) c)
    as (F1 & F2 & F3).
  destruct (delete_instructor_courses iid (conn (self w))) as (f & Hf & Hfr).
  split; [|split; [reflexivity|split; [exact F1|split; [exact F2|split;
    [exact F3|]]]]].
  - apply (clear_loop_clears iid _ _ c i);
      [eapply dict_get_values; exact Hres|exact Hinstr|reflexivity].
  - unfold db'. rewrite Hf. split.
    + apply list_elem_of_fmap in Hrow. destruct Hrow as (r & Hr & Hin).
      apply list_elem_of_fmap. exists (f r). split.
      * rewrite (proj1 (Hfr r)). exact Hr.
      * apply list_elem_of_fmap. exists r. split; [reflexivity|exact Hin].
    + intros r' Hin' Hid. apply list_elem_of_fmap in Hin'.
      destruct Hin' as (r & -> & Hin).
      destruct (Hfr r) as [Hid' Hnull]. apply Hnull. apply Hrefs; [exact Hin|].
      rewrite <- Hid'. exact Hid.
Qed.

Lemma delete_instructor_clears_course_witness :
  t_courses (conn (self ira_teaches_algebra)) =
    [{| cr_course_id := "C1"; cr_course_name := "Algebra";
        cr_instructor_id := Some "I1"%string |}] /\
  exists w',
    delete_instructor "I1" ira_teaches_algebra = (w', Ret tt) /\
    instructor (course_at (heap w') 0) = None /\
    courses (self w') = [("C1"%string, 0)] /\
    (forall r, r ∈ t_courses (conn (self w')) -> cr_course_id r = "C1"%string ->
               cr_instructor_id r = None).
Proof.
  split; [reflexivity|].
  assert (H1 : dict_get "C1"%string (courses (self ira_teaches_algebra)) = Some 0)
    by reflexivity.
  assert (H2 : instructor (course_at (heap ira_teaches_algebra) 0) = Some 0)
    by reflexivity.
  assert (H3 : "C1"%string ∈
            map cr_course_id (t_courses (conn (self ira_teaches_algebra))))
    by (vm_compute; apply list_elem_of_here).
  assert (H4 : forall r, r ∈ t_courses (conn (self ira_teaches_algebra)) ->
            cr_course_id r = "C1"%string ->
            cr_instructor_id r = None \/
            cr_instructor_id r =
              Some (instructor_id
                      (instructor_at (heap ira_teaches_algebra) 0))).
  { intros r Hr _. right.
    change (t_courses (conn (self ira_teaches_algebra))) with
      [{| cr_course_id := "C1"; cr_course_name := "Algebra";
          cr_instructor_id := Some "I1"%string |}] in Hr.
    apply list_elem_of_singleton in Hr. subst r. reflexivity. }
  destruct (delete_instructor_clears_course ira_teaches_algebra "C1" 0 0
              H1 H2 H3 H4) as (w' & Hrun & Hnone & Hmirror & _ & _ & _ & _ & Hdb).
  exists w'. split; [exact Hrun|]. split; [exact Hnone|].
  split; [rewrite Hmirror; reflexivity|exact Hdb].
Defined.

(** C4, as stated, fails when the stored row of the course references
    another instructor than the one the course has in memory: Ira is
    assigned to the resident course, [delete_instructor] clears the course
    in memory, and the row keeps its reference to Joe. *)
Lemma stored_reference_not_cleared :
  dict_get "C1"%string (courses (self algebra_handed_to_ira)) = Some 0 /\
  instructor (course_at (heap algebra_handed_to_ira) 0) = Some 1 /\
  instructor_id (instructor_at (heap algebra_handed_to_ira) 1) = "I1"%string /\
  assigned_courses (instructor_at (heap algebra_handed_to_ira) 0) = [] /\
  exists w',
    delete_instructor "I1" algebra_handed_to_ira = (w', Ret tt) /\
    instructor (course_at (heap w') 0) = None /\
    t_courses (conn (self w')) =
      [{| cr_course_id := "C1"; cr_course_name := "Algebra";
          cr_instructor_id := Some "I2"%string |}] /\
    ~ (forall r, r ∈ t_courses (conn (self w')) ->
                 cr_course_id r = "C1"%string -> cr_instructor_id r = None).
Proof.
  split; [reflexivity|]. split; [reflexivity|]. split; [reflexivity|].
  split; [reflexivity|].
  eexists. split; [vm_compute; reflexivity|]. split; [reflexivity|].
  split; [reflexivity|].
  intros H.
  specialize (H {| cr_course_id := "C1"; cr_course_name := "Algebra";
                   cr_instructor_id := Some "I2"%string |}
                (list_elem_of_here _ _) eq_refl).
  discriminate H.
Qed.

(** *** Loading *)

Lemma raises_inv {St A} (r : St * outcome A) :
  raises r -> exists s e, r = (s, Raise e).
Proof. destruct r as [s [a|e|]]; simpl; intros H; try contradiction; eauto. Qed.

Lemma ends_weaken {St A} (Q R : A -> St -> Prop) (r : St * outcome A) :
  ends Q r -> (forall a s, Q a s -> R a s) -> ends R r.
Proof. destruct r as [s [a|e|]]; simpl; auto. Qed.

Lemma raises_ends {St A} (Q : A -> St -> Prop) (r : St * outcome A) :
  raises r -> ends Q r.
Proof. destruct r as [s [a|e|]]; simpl; intros H; try contradiction; auto. Qed.

Lemma bind_ends {St A B} (Q : A -> St -> Prop) (R : B -> St -> Prop)
    (m : M St A) (k : A -> M St B) (s : St) :
  ends Q (m s) -> (forall a s', Q a s' -> ends R (k a s')) ->
  ends R (bind m k s).
Proof.
  unfold bind. destruct (m s) as [s' [a|e|]]; simpl; intros H Hk; auto.
Qed.

Lemma bind_raises {St A B} (Q : A -> St -> Prop)
    (m : M St A) (k : A -> M St B) (s : St) :
  ends Q (m s) -> (forall a s', Q a s' -> raises (k a s')) ->
  raises (bind m k s).
Proof.
  unfold bind. destruct (m s) as [s' [a|e|]]; simpl; intros H Hk; auto.
Qed.

(** A loop whose rounds end and keep [I] ends and keeps [I]; if one of its
    rounds raises under [I], the loop raises. *)
Lemma for_each_ends {St A} (I : St -> Prop) (xs : list A)
    (body : A -> M St unit) :
  (forall x s, x ∈ xs -> I s -> ends (fun _ => I) (body x s)) ->
  forall s, I s -> ends (fun _ => I) (for_each xs body s).
Proof.
  induction xs as [|x xs IH]; intros Hbody s Hs; simpl; [exact Hs|].
  apply (bind_ends (fun _ => I)).
  - apply Hbody; [apply list_elem_of_here|exact Hs].
  - intros _ s' Hs'. apply IH; [|exact Hs'].
    intros y t Hy. apply Hbody. apply list_elem_of_further. exact Hy.
Qed.

Lemma for_each_raises {St A} (I : St -> Prop) (xs : list A)
    (body : A -> M St unit) (x0 : A) :
  (forall x s, x ∈ xs -> I s -> ends (fun _ => I) (body x s)) ->
  x0 ∈ xs ->
  (forall s, I s -> raises (body x0 s)) ->
  forall s, I s -> raises (for_each xs body s).
Proof.
  induction xs as [|x xs IH]; intros Hbody Hin Hbad s Hs; [inversion Hin|].
  simpl. apply elem_of_cons in Hin. destruct Hin as [<-|Hin].
  - unfold bind. specialize (Hbad s Hs).
    destruct (body x0 s) as [s' [a|e|]]; simpl in *; try contradiction; auto.
  - apply (bind_raises (fun _ => I)).
    + apply Hbody; [apply list_elem_of_here|exact Hs].
    + intros _ s' Hs'. apply IH; try assumption.
      intros y t Hy. apply Hbody. apply list_elem_of_further. exact Hy.
Qed.

(** The constructors and the [INSERT]s return or raise. *)
Lemma Person_init_ends (nm : string) (ag : pyval) (em : string) :
  Person_init nm ag em <> Fuel.
Proof.
  unfold Person_init. destruct ag as [|z|q|s0]; simpl; try discriminate.
  - destruct (0 <=? z)%Z; [|discriminate].
    destruct (validate_email em); discriminate.
  - destruct (Qle_bool (inject_Z 0) q); [|discriminate].
    destruct (validate_email em); discriminate.
Qed.

Lemma insert_person_ends (table key id nm : string) (ag : pyval) (em : string)
    (t : list PersonRow) :
  insert_person table key id nm ag em t <> Fuel.
Proof.
  unfold insert_person. destruct ag as [|z|q|s0]; simpl; try discriminate.
  - destruct ((- 2 ^ 63 <=? z)%Z && (z <? 2 ^ 63)%Z); simpl; [|discriminate].
    destruct (has_person id t); discriminate.
  - destruct (has_person id t); discriminate.
  - destruct (has_person id t); discriminate.
Qed.

Lemma insert_student_ends id nm ag em db : insert_student id nm ag em db <> Fuel.
Proof.
  unfold insert_student.
  pose proof (insert_person_ends "students" "student_id" id nm ag em
                (t_students db)) as H.
  destruct (insert_person _ _ _ _ _ _ _); simpl; congruence.
Qed.

Lemma insert_instructor_ends id nm ag em db :
  insert_instructor id nm ag em db <> Fuel.
Proof.
  unfold insert_instructor.
  pose proof (insert_person_ends "instructors" "instructor_id" id nm ag em
                (t_instructors db)) as H.
  destruct (insert_person _ _ _ _ _ _ _); simpl; congruence.
Qed.

Lemma insert_course_ends id nm instr db : insert_course id nm instr db <> Fuel.
Proof.
  unfold insert_course. destruct (has_course id (t_courses db)); [discriminate|].
  destruct instr as [i|]; [|discriminate].
  destruct (negb (has_person i (t_instructors db))); discriminate.
Qed.

(** Each [add_] method ends, with the heap as it was; it touches its own
    mirror only, where it writes the entity under its identifier or
    nothing. *)
Lemma add_student_ends (s : nat) (w : World) :
  ends (fun _ w' => heap w' = heap w /\
                    instructors (self w') = instructors (self w))
       (add_student s w).
Proof.
  unfold add_student, try_except, execute, bind, get, lift, modify.
  cbn beta iota.
  pose proof (insert_student_ends
    (student_id (student_at (heap w) s))
    (name (Student_super (student_at (heap w) s)))
    (age (Student_super (student_at (heap w) s)))
    (Person_get_email (Student_super (student_at (heap w) s)))
    (conn (self w))) as H.
  destruct (insert_student _ _ _ _ _) as [db|e|]; [| |congruence].
  - simpl. auto.
  - destruct e; simpl; auto.
Qed.

Lemma add_instructor_ends (i : nat) (w : World) :
  ends (fun _ w' =>
          heap w' = heap w /\
          (instructors (self w') = instructors (self w) \/
           instructors (self w') =
             dict_set (instructor_id (instructor_at (heap w) i)) i
               (instructors (self w))))
       (add_instructor i w).
Proof.
  unfold add_instructor, try_except, execute, bind, get, lift, modify.
  cbn beta iota.
  pose proof (insert_instructor_ends
    (instructor_id (instructor_at (heap w) i))
    (name (Instructor_super (instructor_at (heap w) i)))
    (age (Instructor_super (instructor_at (heap w) i)))
    (Person_get_email (Instructor_super (instructor_at (heap w) i)))
    (conn (self w))) as H.
  destruct (insert_instructor _ _ _ _ _) as [db|e|]; [| |congruence].
  - simpl. auto.
  - destruct e; simpl; auto.
Qed.

Lemma add_course_ends (c : nat) (w : World) :
  ends (fun _ w' => heap w' = heap w /\
                    instructors (self w') = instructors (self w))
       (add_course c w).
Proof.
  unfold add_course, try_except, execute, bind, get, lift, modify.
  cbn beta iota.
  match goal with
  | |- context [insert_course ?a ?b ?i ?d] =>
      pose proof (insert_course_ends a b i d) as H;
      destruct (insert_course a b i d) as [db|e|]; [| |congruence]
  end.
  - simpl. auto.
  - destruct e; simpl; auto.
Qed.

Lemma dict_get_set {V} (k k' : string) (v : V) (d : dict V) :
  dict_get k (dict_set k' v d) =
  if decide (k = k') then Some v else dict_get k d.
Proof.
  induction d as [|[k0 v0] d IH]; simpl; [reflexivity|].
  destruct (decide (k' = k0)) as [->|Hne]; simpl.
  - destruct (decide (k = k0)); reflexivity.
  - rewrite IH. destruct (decide (k = k0)) as [->|]; [|reflexivity].
    rewrite decide_False by congruence. reflexivity.
Qed.

Lemma load_student_ends (d : StudentDict) (w : World) :
  ends (fun _ _ => True) (load_student d w).
Proof.
  unfold load_student, on_heap, Student_from_dict, Student_init.
  unfold bind at 1. unfold bind at 2. unfold lift.
  pose proof (Person_init_ends (sd_name d) (sd_age d) (sd__email d)) as Hp.
  destruct (Person_init (sd_name d) (sd_age d) (sd__email d)) as [p|e|];
    [|exact I|congruence].
  cbn beta iota. unfold bind at 1. unfold get at 1. cbn beta iota.
  unfold bind at 1. unfold modify at 1. cbn beta iota.
  eapply ends_weaken; [apply add_student_ends|]. auto.
Qed.

Lemma load_instructor_ends (ids : list string) (d : InstructorDict) (w : World) :
  id_instructor_id d ∈ ids -> mirror_live ids w ->
  ends (fun _ => mirror_live ids) (load_instructor d w).
Proof.
  intros Hid Hlive.
  unfold load_instructor, on_heap, Instructor_from_dict, Instructor_init.
  unfold bind at 1. unfold bind at 2. unfold lift.
  pose proof (Person_init_ends (id_name d) (id_age d) (id__email d)) as Hp.
  destruct (Person_init (id_name d) (id_age d) (id__email d)) as [p|e|];
    [|exact I|congruence].
  cbn beta iota. unfold bind at 1. unfold get at 1. cbn beta iota.
  unfold bind at 1. unfold modify at 1. cbn beta iota.
  set (x := {| Instructor_super := p; instructor_id := id_instructor_id d;
               assigned_courses := [] |}).
  set (h1 := {| h_students := h_students (heap w);
                h_instructors := h_instructors (heap w) ++ [x];
                h_courses := h_courses (heap w) |}).
  assert (Ex : instructor_at h1 (length (h_instructors (heap w))) = x)
    by apply instructor_at_new.
  change (heap (set_heap h1 w)) with h1. rewrite Ex.
  change (instructor_id x) with (id_instructor_id d).
  change (instructors (self (set_heap h1 w))) with (instructors (self w)).
  set (m1 := dict_set (id_instructor_id d) (length (h_instructors (heap w)))
               (instructors (self w))).
  eapply ends_weaken; [apply add_instructor_ends|].
  intros _ w' [Hheap Hmirror].
  change (heap (set_instructors m1 (set_heap h1 w))) with h1 in Hheap, Hmirror.
  change (instructors (self (set_instructors m1 (set_heap h1 w)))) with m1
    in Hmirror.
  rewrite Ex in Hmirror. change (instructor_id x) with (id_instructor_id d)
    in Hmirror.
  assert (Hm1 : forall k v, dict_get k m1 = Some v ->
                  k ∈ ids /\ v < length (h_instructors h1)).
  { intros k v. unfold m1. rewrite dict_get_set.
    unfold h1. simpl. rewrite length_app. simpl.
    destruct (decide (k = id_instructor_id d)) as [->|Hne].
    - intros [= <-]. split; [exact Hid|lia].
    - intros Hk. destruct (Hlive k v Hk). split; [assumption|lia]. }
  intros k v. rewrite Hheap. destruct Hmirror as [->| ->].
  - apply Hm1.
  - rewrite dict_get_set.
    destruct (decide (k = id_instructor_id d)) as [->|Hne].
    + intros [= <-]. split; [exact Hid|].
      unfold h1. simpl. rewrite length_app. simpl. lia.
    + apply Hm1.
Qed.

(** One round of the third loop, after the course object was created. *)
Lemma load_course_run (d : CourseDict) (w : World) :
  load_course d w =
  let c := length (h_courses (heap w)) in
  let h1 := {| h_students := h_students (heap w);
               h_instructors := h_instructors (heap w);
               h_courses := h_courses (heap w) ++
                 [{| course_id := cd_course_id d;
                     course_name := cd_course_name d;
                     instructor := None; enrolled_students := [] |}] |} in
  match Course_set_instructor c (looked_up d w) h1 with
  | (h2, Ret _) =>
      add_course c
        (set_courses (dict_set (course_id (course_at h2 c)) c (courses (self w)))
           (set_heap h2 w))
  | (h2, Raise e) => (set_heap h2 w, Raise e)
  | (h2, Fuel) => (set_heap h2 w, Fuel)
  end.
Proof.
  unfold load_course, looked_up, on_heap, Course_from_dict, Course_init.
  unfold bind at 1. unfold get at 1. cbn beta iota zeta.
  unfold bind at 1. cbn beta iota zeta.
  unfold bind at 1. cbn beta iota zeta.
  change (heap (set_heap ?h w)) with h.
  destruct (Course_set_instructor _ _ _) as [h2 [[]|e|]]; reflexivity.
Qed.

Lemma load_course_ends (ids : list string) (d : CourseDict) (w : World) :
  mirror_live ids w -> ends (fun _ => mirror_live ids) (load_course d w).
Proof.
  intros Hlive. rewrite load_course_run. cbn zeta.
  destruct (looked_up d w) as [i|] eqn:Hlook.
  - assert (Hi : i < length (h_instructors (heap w))).
    { unfold looked_up in Hlook. destruct (truthy _); [|discriminate].
      destruct (cd_instructor_id d) as [k|]; [|discriminate].
      apply (Hlive k i Hlook). }
    match goal with
    | |- context [Course_set_instructor ?c (Some i) ?h1] =>
        destruct (depth_enough_set_instructor 5 h1 c i Hi)
          as (h2 & Hrun & Hshape & _)
    end.
    unfold Course_set_instructor, call_depth. rewrite Hrun.
    eapply ends_weaken; [apply add_course_ends|].
    intros _ w' [Hheap Hmirror] k v Hk.
    rewrite Hmirror in Hk. destruct (Hlive k v Hk) as [Hin Hv].
    split; [exact Hin|]. rewrite Hheap.
    destruct Hshape as (_ & Hlen & _). simpl in *. lia.
  - unfold Course_set_instructor, call_depth. rewrite set_instructor_None.
    exact I.
Qed.

Lemma load_course_raises (ids : list string) (d : CourseDict) (w : World) :
  mirror_live ids w ->
  cd_instructor_id d = None \/
  (exists id, cd_instructor_id d = Some id /\ id ∉ ids) ->
  raises (load_course d w).
Proof.
  intros Hlive Hbad. rewrite load_course_run. cbn zeta.
  assert (Hlook : looked_up d w = None).
  { unfold looked_up. destruct (truthy _); [|reflexivity].
    destruct Hbad as [->|(id & -> & Hid)]; [reflexivity|].
    destruct (dict_get id (instructors (self w))) as [v|] eqn:Hk; [|reflexivity].
    destruct (Hlive id v Hk) as [Hin _]. contradiction. }
  rewrite Hlook. unfold Course_set_instructor, call_depth.
  rewrite set_instructor_None. exact I.
Qed.

Lemma load_data_run (filename : string) (doc : Document) (w : World) :
  dict_get filename (files w) = Some doc ->
  load_data filename w =
  bind (modify (set_students [])) (fun _ =>
  bind (for_each (doc_students doc) load_student) (fun _ =>
  bind (modify (set_instructors [])) (fun _ =>
  bind (for_each (doc_instructors doc) load_instructor) (fun _ =>
  bind (modify (set_courses [])) (fun _ =>
  bind (for_each (doc_courses doc) load_course) (fun _ =>
  for_each (doc_courses doc) enroll_students)))))) w.
Proof.
  intros Hfile. unfold load_data, read_file.
  unfold bind at 1. unfold get at 1. cbn beta iota. rewrite Hfile. reflexivity.
Qed.

(** C9.  [set_instructor(None)] stores [None] in the course and then raises
    [AttributeError].  Hence [load_data] raises on every document with a
    course entry whose [instructor_id] is null or is not the identifier of
    an instructor entry of the document (the mirror of instructors holds
    the instructors of the document only). *)
Theorem set_instructor_None_raises (h : Heap) (c : nat) (w : World)
    (filename : string) (doc : Document) (d : CourseDict) :
  dict_get filename (files w) = Some doc ->
  d ∈ doc_courses doc ->
  cd_instructor_id d = None \/
  (exists id, cd_instructor_id d = Some id /\
              id ∉ map id_instructor_id (doc_instructors doc)) ->
  Course_set_instructor c None h =
    (update_course c (with_instructor None) h,
     Raise (AttributeError
              "'NoneType' object has no attribute 'assigned_courses'")) /\
  instructor (course_at (update_course c (with_instructor None) h) c) = None /\
  exists w' e, load_data filename w = (w', Raise e).
Proof.
  intros Hfile Hin Hbad. split; [reflexivity|]. split.
  - destruct (decide (c < length (h_courses h))) as [Hc|Hc].
    + rewrite course_at_update_eq by exact Hc. reflexivity.
    + unfold course_at, update_course. simpl. rewrite list_lookup_total_alt.
      rewrite lookup_ge_None_2; [reflexivity|]. rewrite length_alter. lia.
  - apply raises_inv. rewrite (load_data_run _ doc) by exact Hfile.
    set (ids := map id_instructor_id (doc_instructors doc)).
    apply (bind_raises (fun _ _ => True)); [exact I|]. intros _ w1 _.
    apply (bind_raises (fun _ _ => True)).
    { eapply ends_weaken.
      - apply (for_each_ends (fun _ => True)); [|exact I].
        intros x s _ _. eapply ends_weaken; [apply load_student_ends|auto].
      - auto. }
    intros _ w2 _.
    apply (bind_raises (fun _ => mirror_live ids)).
    { simpl. intros k v Hk. discriminate Hk. }
    intros _ w3 Hlive3.
    apply (bind_raises (fun _ => mirror_live ids)).
    { apply for_each_ends; [|exact Hlive3].
      intros x s Hx Hs. apply load_instructor_ends; [|exact Hs].
      unfold ids. apply list_elem_of_fmap. exists x. split; [reflexivity|exact Hx]. }
    intros _ w4 Hlive4.
    apply (bind_raises (fun _ => mirror_live ids)).
    { simpl. exact Hlive4. }
    intros _ w5 Hlive5.
    unfold bind.
    assert (Hr : raises (for_each (doc_courses doc) load_course w5)).
    { apply (for_each_raises (mirror_live ids) _ _ d); try assumption.
      - intros x s _ Hs. apply load_course_ends. exact Hs.
      - intros s Hs. apply (load_course_raises ids); assumption. }
    destruct (for_each (doc_courses doc) load_course w5) as [w6 [[]|e|]];
      simpl in Hr; try contradiction. exact I.
Qed.

Lemma set_instructor_None_raises_witness :
  dict_get "school.json"%string (files (fresh_manager empty_db ann_saved)) =
    dict_get "school.json"%string (files ann_saved) /\
  Course_set_instructor 0 None (heap ann_saved) =
    (update_course 0 (with_instructor None) (heap ann_saved),
     Raise (AttributeError
              "'NoneType' object has no attribute 'assigned_courses'")) /\
  exists w' e,
    load_data "school.json" (fresh_manager empty_db ann_saved) = (w', Raise e).
Proof.
  pose (d := {| cd_course_id := "C1"; cd_course_name := "Algebra";
                cd_instructor_id := None;
                cd_enrolled_students := ["S1"] |}%string).
  pose (doc := {| doc_students :=
                    [{| sd_name := "Ann"; sd_age := PInt 20;
                        sd__email := "a@b.com"; sd_student_id := "S1";
                        sd_registered_courses := ["C1"] |}];
                  doc_instructors := [];
                  doc_courses := [d] |}%string).
  assert (H1 : dict_get "school.json"%string
                 (files (fresh_manager empty_db ann_saved)) = Some doc)
    by (vm_compute; reflexivity).
  assert (H2 : d ∈ doc_courses doc) by apply list_elem_of_here.
  assert (H3 : cd_instructor_id d = None \/
               (exists id, cd_instructor_id d = Some id /\
                           id ∉ map id_instructor_id (doc_instructors doc)))
    by (left; reflexivity).
  destruct (set_instructor_None_raises (heap ann_saved) 0
              (fresh_manager empty_db ann_saved) "school.json" doc d H1 H2 H3)
    as (Hset & _ & Hload).
  split; [reflexivity|]. split; [exact Hset|exact Hload].
Defined.

End data_manager_spec.

(* ===================================================================== *)
(** ** Properties of the PyQt model ([models_PyQt.py]) *)
(* ===================================================================== *)

Module models_PyQt_spec.

Import models_PyQt.
Local Open Scope list_scope.

(** The constructor of this variant does check the name and the type of
    the age. *)
Lemma person_init_rejects (nm : string) (ag : pyval) (email : string) :
  nm = ""%string \/ type_is_not_int ag = true \/
  (exists z, ag = PInt z /\ (z < 0)%Z) \/ regex.re_match reg email = false ->
  exists msg, person_init nm ag email = Raise (ValueError msg).
Proof.
  unfold person_init, validate_name, validate_age, validate_email.
  intros H. destruct (bool_decide (nm = ""%string)) eqn:Hn; simpl; [eauto|].
  destruct H as [->|H]; [discriminate Hn|].
  destruct (type_is_not_int ag) eqn:Ht; simpl; [eauto|].
  destruct H as [H|H]; [discriminate H|].
  destruct ag as [|z|q|s0]; try discriminate Ht. simpl.
  destruct (z <? 0)%Z eqn:Hz; simpl; [eauto|].
  destruct H as [(z' & [= <-] & Hneg)|H].
  - apply Z.ltb_ge in Hz. lia.
  - rewrite H. simpl. eauto.
Qed.

(** C10.  [course.add_student] called with a student instance raises
    ([TypeError], from [isinstance] whose second argument is the instance
    itself) and leaves the course, and so [enrolled_students], as it was.
    Whatever the argument, the list is unchanged unless the argument is the
    class [object] or the class [type]: no student instance is ever
    enrolled. *)
Theorem add_student_never_enrolls :
  (forall (self : course) (s : student),
      add_student (a_student s) self =
      (self, Raise (TypeError
         "isinstance() arg 2 must be a type, a tuple of types, or a union"))) /\
  (forall (self : course) (x : pyobj),
      (add_student x self).1 = self \/
      x = a_class class_object \/ x = a_class class_type).
Proof.
  split; [reflexivity|].
  intros self x. destruct x as [s|i|v|[]]; auto.
Qed.

End models_PyQt_spec.

(* ===================================================================== *)
(** ** Properties of the e-mail patterns *)
(* ===================================================================== *)

Module regex_spec.

Import regex regex_lang.

Lemma app_nil_l (s : string) : "" ++ s = s.
Proof. reflexivity. Qed.

Lemma app_cons (c : ascii) (s1 s2 : string) :
  String c s1 ++ s2 = String c (s1 ++ s2).
Proof. reflexivity. Qed.

Lemma app_nil_r (s : string) : s ++ "" = s.
Proof.
  induction s as [|c s IH]; [reflexivity|]. rewrite app_cons, IH. reflexivity.
Qed.

Lemma app_assoc (s1 s2 s3 : string) : (s1 ++ s2) ++ s3 = s1 ++ (s2 ++ s3).
Proof.
  induction s1 as [|c s1 IH]; [reflexivity|].
  rewrite !app_cons, IH. reflexivity.
Qed.

Lemma app_eq_nil (s1 s2 : string) : s1 ++ s2 = "" -> s1 = "" /\ s2 = "".
Proof.
  destruct s1 as [|c s1]; [rewrite app_nil_l; auto|].
  rewrite app_cons. discriminate.
Qed.

Lemma app_eq_cons (s1 s2 : string) (c : ascii) (s : string) :
  s1 ++ s2 = String c s ->
  (s1 = "" /\ s2 = String c s) \/
  (exists s1', s1 = String c s1' /\ s = s1' ++ s2).
Proof.
  destruct s1 as [|c1 s1]; [rewrite app_nil_l; auto|].
  rewrite app_cons. intros [= -> <-]. right. eauto.
Qed.

(** [nullable] decides whether the empty string is in the language. *)
Lemma nullable_lang (r : re) : nullable r = true <-> lang r "".
Proof.
  split.
  - induction r as [| |p|r1 IH1 r2 IH2|r1 IH1 r2 IH2|r IH]; simpl; intros H;
      try discriminate.
    + constructor.
    + apply andb_true_iff in H. destruct H as [H1 H2].
      rewrite <- (app_nil_l ""). constructor; auto.
    + apply orb_true_iff in H. destruct H as [H|H];
        [apply lang_alt_l|apply lang_alt_r]; auto.
    + constructor.
  - intros H. remember "" as s eqn:Hs.
    induction H as [|p c Hp|r1 r2 s1 s2 H1 IH1 H2 IH2|r1 r2 s H IH|r1 r2 s H IH
                   |r|r s1 s2 H1 IH1 H2 IH2]; simpl; try reflexivity.
    + discriminate Hs.
    + apply app_eq_nil in Hs. destruct Hs as [-> ->].
      rewrite IH1, IH2 by reflexivity. reflexivity.
    + rewrite IH by exact Hs. reflexivity.
    + rewrite IH by exact Hs. apply orb_true_r.
Qed.

(** The derivative denotes the strings that follow the character. *)
Lemma deriv_sound (c : ascii) (r : re) (s : string) :
  lang (deriv c r) s -> lang r (String c s).
Proof.
  revert s.
  induction r as [| |p|r1 IH1 r2 IH2|r1 IH1 r2 IH2|r IH]; simpl; intros s H.
  - inversion H.
  - inversion H.
  - destruct (p c) eqn:Hp; inversion H; subst. constructor. exact Hp.
  - assert (Hleft : forall t, lang (Cat (deriv c r1) r2) t ->
                              lang (Cat r1 r2) (String c t)).
    { intros t Ht. inversion Ht; subst. rewrite <- app_cons.
      constructor; auto. }
    destruct (nullable r1) eqn:Hn; [|auto].
    inversion H; subst; [auto|].
    rewrite <- (app_nil_l (String c s)). constructor; [|auto].
    apply nullable_lang. exact Hn.
  - inversion H; subst; [apply lang_alt_l|apply lang_alt_r]; auto.
  - inversion H; subst. rewrite <- app_cons. constructor; auto.
Qed.

Lemma deriv_complete (c : ascii) (r : re) (s : string) :
  lang r (String c s) -> lang (deriv c r) s.
Proof.
  intros H. remember (String c s) as w eqn:Hw. revert s Hw.
  induction H as [|p c' Hp|r1 r2 s1 s2 H1 IH1 H2 IH2|r1 r2 t H IH|r1 r2 t H IH
                 |r|r s1 s2 H1 IH1 H2 IH2]; intros s Hw; simpl.
  - discriminate Hw.
  - injection Hw as -> <-. rewrite Hp. constructor.
  - apply app_eq_cons in Hw. destruct Hw as [[-> ->]|(s1' & -> & ->)].
    + assert (Hn : nullable r1 = true) by (apply nullable_lang; exact H1).
      rewrite Hn. apply lang_alt_r. apply IH2. reflexivity.
    + assert (Hc : lang (Cat (deriv c r1) r2) (s1' ++ s2))
        by (constructor; [apply IH1; reflexivity|exact H2]).
      destruct (nullable r1); [apply lang_alt_l|]; exact Hc.
  - apply lang_alt_l. apply IH. exact Hw.
  - apply lang_alt_r. apply IH. exact Hw.
  - discriminate Hw.
  - apply app_eq_cons in Hw. destruct Hw as [[-> ->]|(s1' & -> & ->)].
    + apply IH2. reflexivity.
    + constructor; [apply IH1; reflexivity|exact H2].
Qed.

(** The matcher by derivatives decides the language. *)
Lemma matches_lang (r : re) (s : string) : matches r s = true <-> lang r s.
Proof.
  revert r. induction s as [|c s IH]; intros r; simpl.
  - apply nullable_lang.
  - rewrite IH. split; [apply deriv_sound|apply deriv_complete].
Qed.

Lemma lang_class_inv (p : ascii -> bool) (s : string) :
  lang (Class p) s <-> exists c, s = String c "" /\ p c = true.
Proof.
  split.
  - intros H. inversion H; subst. eauto.
  - intros (c & -> & Hp). constructor. exact Hp.
Qed.

Lemma lang_char (x : ascii) (s : string) :
  lang (Class (is_char x)) s <-> s = String x "".
Proof.
  rewrite lang_class_inv. unfold is_char. split.
  - intros (c & -> & Hc). apply Ascii.eqb_eq in Hc. subst. reflexivity.
  - intros ->. exists x. split; [reflexivity|]. apply Ascii.eqb_refl.
Qed.

Lemma lang_star_class (p : ascii -> bool) (s : string) :
  lang (Star (Class p)) s <-> all_chars p s = true.
Proof.
  split.
  - intros H. remember (Star (Class p)) as r eqn:Hr.
    induction H as [|q c Hq|r1 r2 s1 s2 H1 IH1 H2 IH2|r1 r2 t H IH|r1 r2 t H IH
                   |r|r s1 s2 H1 IH1 H2 IH2]; try discriminate Hr.
    + reflexivity.
    + injection Hr as ->. apply lang_class_inv in H1.
      destruct H1 as (c & -> & Hc). rewrite app_cons, app_nil_l. simpl.
      rewrite Hc. apply IH2. reflexivity.
  - induction s as [|c s IH]; simpl; intros H; [constructor|].
    apply andb_true_iff in H. destruct H as [Hc Hs].
    change (String c s) with (String c "" ++ s).
    constructor; [constructor; exact Hc|auto].
Qed.

Lemma lang_plus_class (p : ascii -> bool) (s : string) :
  lang (Plus (Class p)) s <-> word p s.
Proof.
  unfold Plus, word. split.
  - intros H. inversion H as [| |r1 r2 s1 s2 H1 H2| | | |]; subst.
    apply lang_class_inv in H1. destruct H1 as (c & -> & Hc).
    apply lang_star_class in H2. rewrite app_cons, app_nil_l.
    split; [discriminate|]. simpl. rewrite Hc. exact H2.
  - intros [Hne Hall]. destruct s as [|c s]; [contradiction|].
    simpl in Hall. apply andb_true_iff in Hall. destruct Hall as [Hc Hs].
    change (String c s) with (String c "" ++ s).
    constructor; [constructor; exact Hc|]. apply lang_star_class. exact Hs.
Qed.

(** The language of an e-mail pattern is its shape. *)
Lemma email_re_shape (p1 p2 p3 : ascii -> bool) (s : string) :
  lang (email_re p1 p2 p3) s <-> email_shape p1 p2 p3 s.
Proof.
  unfold email_re, email_shape. split.
  - intros H.
    inversion H as [| |? ? a s1 Ha H1| | | |]; subst.
    inversion H1 as [| |? ? x s2 Hx H2| | | |]; subst.
    inversion H2 as [| |? ? b s3 Hb H3| | | |]; subst.
    inversion H3 as [| |? ? y c Hy Hc| | | |]; subst.
    apply lang_char in Hx, Hy. subst x y.
    exists a, b, c. split; [reflexivity|].
    split; [|split]; apply lang_plus_class; assumption.
  - intros (a & b & c & -> & Ha & Hb & Hc).
    constructor; [apply lang_plus_class; exact Ha|].
    constructor; [apply lang_char; reflexivity|].
    constructor; [apply lang_plus_class; exact Hb|].
    constructor; [apply lang_char; reflexivity|].
    apply lang_plus_class; exact Hc.
Qed.

(** [chomp] takes a final line feed off, and only that. *)
Lemma chomp_spec (s t : string) : chomp s = Some t <-> s = t ++ LF.
Proof.
  split.
  - revert t. induction s as [|c s IH]; intros t H; [discriminate H|].
    destruct s as [|c' s'].
    + simpl in H. destruct (Ascii.eqb c "010") eqn:Hc; [|discriminate H].
      injection H as <-. apply Ascii.eqb_eq in Hc. subst c. reflexivity.
    + change (chomp (String c (String c' s')))
        with (match chomp (String c' s') with
              | Some t => Some (String c t)
              | None => None
              end) in H.
      destruct (chomp (String c' s')) as [t'|] eqn:Ht; [|discriminate H].
      injection H as <-. rewrite (IH t' eq_refl). reflexivity.
  - intros ->. induction t as [|c t IH]; [reflexivity|].
    rewrite app_cons. destruct (t ++ LF) as [|c' s'] eqn:E.
    + apply app_eq_nil in E. destruct E as [_ E]. discriminate E.
    + change (chomp (String c (String c' s')))
        with (match chomp (String c' s') with
              | Some t => Some (String c t)
              | None => None
              end).
      rewrite IH. reflexivity.
Qed.

(** [re.match] with the anchors: the body takes the whole string, or all of
    it but a final line feed. *)
Lemma re_match_shape (p1 p2 p3 : ascii -> bool) (s : string) :
  re_match (email_re p1 p2 p3) s = true <->
  email_shape p1 p2 p3 s \/
  (exists t, s = t ++ LF /\ email_shape p1 p2 p3 t).
Proof.
  unfold re_match. rewrite orb_true_iff, matches_lang, email_re_shape.
  split; (intros [H|H]; [left; exact H|right]).
  - destruct (chomp s) as [t|] eqn:Ht; [|discriminate H].
    apply chomp_spec in Ht. apply matches_lang, email_re_shape in H. eauto.
  - destruct H as (t & Ht & Hshape). apply chomp_spec in Ht. rewrite Ht.
    apply matches_lang, email_re_shape. exact Hshape.
Qed.

Lemma all_chars_mono (p q : ascii -> bool) (s : string) :
  (forall c, p c = true -> q c = true) ->
  all_chars p s = true -> all_chars q s = true.
Proof.
  intros Hpq. induction s as [|c s IH]; simpl; [auto|].
  rewrite !andb_true_iff. intros [Hc Hs]. auto.
Qed.

Lemma email_shape_mono (p1 p2 p3 q1 q2 q3 : ascii -> bool) (s : string) :
  (forall c, p1 c = true -> q1 c = true) ->
  (forall c, p2 c = true -> q2 c = true) ->
  (forall c, p3 c = true -> q3 c = true) ->
  email_shape p1 p2 p3 s -> email_shape q1 q2 q3 s.
Proof.
  intros H1 H2 H3 (a & b & c & -> & [Na Ha] & [Nb Hb] & [Nc Hc]).
  exists a, b, c. split; [reflexivity|].
  repeat split; try assumption; eapply all_chars_mono; eassumption.
Qed.

(** The classes of the PyQt pattern hold no white space. *)
Lemma local_part_non_space (c : ascii) :
  models_PyQt.local_part c = true -> non_space c = true.
Proof.
  destruct c as [[] [] [] [] [] [] [] []]; vm_compute; intros H;
    first [reflexivity|discriminate H].
Qed.

Lemma domain_part_non_space (c : ascii) :
  models_PyQt.domain_part c = true -> non_space c = true.
Proof.
  destruct c as [[] [] [] [] [] [] [] []]; vm_compute; intros H;
    first [reflexivity|discriminate H].
Qed.

Lemma suffix_part_non_space (c : ascii) :
  models_PyQt.suffix_part c = true -> non_space c = true.
Proof.
  destruct c as [[] [] [] [] [] [] [] []]; vm_compute; intros H;
    first [reflexivity|discriminate H].
Qed.

(** X1.  [Person.validate_email] accepts exactly the strings [a@b.c] in
    which [a], [b] and [c] are non-empty and hold no white space, and those
    strings followed by one line feed. *)
Theorem validate_email_shape (email : string) :
  models.validate_email email = true <->
  email_shape non_space non_space non_space email \/
  (exists t, email = t ++ LF /\
             email_shape non_space non_space non_space t).
Proof. apply re_match_shape. Qed.

(** X2.  [person.validate_email] of the PyQt model returns for exactly the
    strings [a@b.c] with [a] a non-empty run of letters, digits and [_.+-],
    [b] one of letters, digits and [-], [c] one of letters, digits and
    [-.], and for those strings followed by one line feed; for every other
    string it raises [ValueError]. *)
Theorem PyQt_validate_email_shape (email : string) :
  (models_PyQt.validate_email email = Ret tt <->
   email_shape models_PyQt.local_part models_PyQt.domain_part
     models_PyQt.suffix_part email \/
   (exists t, email = t ++ LF /\
              email_shape models_PyQt.local_part models_PyQt.domain_part
                models_PyQt.suffix_part t)) /\
  (models_PyQt.validate_email email = Ret tt \/
   models_PyQt.validate_email email =
     Raise (ValueError "Email address is invalid!")).
Proof.
  unfold models_PyQt.validate_email.
  change models_PyQt.reg with
    (email_re models_PyQt.local_part models_PyQt.domain_part
       models_PyQt.suffix_part).
  split.
  - rewrite <- re_match_shape.
    destruct (re_match _ email); split; intros H; try reflexivity;
      discriminate H.
  - destruct (re_match _ email); auto.
Qed.

(** X3.  The PyQt pattern is the stricter one: an e-mail that
    [person.validate_email] of the PyQt model lets through is accepted by
    [Person.validate_email] of [models.py]. *)
Theorem PyQt_email_accepted_by_models (email : string) :
  models_PyQt.validate_email email = Ret tt ->
  models.validate_email email = true.
Proof.
  intros H. unfold models_PyQt.validate_email in H.
  change models_PyQt.reg with
    (email_re models_PyQt.local_part models_PyQt.domain_part
       models_PyQt.suffix_part) in H.
  destruct (re_match _ email) eqn:E; [clear H|discriminate H].
  apply re_match_shape in E. apply re_match_shape.
  destruct E as [H|(t & Ht & H)]; [left|right; exists t; split; [exact Ht|]];
    eapply email_shape_mono; try exact H;
    auto using local_part_non_space, domain_part_non_space,
               suffix_part_non_space.
Qed.

Lemma PyQt_email_accepted_by_models_witness :
  models_PyQt.validate_email "ann.lee+x@uni-b.edu.lb" = Ret tt /\
  models.validate_email "ann.lee+x@uni-b.edu.lb" = true.
Proof.
  assert (H : models_PyQt.validate_email "ann.lee+x@uni-b.edu.lb" = Ret tt)
    by reflexivity.
  split; [exact H|].
  exact (PyQt_email_accepted_by_models "ann.lee+x@uni-b.edu.lb" H).
Defined.

End regex_spec.

(* ===================================================================== *)
(** ** Further properties of the PyQt model *)
(* ===================================================================== *)

Module models_PyQt_more.

Import models_PyQt invariants.

Lemma PyQt_valid_dec (nm : string) (ag : pyval) (em : string) :
  PyQt_valid nm ag em \/ ~ PyQt_valid nm ag em.
Proof.
  unfold PyQt_valid.
  destruct (decide (nm = ""%string)) as [->|Hn]; [right; intros [H _]; auto|].
  destruct ag as [|z|q|s0];
    try (right; intros (_ & (z & Hz & _) & _); discriminate Hz).
  destruct (decide (0 <= z)%Z) as [Hz|Hz].
  - destruct (validate_email em) as [[]|e|] eqn:He.
    + left. eauto.
    + right. intros (_ & _ & H). discriminate H.
    + right. intros (_ & _ & H). discriminate H.
  - right. intros (_ & (z' & [= <-] & Hz') & _). contradiction.
Qed.

(** X4.  The constructors of the PyQt model build the object exactly when
    the name is not empty, the age is an [int] that is not negative and the
    e-mail matches the pattern (and, for a student, the identifier is not
    empty); in every other case they raise [ValueError], whatever the type
    of the age. *)
Theorem PyQt_constructors_validate (nm : string) (ag : pyval)
    (em sid : string) (rc : list string) :
  (PyQt_valid nm ag em /\
   person_init nm ag em = Ret {| name := nm; age := ag; _email := em |} \/
   ~ PyQt_valid nm ag em /\
   exists msg, person_init nm ag em = Raise (ValueError msg)) /\
  ((PyQt_valid nm ag em /\ sid <> ""%string) /\
   student_init nm ag em sid rc =
     Ret {| student_super := {| name := nm; age := ag; _email := em |};
            student_id := sid; registered_courses := rc |} \/
   ~ (PyQt_valid nm ag em /\ sid <> ""%string) /\
   exists msg, student_init nm ag em sid rc = Raise (ValueError msg)).
Proof.
  assert (Hok : PyQt_valid nm ag em ->
            person_init nm ag em = Ret {| name := nm; age := ag; _email := em |}).
  { intros (Hn & (z & -> & Hz) & He). unfold person_init, validate_name.
    rewrite bool_decide_eq_false_2 by exact Hn.
    unfold validate_age, type_is_not_int, lt_zero, obind.
    assert ((z <? 0)%Z = false) as -> by (apply Z.ltb_ge; exact Hz).
    rewrite He. reflexivity. }
  assert (Hbad : ~ PyQt_valid nm ag em ->
            exists msg, person_init nm ag em = Raise (ValueError msg)).
  { intros Hnot. unfold person_init, validate_name.
    destruct (bool_decide (nm = ""%string)) eqn:Hn; simpl; [eauto|].
    apply bool_decide_eq_false in Hn.
    unfold validate_age, type_is_not_int, lt_zero, obind.
    destruct ag as [|z|q|s0]; eauto.
    destruct (z <? 0)%Z eqn:Hz; [eauto|].
    apply Z.ltb_ge in Hz.
    unfold validate_email.
    destruct (regex.re_match reg em) eqn:He; simpl; [|eauto].
    exfalso. apply Hnot. split; [exact Hn|]. split; [eauto|].
    unfold validate_email. rewrite He. reflexivity. }
  split.
  - destruct (PyQt_valid_dec nm ag em) as [H|H]; [left|right]; auto.
  - unfold student_init, validate_student_id.
    destruct (PyQt_valid_dec nm ag em) as [H|H].
    + rewrite (Hok H). simpl.
      destruct (decide (sid = ""%string)) as [->|Hs].
      * right. split; [intros [_ Hs]; auto|]. simpl. eauto.
      * left. split; [auto|].
        rewrite bool_decide_eq_false_2 by exact Hs. reflexivity.
    + right. split; [intros [Hv _]; auto|].
      destruct (Hbad H) as (msg & ->). simpl. eauto.
Qed.

End models_PyQt_more.

(* ===================================================================== *)
(** ** Further properties of the entity model *)
(* ===================================================================== *)

Module models_more.

Import models predicates scenarios invariants models_spec.
Local Open Scope nat_scope.
Local Open Scope list_scope.

(** *** Removal from a list *)

Lemma list_remove_None (x : nat) (l : list nat) :
  x ∉ l -> list_remove x l = None.
Proof.
  induction l as [|y l IH]; intros Hx; [reflexivity|]. simpl.
  apply not_elem_of_cons in Hx. destruct Hx as [Hne Hx].
  rewrite decide_False by exact Hne. rewrite IH by exact Hx. reflexivity.
Qed.

Lemma list_remove_NoDup (x : nat) (l l' : list nat) :
  list_remove x l = Some l' -> NoDup l ->
  NoDup l' /\ forall y, y ∈ l' <-> y ∈ l /\ y <> x.
Proof.
  revert l'. induction l as [|z l IH]; intros l' Hrem Hnd; [discriminate|].
  simpl in Hrem. apply NoDup_cons in Hnd. destruct Hnd as [Hz Hnd].
  destruct (decide (x = z)) as [->|Hne].
  - injection Hrem as <-. split; [exact Hnd|]. intros y.
    rewrite elem_of_cons. split.
    + intros Hy. split; [auto|]. intros ->. contradiction.
    + intros [[->|Hy] Hyz]; [contradiction|exact Hy].
  - destruct (list_remove x l) as [l0|] eqn:E; [|discriminate].
    injection Hrem as <-. destruct (IH l0 eq_refl Hnd) as [Hnd0 Hin0].
    split.
    + apply NoDup_cons. split; [|exact Hnd0].
      intros Hz0. apply Hin0 in Hz0. destruct Hz0 as [Hz0 _]. contradiction.
    + intros y. rewrite !elem_of_cons, Hin0. split.
      * intros [->|[Hy Hyx]]; split; auto.
      * intros [[->|Hy] Hyx]; auto.
Qed.

Lemma NoDup_snoc (x : nat) (l : list nat) : NoDup l -> x ∉ l -> NoDup (l ++ [x]).
Proof.
  intros Hnd Hx. apply NoDup_app. split; [exact Hnd|]. split.
  - intros y Hy Hyx. apply list_elem_of_singleton in Hyx. subst. contradiction.
  - apply NoDup_singleton.
Qed.

Lemma elem_of_snoc_ne (x y : nat) (l : list nat) :
  y <> x -> (y ∈ l ++ [x] <-> y ∈ l).
Proof.
  intros Hne. rewrite elem_of_app, list_elem_of_singleton. split; [|auto].
  intros [H|H]; [exact H|contradiction].
Qed.

(** *** The registrations stay in order *)

(** A heap that differs from one in order at most in the lists of [s] and
    of [c], which still agree with each other, is in order. *)
Lemma relinked_ok (h h' : Heap) (s c : nat) :
  same_shape h h' ->
  s < length (h_students h) -> c < length (h_courses h) ->
  registrations_ok h ->
  (forall s', s' <> s -> student_at h' s' = student_at h s') ->
  (forall c', c' <> c -> course_at h' c' = course_at h c') ->
  NoDup (registered_courses (student_at h' s)) ->
  NoDup (enrolled_students (course_at h' c)) ->
  (forall c', c' <> c -> (c' ∈ registered_courses (student_at h' s) <->
                          c' ∈ registered_courses (student_at h s))) ->
  (forall s', s' <> s -> (s' ∈ enrolled_students (course_at h' c) <->
                          s' ∈ enrolled_students (course_at h c))) ->
  (c ∈ registered_courses (student_at h' s) <->
   s ∈ enrolled_students (course_at h' c)) ->
  registrations_ok h' /\ same_registrations_but s c h h'.
Proof.
  intros (Ls & _ & Lc) Hs Hc (Hsym & Hrc & Hes) Hst Hco Nrc Nes Mrc Mes Hlink.
  split; [split; [|split]|].
  - intros s' c' Hs' Hc'. rewrite Ls in Hs'. rewrite Lc in Hc'.
    specialize (Hsym s' c' Hs' Hc').
    destruct (decide (s' = s)) as [->|Hns];
      destruct (decide (c' = c)) as [->|Hnc].
    + exact Hlink.
    + rewrite (Mrc c' Hnc), (Hco c' Hnc). exact Hsym.
    + rewrite (Hst s' Hns), (Mes s' Hns). exact Hsym.
    + rewrite (Hst s' Hns), (Hco c' Hnc). exact Hsym.
  - intros s' Hs'. rewrite Ls in Hs'.
    destruct (decide (s' = s)) as [->|Hns]; [exact Nrc|].
    rewrite (Hst s' Hns). apply Hrc. exact Hs'.
  - intros c' Hc'. rewrite Lc in Hc'.
    destruct (decide (c' = c)) as [->|Hnc]; [exact Nes|].
    rewrite (Hco c' Hnc). apply Hes. exact Hc'.
  - intros s' c' Hne. split.
    + destruct (decide (s' = s)) as [->|Hns].
      * apply Mrc. intros ->. apply Hne. reflexivity.
      * rewrite (Hst s' Hns). reflexivity.
    + destruct (decide (c' = c)) as [->|Hnc].
      * apply Mes. intros ->. apply Hne. reflexivity.
      * rewrite (Hco c' Hnc). reflexivity.
Qed.

(** The heap after the two lists of [s] and [c] were rewritten. *)
Lemma rewritten_lists (h : Heap) (s c : nat) (fs : Student -> Student)
    (fc : Course -> Course) :
  s < length (h_students h) -> c < length (h_courses h) ->
  let h' := update_course c fc (update_student s fs h) in
  same_shape h h' /\
  student_at h' s = fs (student_at h s) /\
  course_at h' c = fc (course_at h c) /\
  (forall s', s' <> s -> student_at h' s' = student_at h s') /\
  (forall c', c' <> c -> course_at h' c' = course_at h c').
Proof.
  intros Hs Hc h'. split; [|split; [|split; [|split]]].
  - eapply same_shape_trans;
      [apply same_shape_update_student|apply same_shape_update_course].
  - unfold h'.
    change (student_at (update_course c fc ?hh) s) with (student_at hh s).
    apply student_at_update_eq. exact Hs.
  - unfold h'. rewrite course_at_update_eq by exact Hc. reflexivity.
  - intros s' Hne. unfold h'.
    change (student_at (update_course c fc ?hh) s') with (student_at hh s').
    apply student_at_update_ne. auto.
  - intros c' Hne. unfold h'. rewrite course_at_update_ne by auto. reflexivity.
Qed.

(** X5.  From a heap whose registrations are in order, [register_course]
    returns, creates no object, links the student and the course on both
    sides, changes no other registration, and leaves the registrations in
    order. *)
Theorem register_course_links (h : Heap) (s c : nat) :
  s < length (h_students h) -> c < length (h_courses h) ->
  registrations_ok h ->
  exists h',
    Student_register_course s c h = (h', Ret tt) /\
    same_shape h h' /\
    registrations_ok h' /\
    c ∈ registered_courses (student_at h' s) /\
    s ∈ enrolled_students (course_at h' c) /\
    same_registrations_but s c h h'.
Proof.
  intros Hs Hc Hok. pose proof Hok as (Hsym & Hrc & Hes).
  unfold Student_register_course, call_depth.
  destruct (decide (c ∈ registered_courses (student_at h s))) as [Hin|Hin].
  - exists h. split; [apply register_course_registered; exact Hin|].
    split; [apply same_shape_refl|]. split; [exact Hok|].
    split; [exact Hin|]. split; [apply Hsym; assumption|].
    intros s' c' _. split; reflexivity.
  - assert (Hout : s ∉ enrolled_students (course_at h c)).
    { intros H. apply Hin. apply Hsym; assumption. }
    eexists. split; [apply register_course_new; assumption|].
    destruct (rewritten_lists h s c
                (fun x => with_registered_courses (registered_courses x ++ [c]) x)
                (fun x => with_enrolled_students (enrolled_students x ++ [s]) x)
                Hs Hc) as (Hshape & Est & Eco & Fst & Fco).
    cbv zeta in *. split; [exact Hshape|].
    assert (Hrel : registrations_ok
              (update_course c
                 (fun x => with_enrolled_students (enrolled_students x ++ [s]) x)
                 (update_student s
                    (fun x => with_registered_courses
                                (registered_courses x ++ [c]) x) h)) /\
            same_registrations_but s c h
              (update_course c
                 (fun x => with_enrolled_students (enrolled_students x ++ [s]) x)
                 (update_student s
                    (fun x => with_registered_courses
                                (registered_courses x ++ [c]) x) h))).
    { apply relinked_ok; try assumption; rewrite ?Est, ?Eco; simpl.
      - apply NoDup_snoc; auto.
      - apply NoDup_snoc; auto.
      - intros c' Hne. apply elem_of_snoc_ne. exact Hne.
      - intros s' Hne. apply elem_of_snoc_ne. exact Hne.
      - split; intros _; apply elem_of_snoc. }
    destruct Hrel as [Hok' Hbut].
    split; [exact Hok'|]. rewrite Est, Eco. simpl.
    split; [apply elem_of_snoc|]. split; [apply elem_of_snoc|exact Hbut].
Qed.

Lemma register_course_links_witness :
  registrations_ok ann_in_algebra /\
  exists h',
    Student_register_course 0 0 ann_in_algebra = (h', Ret tt) /\
    registrations_ok h' /\
    0 ∈ registered_courses (student_at h' 0).
Proof.
  assert (Hs : 0 < length (h_students ann_in_algebra)) by (vm_compute; lia).
  assert (Hc : 0 < length (h_courses ann_in_algebra)) by (vm_compute; lia).
  assert (Hok : registrations_ok ann_in_algebra).
  { split; [|split].
    - intros s c Hs' Hc'. change (s < 1) in Hs'. change (c < 1) in Hc'.
      assert (s = 0) as -> by lia. assert (c = 0) as -> by lia.
      split; intros _; apply list_elem_of_here.
    - intros s Hs'. change (s < 1) in Hs'. assert (s = 0) as -> by lia.
      apply NoDup_singleton.
    - intros c Hc'. change (c < 1) in Hc'. assert (c = 0) as -> by lia.
      apply NoDup_singleton. }
  split; [exact Hok|].
  destruct (register_course_links ann_in_algebra 0 0 Hs Hc Hok)
    as (h' & Hrun & _ & Hok' & Hin & _).
  exists h'. auto.
Defined.

(** [add_student] for a pair on neither list: the same two appends, made
    in the other order. *)
Lemma add_student_new (n : nat) (h : Heap) (c s : nat) :
  s < length (h_students h) -> c < length (h_courses h) ->
  c ∉ registered_courses (student_at h s) ->
  s ∉ enrolled_students (course_at h c) ->
  Course_add_student_rec (S (S (S n))) c s h =
  (update_course c
     (fun x => with_enrolled_students (enrolled_students x ++ [s]) x)
     (update_student s
        (fun x => with_registered_courses (registered_courses x ++ [c]) x) h),
   Ret tt).
Proof.
  intros Hs Hc Hrc Hes. run.
  rewrite decide_False by exact Hes. cbn beta iota.
  set (h1 := update_course c _ h).
  assert (E1 : student_at h1 s = student_at h s) by reflexivity.
  rewrite (decide_False (P := c ∈ registered_courses (student_at h1 s)))
    by (rewrite E1; exact Hrc).
  cbn beta iota.
  rewrite (decide_False (P := c ∈ registered_courses (student_at h1 s)))
    by (rewrite E1; exact Hrc).
  cbn beta iota.
  set (h2 := update_student s _ h1).
  assert (E2 : s ∈ enrolled_students (course_at h2 c)).
  { change (course_at h2 c) with (course_at h1 c). unfold h1.
    rewrite course_at_update_eq by exact Hc. simpl. apply elem_of_snoc. }
  rewrite (decide_True (P := s ∈ enrolled_students (course_at h2 c)))
    by exact E2.
  reflexivity.
Qed.

(** X6.  When the two lists agree on the pair, [course.add_student(s)] and
    [s.register_course(course)] are the same operation: same result, same
    heap. *)
Theorem add_student_is_register_course (h : Heap) (s c : nat) :
  s < length (h_students h) -> c < length (h_courses h) ->
  (c ∈ registered_courses (student_at h s) <->
   s ∈ enrolled_students (course_at h c)) ->
  Course_add_student c s h = Student_register_course s c h.
Proof.
  intros Hs Hc Hagree.
  unfold Course_add_student, Student_register_course, call_depth.
  destruct (decide (c ∈ registered_courses (student_at h s))) as [Hin|Hin].
  - rewrite register_course_registered by exact Hin.
    run. rewrite decide_True by (apply Hagree; exact Hin). reflexivity.
  - assert (Hout : s ∉ enrolled_students (course_at h c))
      by (intros H; apply Hin, Hagree, H).
    rewrite add_student_new, register_course_new by assumption. reflexivity.
Qed.

Lemma add_student_is_register_course_witness :
  Course_add_student 0 0
    (Course_init "C1" "Algebra" None
       (Student_init "Ann" (PInt 20) "a@b.com" "S1" empty_heap).1).1 =
  (ann_in_algebra, Ret tt).
Proof.
  set (h := (Course_init "C1" "Algebra" None
               (Student_init "Ann" (PInt 20) "a@b.com" "S1" empty_heap).1).1).
  assert (Hs : 0 < length (h_students h)) by (vm_compute; lia).
  assert (Hc : 0 < length (h_courses h)) by (vm_compute; lia).
  assert (Hag : 0 ∈ registered_courses (student_at h 0) <->
                0 ∈ enrolled_students (course_at h 0)).
  { split; intros H; vm_compute in H; inversion H. }
  rewrite (add_student_is_register_course h 0 0 Hs Hc Hag).
  vm_compute. reflexivity.
Defined.

(** X7.  From a heap whose registrations are in order, [unregister_course]
    returns, unlinks the student and the course on both sides, changes no
    other registration, and leaves the registrations in order. *)
Theorem unregister_course_unlinks (h : Heap) (s c : nat) :
  s < length (h_students h) -> c < length (h_courses h) ->
  registrations_ok h ->
  exists h',
    Student_unregister_course s c h = (h', Ret tt) /\
    same_shape h h' /\
    registrations_ok h' /\
    (c ∉ registered_courses (student_at h' s)) /\
    (s ∉ enrolled_students (course_at h' c)) /\
    same_registrations_but s c h h'.
Proof.
  intros Hs Hc Hok. pose proof Hok as (Hsym & Hrc & Hes).
  destruct (decide (c ∈ registered_courses (student_at h s))) as [Hin|Hin].
  - assert (Hin' : s ∈ enrolled_students (course_at h c))
      by (apply Hsym; assumption).
    destruct (list_remove_elem_of _ _ Hin) as [rc Erc].
    destruct (list_remove_elem_of _ _ Hin') as [es Ees].
    destruct (list_remove_NoDup _ _ _ Erc (Hrc s Hs)) as [Nrc Mrc].
    destruct (list_remove_NoDup _ _ _ Ees (Hes c Hc)) as [Nes Mes].
    eexists. split; [apply (unregister_course_registered h s c rc es);
                     assumption|].
    destruct (rewritten_lists h s c (with_registered_courses rc)
                (with_enrolled_students es) Hs Hc)
      as (Hshape & Est & Eco & Fst & Fco).
    cbv zeta in *. split; [exact Hshape|].
    assert (Hrel : registrations_ok
              (update_course c (with_enrolled_students es)
                 (update_student s (with_registered_courses rc) h)) /\
            same_registrations_but s c h
              (update_course c (with_enrolled_students es)
                 (update_student s (with_registered_courses rc) h))).
    { apply relinked_ok; try assumption; rewrite ?Est, ?Eco; simpl;
        try assumption.
      - intros c' Hne. rewrite Mrc. split; [intros [H _]; exact H|auto].
      - intros s' Hne. rewrite Mes. split; [intros [H _]; exact H|auto].
      - rewrite Mrc, Mes. split; intros [_ H]; contradiction. }
    destruct Hrel as [Hok' Hbut].
    split; [exact Hok'|]. rewrite Est, Eco. simpl. rewrite Mrc, Mes.
    split; [intros [_ H]; auto|]. split; [intros [_ H]; auto|exact Hbut].
  - exists h. split; [apply unregister_course_absent; exact Hin|].
    split; [apply same_shape_refl|]. split; [exact Hok|].
    split; [exact Hin|]. split.
    + intros H. apply Hin. apply Hsym; assumption.
    + intros s' c' _. split; reflexivity.
Qed.

Lemma unregister_course_unlinks_witness :
  registrations_ok ann_in_algebra /\
  exists h',
    Student_unregister_course 0 0 ann_in_algebra = (h', Ret tt) /\
    registrations_ok h' /\
    0 ∉ registered_courses (student_at h' 0).
Proof.
  assert (Hs : 0 < length (h_students ann_in_algebra)) by (vm_compute; lia).
  assert (Hc : 0 < length (h_courses ann_in_algebra)) by (vm_compute; lia).
  assert (Hok : registrations_ok ann_in_algebra).
  { split; [|split].
    - intros s c Hs' Hc'. change (s < 1) in Hs'. change (c < 1) in Hc'.
      assert (s = 0) as -> by lia. assert (c = 0) as -> by lia.
      split; intros _; apply list_elem_of_here.
    - intros s Hs'. change (s < 1) in Hs'. assert (s = 0) as -> by lia.
      apply NoDup_singleton.
    - intros c Hc'. change (c < 1) in Hc'. assert (c = 0) as -> by lia.
      apply NoDup_singleton. }
  split; [exact Hok|].
  destruct (unregister_course_unlinks ann_in_algebra 0 0 Hs Hc Hok)
    as (h' & Hrun & _ & Hok' & Hin & _).
  exists h'. auto.
Defined.

(** *** The assignments stay in order *)

Lemma rewritten_assignment (h : Heap) (i c : nat)
    (fi : Instructor -> Instructor) (fc : Course -> Course) :
  i < length (h_instructors h) -> c < length (h_courses h) ->
  let h' := update_course c fc (update_instructor i fi h) in
  same_shape h h' /\
  instructor_at h' i = fi (instructor_at h i) /\
  course_at h' c = fc (course_at h c) /\
  (forall i', i' <> i -> instructor_at h' i' = instructor_at h i') /\
  (forall c', c' <> c -> course_at h' c' = course_at h c').
Proof.
  intros Hi Hc h'. split; [|split; [|split; [|split]]].
  - eapply same_shape_trans;
      [apply same_shape_update_instructor|apply same_shape_update_course].
  - unfold h'.
    change (instructor_at (update_course c fc ?hh) i) with (instructor_at hh i).
    apply instructor_at_update_eq. exact Hi.
  - unfold h'. rewrite course_at_update_eq by exact Hc. reflexivity.
  - intros i' Hne. unfold h'.
    change (instructor_at (update_course c fc ?hh) i')
      with (instructor_at hh i').
    apply instructor_at_update_ne. auto.
  - intros c' Hne. unfold h'. rewrite course_at_update_ne by auto. reflexivity.
Qed.

(** A heap that differs from one in order at most in the list of [i] and
    in the instructor of [c], which agree with each other and with the
    lists of the other instructors, is in order. *)
Lemma reassigned_ok (h h' : Heap) (i c : nat) :
  same_shape h h' ->
  assignments_ok h ->
  (forall i', i' <> i -> instructor_at h' i' = instructor_at h i') ->
  (forall c', c' <> c -> course_at h' c' = course_at h c') ->
  NoDup (assigned_courses (instructor_at h' i)) ->
  (forall c', c' <> c -> (c' ∈ assigned_courses (instructor_at h' i) <->
                          c' ∈ assigned_courses (instructor_at h i))) ->
  (c ∈ assigned_courses (instructor_at h' i) <->
   instructor (course_at h' c) = Some i) ->
  (forall i', i' <> i -> i' < length (h_instructors h) ->
     (c ∈ assigned_courses (instructor_at h i') <->
      instructor (course_at h' c) = Some i')) ->
  assignments_ok h'.
Proof.
  intros (_ & Li & Lc) (Hsym & Hnd) Hin Hco Nas Mas Hlink Hothers. split.
  - intros i' c' Hi' Hc'. rewrite Li in Hi'. rewrite Lc in Hc'.
    specialize (Hsym i' c' Hi' Hc').
    destruct (decide (i' = i)) as [->|Hni];
      destruct (decide (c' = c)) as [->|Hnc].
    + exact Hlink.
    + rewrite (Mas c' Hnc), (Hco c' Hnc). exact Hsym.
    + rewrite (Hin i' Hni). apply Hothers; assumption.
    + rewrite (Hin i' Hni), (Hco c' Hnc). exact Hsym.
  - intros i' Hi'. rewrite Li in Hi'.
    destruct (decide (i' = i)) as [->|Hni]; [exact Nas|].
    rewrite (Hin i' Hni). apply Hnd. exact Hi'.
Qed.

(** Assigning a course that is not on the instructor's list appends it and
    points the course at the instructor; two nested calls are made. *)
Lemma assign_course_new (n : nat) (h : Heap) (i c : nat) :
  i < length (h_instructors h) ->
  c ∉ assigned_courses (instructor_at h i) ->
  Instructor_assign_course_rec (S (S n)) i c h =
  (update_course c (with_instructor (Some i))
     (update_instructor i
        (fun x => with_assigned_courses (assigned_courses x ++ [c]) x) h),
   Ret tt).
Proof.
  intros Hi Hout. run.
  rewrite decide_False by exact Hout. cbn beta iota.
  set (h1 := update_instructor i _ h).
  set (h2 := update_course c (with_instructor (Some i)) h1).
  assert (E : c ∈ assigned_courses (instructor_at h2 i)).
  { change (instructor_at h2 i) with (instructor_at h1 i). unfold h1.
    rewrite instructor_at_update_eq by exact Hi. simpl. apply elem_of_snoc. }
  rewrite (decide_True (P := c ∈ assigned_courses (instructor_at h2 i)))
    by exact E.
  reflexivity.
Qed.

Lemma assign_course_assigned (n : nat) (h : Heap) (i c : nat) :
  c ∈ assigned_courses (instructor_at h i) ->
  Instructor_assign_course_rec (S n) i c h = (h, Ret tt).
Proof. intros Hin. run. rewrite decide_True by exact Hin. reflexivity. Qed.

Lemma unassign_course_assigned (h : Heap) (i c : nat) (l : list nat) :
  c ∈ assigned_courses (instructor_at h i) ->
  list_remove c (assigned_courses (instructor_at h i)) = Some l ->
  Instructor_unassign_course i c h =
  (update_course c (with_instructor None)
     (update_instructor i (with_assigned_courses l) h), Ret tt).
Proof.
  intros Hin Hl. unfold Instructor_unassign_course. run.
  rewrite decide_True by exact Hin. rewrite Hl. reflexivity.
Qed.

Lemma unassign_course_absent (h : Heap) (i c : nat) :
  c ∉ assigned_courses (instructor_at h i) ->
  Instructor_unassign_course i c h = (h, Ret tt).
Proof.
  intros Hout. unfold Instructor_unassign_course. run.
  rewrite decide_False by exact Hout. reflexivity.
Qed.

(** X8.  From a heap whose assignments are in order, [assign_course] on a
    course that has no instructor, or this one already, returns, creates no
    object, makes the course point at the instructor and be on the
    instructor's list, leaves the other instructors and courses alone, and
    keeps the assignments in order. *)
Theorem assign_course_links (h : Heap) (i c : nat) :
  i < length (h_instructors h) -> c < length (h_courses h) ->
  assignments_ok h ->
  instructor (course_at h c) = None \/ instructor (course_at h c) = Some i ->
  exists h',
    Instructor_assign_course i c h = (h', Ret tt) /\
    same_shape h h' /\
    assignments_ok h' /\
    c ∈ assigned_courses (instructor_at h' i) /\
    instructor (course_at h' c) = Some i /\
    (forall i', i' <> i -> instructor_at h' i' = instructor_at h i') /\
    (forall c', c' <> c -> course_at h' c' = course_at h c').
Proof.
  intros Hi Hc Hok Hfree. pose proof Hok as (Hsym & Hnd).
  unfold Instructor_assign_course, call_depth.
  destruct (decide (c ∈ assigned_courses (instructor_at h i))) as [Hin|Hout].
  - exists h. split; [apply assign_course_assigned; exact Hin|].
    split; [apply same_shape_refl|]. split; [exact Hok|].
    split; [exact Hin|]. split; [apply Hsym; assumption|]. auto.
  - assert (Hnone : instructor (course_at h c) = None).
    { destruct Hfree as [H|H]; [exact H|]. exfalso. apply Hout.
      apply Hsym; assumption. }
    eexists. split; [apply assign_course_new; assumption|].
    destruct (rewritten_assignment h i c
                (fun x => with_assigned_courses (assigned_courses x ++ [c]) x)
                (with_instructor (Some i)) Hi Hc)
      as (Hshape & Ein & Eco & Fin & Fco).
    cbv zeta in *. split; [exact Hshape|].
    split; [|rewrite Ein, Eco; simpl;
             split; [apply elem_of_snoc|split; [reflexivity|auto]]].
    apply (reassigned_ok h _ i c); try assumption; rewrite ?Ein, ?Eco; simpl.
    + apply NoDup_snoc; auto.
    + intros c' Hne. apply elem_of_snoc_ne. exact Hne.
    + split; intros _; [reflexivity|apply elem_of_snoc].
    + intros i' Hne Hi'. split.
      * intros H. apply Hsym in H; [|assumption|assumption]. congruence.
      * intros [= <-]. contradiction.
Qed.

Lemma assign_course_links_witness :
  assignments_ok
    (Course_init "C1" "Algebra" None
       (Instructor_init "Ira" (PInt 40) "ira@b.com" "I1" empty_heap).1).1 /\
  exists h',
    Instructor_assign_course 0 0
      (Course_init "C1" "Algebra" None
         (Instructor_init "Ira" (PInt 40) "ira@b.com" "I1" empty_heap).1).1 =
      (h', Ret tt) /\
    assignments_ok h' /\ instructor (course_at h' 0) = Some 0.
Proof.
  set (h := (Course_init "C1" "Algebra" None
               (Instructor_init "Ira" (PInt 40) "ira@b.com" "I1"
                  empty_heap).1).1).
  assert (Hi : 0 < length (h_instructors h)) by (vm_compute; lia).
  assert (Hc : 0 < length (h_courses h)) by (vm_compute; lia).
  assert (Hok : assignments_ok h).
  { split.
    - intros i c Hi' Hc'. change (i < 1) in Hi'. change (c < 1) in Hc'.
      assert (i = 0) as -> by lia. assert (c = 0) as -> by lia.
      split; intros H; [inversion H|discriminate H].
    - intros i Hi'. change (i < 1) in Hi'. assert (i = 0) as -> by lia.
      apply NoDup_nil_2. }
  assert (Hfree : instructor (course_at h 0) = None \/
                  instructor (course_at h 0) = Some 0) by (left; reflexivity).
  split; [exact Hok|].
  destruct (assign_course_links h 0 0 Hi Hc Hok Hfree)
    as (h' & Hrun & _ & Hok' & _ & Hinstr & _).
  exists h'. auto.
Defined.

(** X9.  From a heap whose assignments are in order, [unassign_course]
    returns, creates no object, takes the course off the instructor's list,
    leaves the other instructors and courses alone, and keeps the
    assignments in order; a course that was on the list has no instructor
    afterwards. *)
Theorem unassign_course_unlinks (h : Heap) (i c : nat) :
  i < length (h_instructors h) -> c < length (h_courses h) ->
  assignments_ok h ->
  exists h',
    Instructor_unassign_course i c h = (h', Ret tt) /\
    same_shape h h' /\
    assignments_ok h' /\
    (c ∉ assigned_courses (instructor_at h' i)) /\
    instructor (course_at h' c) <> Some i /\
    (instructor (course_at h c) = Some i ->
     instructor (course_at h' c) = None) /\
    (forall i', i' <> i -> instructor_at h' i' = instructor_at h i') /\
    (forall c', c' <> c -> course_at h' c' = course_at h c').
Proof.
  intros Hi Hc Hok. pose proof Hok as (Hsym & Hnd).
  destruct (decide (c ∈ assigned_courses (instructor_at h i))) as [Hin|Hout].
  - destruct (list_remove_elem_of _ _ Hin) as [l El].
    destruct (list_remove_NoDup _ _ _ El (Hnd i Hi)) as [Nl Ml].
    eexists. split; [apply (unassign_course_assigned h i c l); assumption|].
    destruct (rewritten_assignment h i c (with_assigned_courses l)
                (with_instructor None) Hi Hc)
      as (Hshape & Ein & Eco & Fin & Fco).
    cbv zeta in *. split; [exact Hshape|].
    split; [|rewrite Ein, Eco; simpl; rewrite Ml;
             split; [intros [_ H]; auto|
             split; [discriminate|split; [reflexivity|auto]]]].
    apply (reassigned_ok h _ i c); try assumption; rewrite ?Ein, ?Eco; simpl.
    + exact Nl.
    + intros c' Hne. rewrite Ml. split; [intros [H _]; exact H|auto].
    + rewrite Ml. split; [intros [_ H]; contradiction|discriminate].
    + intros i' Hne Hi'. split; [|discriminate].
      intros H. apply Hsym in H; [|assumption|assumption].
      apply Hsym in Hin; [|assumption|assumption]. congruence.
  - exists h. split; [apply unassign_course_absent; exact Hout|].
    split; [apply same_shape_refl|]. split; [exact Hok|].
    split; [exact Hout|]. split.
    + intros H. apply Hout. apply Hsym; assumption.
    + split; [|auto]. intros H. exfalso. apply Hout. apply Hsym; assumption.
Qed.

Lemma first_instructor_ok : assignments_ok algebra_with_first_instructor.
Proof.
  split.
  - intros i c Hi Hc. change (c < 1) in Hc. change (i < 2) in Hi.
    destruct c as [|c]; [|lia]. destruct i as [|[|i]]; [| |lia].
    + split; intros _; [reflexivity|]. apply list_elem_of_here.
    + split; intros H; [inversion H|discriminate H].
  - intros i Hi. change (i < 2) in Hi. destruct i as [|[|i]]; [| |lia].
    + apply NoDup_singleton.
    + apply NoDup_nil_2.
Qed.

Lemma unassign_course_unlinks_witness :
  assignments_ok algebra_with_first_instructor /\
  exists h',
    Instructor_unassign_course 0 0 algebra_with_first_instructor =
      (h', Ret tt) /\
    assignments_ok h' /\ instructor (course_at h' 0) = None.
Proof.
  assert (Hi : 0 < length (h_instructors algebra_with_first_instructor))
    by (vm_compute; lia).
  assert (Hc : 0 < length (h_courses algebra_with_first_instructor))
    by (vm_compute; lia).
  split; [exact first_instructor_ok|].
  destruct (unassign_course_unlinks algebra_with_first_instructor 0 0 Hi Hc
              first_instructor_ok)
    as (h' & Hrun & _ & Hok' & _ & _ & Hnone & _).
  exists h'. split; [exact Hrun|]. split; [exact Hok'|].
  apply Hnone. reflexivity.
Defined.

(** Undoing an assignment gives the heap back. *)
Lemma undo_assignment (h : Heap) (i c : nat) :
  instructor (course_at h c) = None ->
  update_course c (with_instructor None)
    (update_instructor i
       (with_assigned_courses (assigned_courses (instructor_at h i)))
       (update_course c (with_instructor (Some i))
          (update_instructor i
             (fun x => with_assigned_courses (assigned_courses x ++ [c]) x)
             h))) = h.
Proof.
  intros Hnone. destruct h as [ss ins cs].
  unfold update_course, update_instructor. simpl.
  rewrite !list_alter_alter_eq. f_equal.
  - apply alter_fixed. intros x Hx. unfold instructor_at. simpl.
    rewrite (list_lookup_total_correct _ _ _ Hx). destruct x; reflexivity.
  - apply alter_fixed. intros x Hx. unfold course_at in Hnone. simpl in Hnone.
    rewrite (list_lookup_total_correct _ _ _ Hx) in Hnone.
    destruct x; simpl in *. subst. reflexivity.
Qed.

(** X10.  For a course without instructor that is not on the instructor's
    list, [assign_course] appends the course and points it at the
    instructor, and [unassign_course] after it restores the heap. *)
Theorem assign_unassign_round_trip (h : Heap) (i c : nat) :
  i < length (h_instructors h) -> c < length (h_courses h) ->
  instructor (course_at h c) = None ->
  c ∉ assigned_courses (instructor_at h i) ->
  exists h1,
    Instructor_assign_course i c h = (h1, Ret tt) /\
    assigned_courses (instructor_at h1 i) =
      assigned_courses (instructor_at h i) ++ [c] /\
    instructor (course_at h1 c) = Some i /\
    Instructor_unassign_course i c h1 = (h, Ret tt).
Proof.
  intros Hi Hc Hnone Hout. unfold Instructor_assign_course, call_depth.
  eexists. split; [apply assign_course_new; assumption|].
  destruct (rewritten_assignment h i c
              (fun x => with_assigned_courses (assigned_courses x ++ [c]) x)
              (with_instructor (Some i)) Hi Hc)
    as (_ & Ein & Eco & _ & _).
  cbv zeta in *. rewrite Ein, Eco. simpl.
  split; [reflexivity|]. split; [reflexivity|].
  rewrite (unassign_course_assigned _ i c (assigned_courses (instructor_at h i))).
  - f_equal. apply undo_assignment. exact Hnone.
  - rewrite Ein. simpl. apply elem_of_snoc.
  - rewrite Ein. simpl. apply list_remove_app_new. exact Hout.
Qed.

Lemma assign_unassign_round_trip_witness :
  exists h1,
    Instructor_assign_course 0 0
      (Course_init "C1" "Algebra" None
         (Instructor_init "Ira" (PInt 40) "ira@b.com" "I1" empty_heap).1).1 =
      (h1, Ret tt) /\
    Instructor_unassign_course 0 0 h1 =
      ((Course_init "C1" "Algebra" None
          (Instructor_init "Ira" (PInt 40) "ira@b.com" "I1" empty_heap).1).1,
       Ret tt).
Proof.
  set (h := (Course_init "C1" "Algebra" None
               (Instructor_init "Ira" (PInt 40) "ira@b.com" "I1"
                  empty_heap).1).1).
  assert (Hi : 0 < length (h_instructors h)) by (vm_compute; lia).
  assert (Hc : 0 < length (h_courses h)) by (vm_compute; lia).
  assert (Hnone : instructor (course_at h 0) = None) by reflexivity.
  assert (Hout : 0 ∉ assigned_courses (instructor_at h 0))
    by (vm_compute; apply not_elem_of_nil).
  destruct (assign_unassign_round_trip h 0 0 Hi Hc Hnone Hout)
    as (h1 & Hrun & _ & _ & Hback).
  exists h1. auto.
Defined.

(** X11.  When the instructor's list holds the course only if the course
    points at the instructor, [course.set_instructor(i)] and
    [i.assign_course(course)] are the same operation: same result, same
    heap. *)
Theorem set_instructor_is_assign_course (h : Heap) (i c : nat) :
  i < length (h_instructors h) ->
  (c ∈ assigned_courses (instructor_at h i) ->
   instructor (course_at h c) = Some i) ->
  Course_set_instructor c (Some i) h = Instructor_assign_course i c h.
Proof.
  intros Hi Hagree.
  unfold Course_set_instructor, Instructor_assign_course, call_depth.
  destruct (decide (c ∈ assigned_courses (instructor_at h i))) as [Hin|Hout].
  - rewrite assign_course_assigned by exact Hin.
    assert (Hfix : update_course c (with_instructor (Some i)) h = h).
    { apply update_course_fixed. specialize (Hagree Hin).
      destruct (course_at h c); simpl in *. subst. reflexivity. }
    run. rewrite Hfix. rewrite decide_True by exact Hin. reflexivity.
  - rewrite assign_course_new by assumption. run.
    set (h1 := update_course c (with_instructor (Some i)) h).
    assert (Hout1 : c ∉ assigned_courses (instructor_at h1 i)) by exact Hout.
    rewrite (decide_False (P := c ∈ assigned_courses (instructor_at h1 i)))
      by exact Hout1.
    cbn beta iota.
    rewrite (decide_False (P := c ∈ assigned_courses (instructor_at h1 i)))
      by exact Hout1.
    cbn beta iota.
    set (h2 := update_instructor i _ h1).
    set (h3 := update_course c (with_instructor (Some i)) h2).
    assert (Hin3 : c ∈ assigned_courses (instructor_at h3 i)).
    { change (instructor_at h3 i) with (instructor_at h2 i). unfold h2.
      rewrite instructor_at_update_eq by exact Hi. simpl. apply elem_of_snoc. }
    rewrite (decide_True (P := c ∈ assigned_courses (instructor_at h3 i)))
      by exact Hin3.
    f_equal. unfold h3, h2, h1. destruct h as [ss ins cs].
    unfold update_course, update_instructor. simpl. f_equal.
    rewrite list_alter_alter_eq. apply list_alter_ext; [|reflexivity].
    intros x _. reflexivity.
Qed.

Lemma set_instructor_is_assign_course_witness :
  Course_set_instructor 0 (Some 0)
    (Course_init "C1" "Algebra" None
       (Instructor_init "Ira" (PInt 40) "ira@b.com" "I1" empty_heap).1).1 =
  Instructor_assign_course 0 0
    (Course_init "C1" "Algebra" None
       (Instructor_init "Ira" (PInt 40) "ira@b.com" "I1" empty_heap).1).1.
Proof.
  set (h := (Course_init "C1" "Algebra" None
               (Instructor_init "Ira" (PInt 40) "ira@b.com" "I1"
                  empty_heap).1).1).
  assert (Hi : 0 < length (h_instructors h)) by (vm_compute; lia).
  assert (Hag : 0 ∈ assigned_courses (instructor_at h 0) ->
                instructor (course_at h 0) = Some 0).
  { intros H. vm_compute in H. inversion H. }
  exact (set_instructor_is_assign_course h 0 0 Hi Hag).
Defined.

(** *** Courses as dictionaries *)

(** X20.  [Course.from_dict(c.to_dict())] returns a new course with the
    identifier and the name of [c], no instructor and no enrolled student;
    no existing object changes.  The dictionary of the copy is the
    dictionary of [c] exactly when [c] has no instructor and no enrolled
    student. *)
Theorem Course_dict_round_trip (h : Heap) (c : nat) :
  exists c' h',
    Course_from_dict (Course_to_dict h c) h = (h', Ret c') /\
    c' = length (h_courses h) /\
    h_students h' = h_students h /\
    h_instructors h' = h_instructors h /\
    (forall c0, c0 < length (h_courses h) -> course_at h' c0 = course_at h c0) /\
    course_id (course_at h' c') = course_id (course_at h c) /\
    course_name (course_at h' c') = course_name (course_at h c) /\
    instructor (course_at h' c') = None /\
    enrolled_students (course_at h' c') = [] /\
    (Course_to_dict h' c' = Course_to_dict h c <->
     instructor (course_at h c) = None /\
     enrolled_students (course_at h c) = []).
Proof.
  eexists. eexists. split; [reflexivity|]. split; [reflexivity|].
  split; [reflexivity|]. split; [reflexivity|].
  set (x := {| course_id := cd_course_id (Course_to_dict h c);
               course_name := cd_course_name (Course_to_dict h c);
               instructor := None; enrolled_students := [] |}).
  set (h' := {| h_students := h_students h; h_instructors := h_instructors h;
                h_courses := h_courses h ++ [x] |}).
  assert (Ex : course_at h' (length (h_courses h)) = x) by apply course_at_new.
  split.
  { intros c0 Hc0. unfold course_at, h'. simpl.
    rewrite !list_lookup_total_alt, lookup_app_l by exact Hc0. reflexivity. }
  rewrite Ex. split; [reflexivity|]. split; [reflexivity|].
  split; [reflexivity|]. split; [reflexivity|].
  unfold Course_to_dict. rewrite Ex. simpl. split.
  - intros E. injection E as Ei Ee. split.
    + destruct (instructor (course_at h c)); [discriminate Ei|reflexivity].
    + destruct (enrolled_students (course_at h c)); [reflexivity|discriminate Ee].
  - intros [-> ->]. reflexivity.
Qed.

End models_more.

(* ===================================================================== *)
(** ** Further properties of the persistence adapter *)
(* ===================================================================== *)

Module data_manager_more.

Import models sqlite3 data_manager predicates scenarios invariants.
Import models_spec data_manager_spec.
Local Open Scope nat_scope.
Local Open Scope list_scope.

(** *** Dictionaries *)

Lemma dict_keys_set {V} (k : string) (v : V) (d : dict V) :
  forall k', k' ∈ dict_keys (dict_set k v d) <-> k' = k \/ k' ∈ dict_keys d.
Proof.
  unfold dict_keys. induction d as [|[k0 v0] d IH]; intros k'; simpl.
  - rewrite list_elem_of_singleton. split; [auto|]. intros [H|H]; [auto|].
    inversion H.
  - destruct (decide (k = k0)) as [->|Hne]; simpl; rewrite !elem_of_cons.
    + tauto.
    + rewrite IH. tauto.
Qed.

Lemma dict_set_NoDup {V} (k : string) (v : V) (d : dict V) :
  NoDup (dict_keys d) -> NoDup (dict_keys (dict_set k v d)).
Proof.
  unfold dict_keys. induction d as [|[k0 v0] d IH]; simpl; intros Hnd.
  - apply NoDup_singleton.
  - apply NoDup_cons in Hnd. destruct Hnd as [Hk0 Hnd].
    destruct (decide (k = k0)) as [->|Hne]; simpl.
    + apply NoDup_cons. auto.
    + apply NoDup_cons. split; [|auto].
      intros H. apply (dict_keys_set k v d) in H. destruct H as [H|H]; auto.
Qed.

Lemma dict_set_absent {V} (k : string) (v : V) (d : dict V) :
  k ∉ dict_keys d -> dict_set k v d = d ++ [(k, v)].
Proof.
  unfold dict_keys. induction d as [|[k0 v0] d IH]; simpl; intros Hk;
    [reflexivity|].
  apply not_elem_of_cons in Hk. destruct Hk as [Hne Hk].
  rewrite decide_False by exact Hne. rewrite IH by exact Hk. reflexivity.
Qed.

Lemma dict_pop_absent {V} (k : string) (d : dict V) :
  k ∉ dict_keys d -> dict_pop k d = d.
Proof.
  unfold dict_keys. induction d as [|[k0 v0] d IH]; simpl; intros Hk;
    [reflexivity|].
  apply not_elem_of_cons in Hk. destruct Hk as [Hne Hk].
  rewrite decide_False by exact Hne. rewrite IH by exact Hk. reflexivity.
Qed.

Lemma dict_pop_set_absent {V} (k : string) (v : V) (d : dict V) :
  k ∉ dict_keys d -> dict_pop k (dict_set k v d) = d.
Proof.
  unfold dict_keys. induction d as [|[k0 v0] d IH]; simpl; intros Hk.
  - rewrite decide_True by reflexivity. reflexivity.
  - apply not_elem_of_cons in Hk. destruct Hk as [Hne Hk].
    rewrite decide_False by exact Hne. simpl.
    rewrite decide_False by exact Hne. rewrite IH by exact Hk. reflexivity.
Qed.

Lemma dict_keys_pop {V} (k : string) (d : dict V) :
  NoDup (dict_keys d) ->
  NoDup (dict_keys (dict_pop k d)) /\
  forall k', k' ∈ dict_keys (dict_pop k d) <-> k' ∈ dict_keys d /\ k' <> k.
Proof.
  unfold dict_keys. induction d as [|[k0 v0] d IH]; simpl; intros Hnd.
  - split; [apply NoDup_nil_2|]. intros k'. split; [intros H; inversion H|].
    intros [H _]. inversion H.
  - apply NoDup_cons in Hnd. destruct Hnd as [Hk0 Hnd].
    destruct (IH Hnd) as [Hnd' Hin'].
    destruct (decide (k = k0)) as [->|Hne]; simpl.
    + split; [exact Hnd|]. intros k'. rewrite elem_of_cons. split.
      * intros H. split; [auto|]. intros ->. contradiction.
      * intros [[->|H] Hk']; [contradiction|exact H].
    + split.
      * apply NoDup_cons. split; [|exact Hnd'].
        intros H. apply Hin' in H. destruct H as [H _]. contradiction.
      * intros k'. rewrite !elem_of_cons, Hin'. split.
        -- intros [->|[H Hk']]; split; auto.
        -- intros [[->|H] Hk']; auto.
Qed.

Lemma dict_get_None {V} (k : string) (d : dict V) :
  dict_get k d = None <-> k ∉ dict_keys d.
Proof.
  unfold dict_keys. induction d as [|[k0 v0] d IH]; simpl.
  - split; [intros _ H; inversion H|reflexivity].
  - rewrite not_elem_of_cons. destruct (decide (k = k0)) as [->|Hne].
    + split; [discriminate|]. intros [H _]. contradiction.
    + rewrite IH. tauto.
Qed.

Lemma dict_get_pop_ne {V} (k k' : string) (d : dict V) :
  k' <> k -> dict_get k' (dict_pop k d) = dict_get k' d.
Proof.
  intros Hne. induction d as [|[k0 v0] d IH]; simpl; [reflexivity|].
  destruct (decide (k = k0)) as [->|Hk]; simpl.
  - rewrite decide_False by exact Hne. reflexivity.
  - rewrite IH. reflexivity.
Qed.

(** *** What each call does *)

Lemma insert_person_Ret (table key id nm : string) (ag : pyval) (em : string)
    (t t' : list PersonRow) :
  insert_person table key id nm ag em t = Ret t' ->
  exists a, bind_param ag = Ret a /\ is_null a = false /\
            (id ∉ map pr_id t) /\
            t' = t ++ [{| pr_id := id; pr_name := nm;
                          pr_age := integer_affinity a; pr_email := em |}].
Proof.
  unfold insert_person. destruct (bind_param ag) as [a|ex|]; simpl;
    try discriminate.
  destruct (is_null a) eqn:Hn; [discriminate|].
  unfold has_person. destruct (bool_decide (id ∈ map pr_id t)) eqn:Hk;
    [discriminate|].
  intros [= <-]. apply bool_decide_eq_false in Hk.
  exists a. split; [reflexivity|]. split; [exact Hn|].
  split; [exact Hk|reflexivity].
Qed.

(** A successful [INSERT] appends the row of the entity, whose key was
    free and whose foreign key is met. *)
Lemma insert_of_Ret (w : World) (e : entity) (db' : Database) :
  insert_of w e = Ret db' ->
  db' = with_row w e /\
  (key_of w e ∉ table_keys (conn (self w)) e) /\
  reference_stored w e.
Proof.
  destruct e as [s|i|c]; simpl; intros H.
  - unfold insert_student in H.
    destruct (insert_person _ _ _ _ _ _ _) as [t'| |] eqn:E; try discriminate.
    apply insert_person_Ret in E. destruct E as (a & Ha & _ & Hk & ->).
    injection H as <-. rewrite Ha. auto.
  - unfold insert_instructor in H.
    destruct (insert_person _ _ _ _ _ _ _) as [t'| |] eqn:E; try discriminate.
    apply insert_person_Ret in E. destruct E as (a & Ha & _ & Hk & ->).
    injection H as <-. rewrite Ha. auto.
  - unfold insert_course, has_course, has_person in H.
    destruct (bool_decide (_ ∈ map cr_course_id _)) eqn:Hk; [discriminate|].
    apply bool_decide_eq_false in Hk.
    destruct (instructor (course_at (heap w) c)) as [i|].
    + destruct (bool_decide (_ ∈ map pr_id _)) eqn:Hf; simpl in H;
        [|discriminate].
      apply bool_decide_eq_true in Hf. injection H as <-. auto.
    + injection H as <-. auto.
Qed.

(** [insert_of] succeeds when the key is free, the age can be stored and
    the foreign key is met. *)
Lemma insert_of_succeeds (w : World) (e : entity) :
  key_taken w e = false -> age_storable w e -> reference_stored w e ->
  insert_of w e = Ret (with_row w e).
Proof.
  destruct e as [s|i|c]; simpl; intros Hkey Hage Href.
  - destruct Hage as (a & Ha & Hnull).
    unfold insert_student, insert_person. rewrite Ha. simpl.
    rewrite Hnull, Hkey. reflexivity.
  - destruct Hage as (a & Ha & Hnull).
    unfold insert_instructor, insert_person. rewrite Ha. simpl.
    rewrite Hnull, Hkey. reflexivity.
  - unfold insert_course. rewrite Hkey.
    destruct (instructor (course_at (heap w) c)) as [i|]; [|reflexivity].
    unfold has_person. rewrite bool_decide_eq_true_2 by exact Href.
    reflexivity.
Qed.

Lemma insert_of_ends (w : World) (e : entity) : insert_of w e <> Fuel.
Proof.
  destruct e as [s|i|c]; simpl;
    [apply insert_student_ends|apply insert_instructor_ends
    |apply insert_course_ends].
Qed.

(** The three ways an [add_] method ends. *)
Lemma add_cases (w : World) (e : entity) :
  (insert_of w e = Ret (with_row w e) /\
   add e w =
     (set_self (with_entry w e (self (set_conn (with_row w e) w)))
        w, Ret tt)) \/
  (exists msg, insert_of w e = Raise (sqlite3_Error msg) /\
               add e w = (printed (report e msg) w, Ret tt)) \/
  (exists ex, is_sqlite3_Error ex = false /\ add e w = (w, Raise ex)).
Proof.
  destruct (insert_of w e) as [db'|ex|] eqn:E.
  - left. destruct (insert_of_Ret w e db' E) as (-> & _ & _).
    split; [reflexivity|].
    destruct e as [s|i|c]; simpl in E |- *.
    + unfold add_student, try_except, execute, bind, get, lift, modify,
        Person_get_email. rewrite E. reflexivity.
    + unfold add_instructor, try_except, execute, bind, get, lift, modify,
        Person_get_email. rewrite E. reflexivity.
    + unfold add_course, try_except, execute, bind, get, lift, modify.
      rewrite E. reflexivity.
  - destruct (is_sqlite3_Error ex) eqn:Hex.
    + right. left. destruct ex; try discriminate Hex. exists msg.
      split; [reflexivity|]. apply failed_add_reported. exact E.
    + right. right. exists ex. split; [exact Hex|].
      destruct e as [s|i|c]; simpl in E |- *.
      * unfold add_student, try_except, execute, bind, get, lift, modify,
          Person_get_email. rewrite E. rewrite Hex. reflexivity.
      * unfold add_instructor, try_except, execute, bind, get, lift, modify,
          Person_get_email. rewrite E. rewrite Hex. reflexivity.
      * unfold add_course, try_except, execute, bind, get, lift, modify.
        rewrite E. rewrite Hex. reflexivity.
  - exfalso. exact (insert_of_ends w e E).
Qed.




(** *** The mirror and the store stay in step *)

Lemma stored_set (d : dict nat) (keys keys' : list string) (k : string)
    (v : nat) :
  stored d keys -> k ∈ keys' -> (forall x, x ∈ keys -> x ∈ keys') ->
  stored (dict_set k v d) keys'.
Proof.
  intros [Hnd Hin] Hk Hsub. split; [apply dict_set_NoDup; exact Hnd|].
  intros x Hx. apply dict_keys_set in Hx. destruct Hx as [->|Hx]; auto.
Qed.

Lemma stored_pop (d : dict nat) (keys keys' : list string) (k : string) :
  stored d keys -> (forall x, x ∈ keys -> x <> k -> x ∈ keys') ->
  stored (dict_pop k d) keys'.
Proof.
  intros [Hnd Hin] Hsub. destruct (dict_keys_pop k d Hnd) as [Hnd' Hin'].
  split; [exact Hnd'|]. intros x Hx. apply Hin' in Hx. destruct Hx as [Hx Hne].
  auto.
Qed.

Lemma stored_mono (d : dict nat) (keys keys' : list string) :
  stored d keys -> (forall x, x ∈ keys -> x ∈ keys') -> stored d keys'.
Proof. intros [Hnd Hin] Hsub. split; auto. Qed.

Lemma person_keys_filter (id k : string) (t : list PersonRow) :
  k ∈ map pr_id (filter (fun r => pr_id r <> id) t) <->
  k ∈ map pr_id t /\ k <> id.
Proof.
  rewrite !list_elem_of_fmap. split.
  - intros (r & -> & Hr). apply list_elem_of_filter in Hr.
    destruct Hr as [Hne Hr]. split; [eauto|exact Hne].
  - intros [(r & -> & Hr) Hne]. exists r. split; [reflexivity|].
    apply list_elem_of_filter. auto.
Qed.

Lemma course_keys_filter (id k : string) (t : list CourseRow) :
  k ∈ map cr_course_id (filter (fun r => cr_course_id r <> id) t) <->
  k ∈ map cr_course_id t /\ k <> id.
Proof.
  rewrite !list_elem_of_fmap. split.
  - intros (r & -> & Hr). apply list_elem_of_filter in Hr.
    destruct Hr as [Hne Hr]. split; [eauto|exact Hne].
  - intros [(r & -> & Hr) Hne]. exists r. split; [reflexivity|].
    apply list_elem_of_filter. auto.
Qed.

(** The rows of [courses] after [delete_instructor]: the same courses, in
    the same order, none referencing the instructor. *)
Lemma courses_after_delete_instructor (iid : string) (db : Database) :
  exists f,
    t_courses (update_courses_null iid (sqlite3.delete_instructor iid db)) =
      map f (t_courses db) /\
    forall r, cr_course_id (f r) = cr_course_id r /\
              cr_course_name (f r) = cr_course_name r /\
              cr_instructor_id (f r) <> Some iid /\
              (forall i, cr_instructor_id (f r) = Some i ->
                         cr_instructor_id r = Some i) /\
              (cr_instructor_id r <> Some iid ->
               cr_instructor_id (f r) = cr_instructor_id r).
Proof.
  assert (Hnull : forall r,
            cr_course_id (null_instructor iid r) = cr_course_id r /\
            cr_course_name (null_instructor iid r) = cr_course_name r /\
            cr_instructor_id (null_instructor iid r) <> Some iid /\
            (forall i, cr_instructor_id (null_instructor iid r) = Some i ->
                       cr_instructor_id r = Some i) /\
            (cr_instructor_id r <> Some iid ->
             cr_instructor_id (null_instructor iid r) = cr_instructor_id r)).
  { intros r. unfold null_instructor.
    destruct (decide (cr_instructor_id r = Some iid)) as [He|Hne]; simpl.
    - repeat split; try discriminate. intros H. contradiction.
    - repeat split; auto. }
  unfold update_courses_null, sqlite3.delete_instructor. simpl.
  destruct (has_person iid (t_instructors db)).
  - exists (fun r => null_instructor iid (null_instructor iid r)).
    split; [apply map_map|]. intros r.
    destruct (Hnull r) as (A1 & A2 & A3 & A4 & A5).
    destruct (Hnull (null_instructor iid r)) as (B1 & B2 & B3 & B4 & B5).
    repeat split; try congruence.
    + intros i Hi. apply A4, B4, Hi.
    + intros Hne. rewrite B5; auto.
  - exists (null_instructor iid). split; [reflexivity|]. exact Hnull.
Qed.

Lemma delete_student_run (id : string) (w : World) :
  delete_student id w =
  (set_students (dict_pop id (students (self w)))
     (set_conn (sqlite3.delete_student id (conn (self w))) w), Ret tt).
Proof. reflexivity. Qed.

(** X13.  Every call that writes to the store ([add_student],
    [add_instructor], [add_course], [delete_student], [delete_instructor],
    [delete_course]) ends, and whether it returns or raises it keeps the
    mirror in step with the store: afterwards every identifier of a mirror
    still has a row in its table, and no mirror holds an identifier
    twice. *)
Theorem calls_keep_mirror_stored (w : World) (c : manager_call) :
  mirror_stored w ->
  mirror_stored (run_call c w).1 /\ (run_call c w).2 <> Fuel.
Proof.
  intros Hm.
  change (stored (students (self w)) (map pr_id (t_students (conn (self w)))) /\
          stored (instructors (self w))
            (map pr_id (t_instructors (conn (self w)))) /\
          stored (courses (self w))
            (map cr_course_id (t_courses (conn (self w))))) in Hm.
  destruct Hm as (Hs & Hi & Hc).
  assert (Hgoal : forall w', 
            stored (students (self w')) (map pr_id (t_students (conn (self w')))) ->
            stored (instructors (self w'))
              (map pr_id (t_instructors (conn (self w')))) ->
            stored (courses (self w'))
              (map cr_course_id (t_courses (conn (self w')))) ->
            mirror_stored w')
    by (intros w' [? ?] [? ?] [? ?]; repeat split; assumption).
  destruct c as [e|id|id|id]; cbn [run_call].
  - destruct (add_cases w e) as [[_ ->]|[(msg & _ & ->)|(ex & _ & ->)]];
      cbn [fst snd].
    + split; [|discriminate].
      destruct e as [s|i|c]; apply Hgoal; try assumption.
      * eapply stored_set; [exact Hs| |]; cbn.
        -- rewrite map_app, elem_of_app. right. apply list_elem_of_here.
        -- intros x Hx. rewrite map_app, elem_of_app. auto.
      * eapply stored_set; [exact Hi| |]; cbn.
        -- rewrite map_app, elem_of_app. right. apply list_elem_of_here.
        -- intros x Hx. rewrite map_app, elem_of_app. auto.
      * eapply stored_set; [exact Hc| |]; cbn.
        -- rewrite map_app, elem_of_app. right. apply list_elem_of_here.
        -- intros x Hx. rewrite map_app, elem_of_app. auto.
    + split; [|discriminate]. apply Hgoal; assumption.
    + split; [|discriminate]. apply Hgoal; assumption.
  - rewrite delete_student_run. split; [|discriminate].
    apply Hgoal; try assumption.
    eapply stored_pop; [exact Hs|]. intros x Hx Hne. cbn.
    apply person_keys_filter. auto.
  - rewrite delete_instructor_run. split; [|discriminate].
    apply Hgoal; try assumption.
    + eapply stored_pop; [exact Hi|]. intros x Hx Hne. cbn.
      apply person_keys_filter. auto.
    + destruct (courses_after_delete_instructor id (conn (self w)))
        as (f & Hf & Hfr).
      eapply stored_mono; [exact Hc|]. intros x Hx.
      change (x ∈ map cr_course_id
                (t_courses (update_courses_null id
                   (sqlite3.delete_instructor id (conn (self w)))))).
      rewrite Hf. apply list_elem_of_fmap in Hx. destruct Hx as (r & -> & Hr).
      apply list_elem_of_fmap. exists (f r). split.
      * symmetry. apply Hfr.
      * apply list_elem_of_fmap. eauto.
  - rewrite delete_course_run. split; [|discriminate].
    apply Hgoal; try assumption.
    eapply stored_pop; [exact Hc|]. intros x Hx Hne. cbn.
    apply course_keys_filter. auto.
Qed.

Lemma calls_keep_mirror_stored_witness :
  mirror_stored ann_registered /\
  mirror_stored (delete_student "S1" ann_registered).1.
Proof.
  assert (H : mirror_stored ann_registered).
  { split; [|split]; split.
    - apply NoDup_singleton.
    - intros k Hk. exact Hk.
    - apply NoDup_nil_2.
    - intros k Hk. exact Hk.
    - apply NoDup_singleton.
    - intros k Hk. exact Hk. }
  split; [exact H|].
  exact (proj1 (calls_keep_mirror_stored ann_registered
                  (call_delete_student "S1") H)).
Defined.

(** *** The constraints of the schema *)

Lemma NoDup_map_filter {A B} (f : A -> B) (P : A -> Prop)
    `{forall x, Decision (P x)} (l : list A) :
  NoDup (map f l) -> NoDup (map f (filter P l)).
Proof.
  induction l as [|x l IH]; simpl; intros Hnd; [exact Hnd|].
  apply NoDup_cons in Hnd. destruct Hnd as [Hx Hnd].
  rewrite filter_cons. destruct (decide (P x)); [|auto].
  simpl. apply NoDup_cons. split; [|auto].
  intros Hin. apply Hx. apply list_elem_of_fmap in Hin.
  destruct Hin as (y & Hy & Hin). apply list_elem_of_filter in Hin.
  apply list_elem_of_fmap. exists y. tauto.
Qed.

Lemma NoDup_keys_snoc (k : string) (l : list string) :
  NoDup l -> k ∉ l -> NoDup (l ++ [k]).
Proof.
  intros Hnd Hk. apply NoDup_app. split; [exact Hnd|]. split.
  - intros y Hy Hyk. apply list_elem_of_singleton in Hyk. subst. contradiction.
  - apply NoDup_singleton.
Qed.

Lemma store_ok_with_row (w : World) (e : entity) :
  store_ok (conn (self w)) ->
  key_of w e ∉ table_keys (conn (self w)) e ->
  reference_stored w e ->
  store_ok (with_row w e).
Proof.
  intros (Ns & Ni & Nc & Fc & Fr) Hkey Href.
  destruct e as [s|i|c]; unfold store_ok; cbn [with_row t_students
    t_instructors t_courses t_registrations]; simpl in Hkey, Href.
  - rewrite map_app. cbn [map pr_id].
    split; [apply NoDup_keys_snoc; assumption|].
    split; [exact Ni|]. split; [exact Nc|]. split; [exact Fc|].
    intros r Hr. destruct (Fr r Hr) as [H1 H2]. split; [|exact H2].
    apply elem_of_app. auto.
  - rewrite map_app. cbn [map pr_id].
    split; [exact Ns|]. split; [apply NoDup_keys_snoc; assumption|].
    split; [exact Nc|]. split; [|exact Fr].
    intros r i0 Hr Hi0. apply elem_of_app. left. eapply Fc; eassumption.
  - rewrite map_app. cbn [map cr_course_id].
    split; [exact Ns|]. split; [exact Ni|].
    split; [apply NoDup_keys_snoc; assumption|]. split.
    + intros r i0 Hr Hi0. apply elem_of_app in Hr. destruct Hr as [Hr|Hr].
      * eapply Fc; eassumption.
      * apply list_elem_of_singleton in Hr. subst r. cbn in Hi0.
        destruct (instructor (course_at (heap w) c)) as [i|];
          [|discriminate Hi0].
        injection Hi0 as <-. exact Href.
    + intros r Hr. destruct (Fr r Hr) as [H1 H2]. split; [exact H1|].
      apply elem_of_app. auto.
Qed.

Lemma store_ok_delete_student (id : string) (db : Database) :
  store_ok db -> store_ok (sqlite3.delete_student id db).
Proof.
  intros (Ns & Ni & Nc & Fc & Fr). unfold store_ok, sqlite3.delete_student.
  cbn [t_students t_instructors t_courses t_registrations].
  split; [apply NoDup_map_filter; exact Ns|].
  split; [exact Ni|]. split; [exact Nc|]. split; [exact Fc|].
  intros r Hr. unfold has_person in Hr.
  destruct (bool_decide (id ∈ map pr_id (t_students db))) eqn:Hrow.
  - apply list_elem_of_filter in Hr. destruct Hr as [Hne Hr].
    destruct (Fr r Hr) as [H1 H2]. split; [|exact H2].
    apply person_keys_filter. auto.
  - apply bool_decide_eq_false in Hrow.
    destruct (Fr r Hr) as [H1 H2]. split; [|exact H2].
    apply person_keys_filter. split; [exact H1|].
    intros E. apply Hrow. rewrite <- E. exact H1.
Qed.

Lemma store_ok_delete_course (id : string) (db : Database) :
  store_ok db -> store_ok (sqlite3.delete_course id db).
Proof.
  intros (Ns & Ni & Nc & Fc & Fr). unfold store_ok, sqlite3.delete_course.
  cbn [t_students t_instructors t_courses t_registrations].
  split; [exact Ns|]. split; [exact Ni|].
  split; [apply NoDup_map_filter; exact Nc|]. split.
  - intros r i Hr Hi. apply list_elem_of_filter in Hr. destruct Hr as [_ Hr].
    eapply Fc; eassumption.
  - intros r Hr. unfold has_course in Hr.
    destruct (bool_decide (id ∈ map cr_course_id (t_courses db))) eqn:Hrow.
    + apply list_elem_of_filter in Hr. destruct Hr as [Hne Hr].
      destruct (Fr r Hr) as [H1 H2]. split; [exact H1|].
      apply course_keys_filter. auto.
    + apply bool_decide_eq_false in Hrow.
      destruct (Fr r Hr) as [H1 H2]. split; [exact H1|].
      apply course_keys_filter. split; [exact H2|].
      intros E. apply Hrow. rewrite <- E. exact H2.
Qed.

Lemma store_ok_delete_instructor (id : string) (db : Database) :
  store_ok db ->
  store_ok (update_courses_null id (sqlite3.delete_instructor id db)).
Proof.
  intros (Ns & Ni & Nc & Fc & Fr).
  destruct (courses_after_delete_instructor id db) as (f & Hf & Hfr).
  assert (Hids : map cr_course_id (map f (t_courses db)) =
                 map cr_course_id (t_courses db)).
  { rewrite map_map. apply map_ext. intros r. apply Hfr. }
  unfold store_ok. rewrite Hf, Hids.
  change (t_students (update_courses_null id
            (sqlite3.delete_instructor id db))) with (t_students db).
  change (t_registrations (update_courses_null id
            (sqlite3.delete_instructor id db))) with (t_registrations db).
  change (t_instructors (update_courses_null id
            (sqlite3.delete_instructor id db)))
    with (filter (fun r => pr_id r <> id) (t_instructors db)).
  split; [exact Ns|]. split; [apply NoDup_map_filter; exact Ni|].
  split; [exact Nc|]. split; [|exact Fr].
  intros r' i Hr' Hi. apply list_elem_of_fmap in Hr'.
  destruct Hr' as (r & -> & Hr).
  destruct (Hfr r) as (_ & _ & Hne & Hsome & _).
  apply person_keys_filter. split.
  - eapply Fc; [exact Hr|]. apply Hsome. exact Hi.
  - intros ->. contradiction.
Qed.

(** X14.  Every call that writes to the store keeps the constraints of the
    schema of [create_tables]: primary keys stay unique, every
    [instructor_id] of a course row is the key of an instructor row, and
    every registration row leads to a student row and a course row. *)
Theorem calls_keep_store_ok (w : World) (c : manager_call) :
  store_ok (conn (self w)) -> store_ok (conn (self (run_call c w).1)).
Proof.
  intros Hok. destruct c as [e|id|id|id]; cbn [run_call].
  - destruct (add_cases w e) as [[Hins ->]|[(msg & _ & ->)|(ex & _ & ->)]];
      cbn [fst snd]; [|exact Hok|exact Hok].
    destruct (insert_of_Ret w e _ Hins) as (_ & Hkey & Href).
    assert (E : conn (self (set_self
                  (with_entry w e (self (set_conn (with_row w e) w))) w)) =
                with_row w e) by (destruct e; reflexivity).
    rewrite E. apply store_ok_with_row; assumption.
  - rewrite delete_student_run. apply store_ok_delete_student. exact Hok.
  - rewrite delete_instructor_run. apply store_ok_delete_instructor. exact Hok.
  - rewrite delete_course_run. apply store_ok_delete_course. exact Hok.
Qed.

Lemma calls_keep_store_ok_witness :
  store_ok (conn (self ira_teaches_algebra)) /\
  store_ok (conn (self (delete_instructor "I1" ira_teaches_algebra).1)) /\
  map cr_instructor_id
    (t_courses (conn (self (delete_instructor "I1" ira_teaches_algebra).1))) =
    [None].
Proof.
  assert (H : store_ok (conn (self ira_teaches_algebra))).
  { split; [apply NoDup_nil_2|]. split; [apply NoDup_singleton|].
    split; [apply NoDup_singleton|]. split.
    - intros r i Hr Hi.
      change (t_courses (conn (self ira_teaches_algebra))) with
        [{| cr_course_id := "C1"; cr_course_name := "Algebra";
            cr_instructor_id := Some "I1"%string |}] in Hr.
      apply list_elem_of_singleton in Hr. subst r. injection Hi as <-.
      apply list_elem_of_here.
    - intros r Hr. inversion Hr. }
  split; [exact H|]. split; [|reflexivity].
  exact (calls_keep_store_ok ira_teaches_algebra
           (call_delete_instructor "I1") H).
Defined.

(** *** Adding and deleting *)

Lemma filter_all {A} (P : A -> Prop) `{forall x, Decision (P x)} (l : list A) :
  (forall x, x ∈ l -> P x) -> filter P l = l.
Proof.
  induction l as [|x l IH]; intros Hall; [reflexivity|].
  rewrite filter_cons. rewrite decide_True by (apply Hall, list_elem_of_here).
  f_equal. apply IH. intros y Hy. apply Hall, list_elem_of_further, Hy.
Qed.

Lemma filter_out_last (id : string) (t : list PersonRow) (r : PersonRow) :
  pr_id r = id -> id ∉ map pr_id t ->
  filter (fun x => pr_id x <> id) (t ++ [r]) = t.
Proof.
  intros Hr Hid. rewrite filter_app.
  rewrite (filter_all (fun x => pr_id x <> id) t).
  - rewrite filter_cons. rewrite decide_False by (intros H; apply H, Hr).
    rewrite filter_nil. apply app_nil_r.
  - intros x Hx Hxid. apply Hid. apply list_elem_of_fmap. eauto.
Qed.

(** X15.  Adding a student whose identifier is new to the table and to the
    mirror, and then deleting that identifier, gives back the manager, the
    store and the rest of the world exactly as they were. *)
Theorem add_then_delete_student (w : World) (s : nat) :
  key_taken w (the_student s) = false ->
  age_storable w (the_student s) ->
  student_id (student_at (heap w) s) ∉ dict_keys (students (self w)) ->
  (forall r, r ∈ t_registrations (conn (self w)) ->
             r.1 <> student_id (student_at (heap w) s)) ->
  bind (add_student s)
    (fun _ => delete_student (student_id (student_at (heap w) s))) w =
  (w, Ret tt).
Proof.
  intros Hkey Hage Hmirror Hreg.
  pose proof (insert_of_succeeds w (the_student s) Hkey Hage I) as Hins.
  assert (Hadd : add_student s w =
            (set_self (with_entry w (the_student s)
                         (self (set_conn (with_row w (the_student s)) w))) w,
             Ret tt)).
  { simpl in Hins.
    unfold add_student, try_except, execute, bind, get, lift, modify,
      Person_get_email. rewrite Hins. reflexivity. }
  unfold bind. rewrite Hadd. rewrite delete_student_run. f_equal.
  set (id := student_id (student_at (heap w) s)) in *.
  assert (Hfree : id ∉ map pr_id (t_students (conn (self w)))).
  { simpl in Hkey. unfold has_person in Hkey.
    apply bool_decide_eq_false in Hkey. exact Hkey. }
  destruct w as [h [db ss ins cs] out fs uw].
  unfold set_students, set_conn, set_self, sqlite3.delete_student.
  cbn [heap self stdout files unwritable conn students instructors courses
       with_entry with_row key_of t_students t_instructors t_courses
       t_registrations] in *.
  fold id. rewrite dict_pop_set_absent by exact Hmirror.
  rewrite (filter_out_last id) by (try reflexivity; exact Hfree).
  rewrite (filter_all (fun r : string * string => r.1 <> id)) by exact Hreg.
  destruct (has_person id _); destruct db; reflexivity.
Qed.

Lemma add_then_delete_student_witness :
  bind (add_student 0) (fun _ => delete_student "S1")
    (on_heap (Student_init "Ann" (PInt 20) "a@b.com" "S1") initial_world).1 =
  ((on_heap (Student_init "Ann" (PInt 20) "a@b.com" "S1") initial_world).1,
   Ret tt).
Proof.
  set (w := (on_heap (Student_init "Ann" (PInt 20) "a@b.com" "S1")
               initial_world).1).
  assert (H1 : key_taken w (the_student 0) = false) by reflexivity.
  assert (H2 : age_storable w (the_student 0)).
  { exists (SInteger 20). split; reflexivity. }
  assert (H3 : student_id (student_at (heap w) 0) ∉
               dict_keys (students (self w))) by apply not_elem_of_nil.
  assert (H4 : forall r, r ∈ t_registrations (conn (self w)) ->
                         r.1 <> student_id (student_at (heap w) 0)).
  { intros r Hr. inversion Hr. }
  exact (add_then_delete_student w 0 H1 H2 H3 H4).
Defined.

(** X16.  On a store whose registration rows all refer to a student row
    (the foreign key of [registrations]), [delete_student] returns
    normally; the identifier leaves the mirror, the table of students and
    the table of registrations, and the other entries of the mirror stay.
    No object changes: every course keeps the student in
    [enrolled_students], and the course entries of a later [save_data] are
    the same as before. *)
Theorem delete_student_leaves_courses (w : World) (id : string) :
  NoDup (dict_keys (students (self w))) ->
  (forall r, r ∈ t_registrations (conn (self w)) ->
             r.1 ∈ map pr_id (t_students (conn (self w)))) ->
  exists w',
    delete_student id w = (w', Ret tt) /\
    heap w' = heap w /\
    dict_get id (students (self w')) = None /\
    (forall k, k <> id ->
               dict_get k (students (self w')) = dict_get k (students (self w))) /\
    (id ∉ map pr_id (t_students (conn (self w')))) /\
    (forall cid, (id, cid) ∉ t_registrations (conn (self w'))) /\
    doc_courses (snapshot w') = doc_courses (snapshot w).
Proof.
  intros Hnd Hfk. eexists. split; [apply delete_student_run|].
  split; [reflexivity|]. split; [|split; [|split; [|split]]].
  - apply dict_get_None. destruct (dict_keys_pop id _ Hnd) as [_ Hin].
    intros H. apply Hin in H. destruct H as [_ H]. apply H. reflexivity.
  - intros k Hk. apply dict_get_pop_ne. exact Hk.
  - intros H. apply person_keys_filter in H. destruct H as [_ H].
    apply H. reflexivity.
  - intros cid H.
    change (t_registrations (conn (self (set_students
              (dict_pop id (students (self w)))
              (set_conn (sqlite3.delete_student id (conn (self w))) w)))))
      with (if has_person id (t_students (conn (self w)))
            then filter (fun r : string * string => r.1 <> id)
                   (t_registrations (conn (self w)))
            else t_registrations (conn (self w))) in H.
    unfold has_person in H.
    destruct (bool_decide (id ∈ map pr_id (t_students (conn (self w)))))
      eqn:Hrow.
    + apply list_elem_of_filter in H. destruct H as [H _].
      apply H. reflexivity.
    + apply bool_decide_eq_false in Hrow. apply Hrow.
      exact (Hfk (id, cid) H).
  - reflexivity.
Qed.

Lemma delete_student_leaves_courses_witness :
  exists w',
    delete_student "S1" ann_registered = (w', Ret tt) /\
    dict_get "S1"%string (students (self w')) = None /\
    enrolled_students (course_at (heap w') 0) = [0] /\
    map cd_enrolled_students (doc_courses (snapshot w')) = [["S1"%string]].
Proof.
  assert (Hnd : NoDup (dict_keys (students (self ann_registered))))
    by apply NoDup_singleton.
  assert (Hfk : forall r,
             r ∈ t_registrations (conn (self ann_registered)) ->
             r.1 ∈ map pr_id (t_students (conn (self ann_registered)))).
  { intros r Hr. inversion Hr. }
  destruct (delete_student_leaves_courses ann_registered "S1" Hnd Hfk)
    as (w' & Hrun & Hheap & Hget & _ & _ & _ & Hdoc).
  exists w'. split; [exact Hrun|]. split; [exact Hget|].
  split; [rewrite Hheap; reflexivity|rewrite Hdoc; reflexivity].
Defined.

(** *** Deleting an instructor, every course *)

Lemma cleared_students (iid : string) (h : Heap) (c : nat) :
  h_students (cleared iid h c) = h_students h.
Proof.
  unfold cleared. destruct (instructor (course_at h c)); [|reflexivity].
  destruct (decide _); reflexivity.
Qed.

Lemma clear_loop_stores (iid : string) (cs : list nat) (h : Heap) :
  h_students (fold_left (cleared iid) cs h) = h_students h /\
  h_instructors (fold_left (cleared iid) cs h) = h_instructors h.
Proof.
  revert h. induction cs as [|c cs IH]; intros h; simpl; [auto|].
  destruct (IH (cleared iid h c)) as [-> ->].
  rewrite cleared_students, cleared_instructors. auto.
Qed.

(** A round leaves a course as it was, or (its own course, when the
    instructor has the identifier) with no instructor. *)
Lemma cleared_effect (iid : string) (h : Heap) (c' c : nat) :
  course_at (cleared iid h c') c = course_at h c \/
  (c' = c /\
   (exists i, instructor (course_at h c) = Some i /\
              instructor_id (instructor_at h i) = iid) /\
   course_at (cleared iid h c') c = with_instructor None (course_at h c)).
Proof.
  destruct (decide (c' = c)) as [->|Hne];
    [|left; apply cleared_other; exact Hne].
  unfold cleared. destruct (instructor (course_at h c)) as [i|] eqn:Hi;
    [|left; reflexivity].
  destruct (decide (instructor_id (instructor_at h i) = iid)) as [Hid|Hid];
    [|left; reflexivity].
  right. split; [reflexivity|]. split; [eauto|].
  apply course_at_update_eq. eapply course_live. exact Hi.
Qed.

(** The loop leaves a course as it was, or (a course it visits whose
    instructor has the identifier) with no instructor and nothing else
    changed. *)
Lemma clear_loop_effect (iid : string) (cs : list nat) (h : Heap) (c : nat) :
  course_at (fold_left (cleared iid) cs h) c = course_at h c \/
  (c ∈ cs /\
   (exists i, instructor (course_at h c) = Some i /\
              instructor_id (instructor_at h i) = iid) /\
   course_at (fold_left (cleared iid) cs h) c =
     with_instructor None (course_at h c)).
Proof.
  revert h. induction cs as [|c' cs IH]; intros h; [left; reflexivity|].
  change (fold_left (cleared iid) (c' :: cs) h)
    with (fold_left (cleared iid) cs (cleared iid h c')).
  pose proof (cleared_instructors iid h c') as Ei.
  destruct (cleared_effect iid h c' c) as [E0|(Hcc & Hex & E0)];
    destruct (IH (cleared iid h c')) as [E|(Hin & (i & Hi & Hid) & E)].
  - left. rewrite E. exact E0.
  - right. split; [apply list_elem_of_further; exact Hin|].
    rewrite E0 in Hi, E. unfold instructor_at in Hid. rewrite Ei in Hid.
    split; [eauto|exact E].
  - right. split; [rewrite Hcc; apply list_elem_of_here|].
    split; [exact Hex|]. rewrite E. exact E0.
  - exfalso. rewrite E0 in Hi. discriminate Hi.
Qed.

(** X17.  [delete_instructor] returns normally.  It changes no student and
    no instructor object, so the deleted instructor keeps its
    [assigned_courses]; a course is left as it was, or, when it is resident
    and its instructor has the identifier, with [instructor] set to [None]
    and nothing else changed, and every such resident course is cleared.
    In the store no instructor row has the identifier and no course row
    references it; the mirrors of students and courses are untouched. *)
Theorem delete_instructor_clears_resident_courses (w : World) (iid : string) :
  exists w',
    delete_instructor iid w = (w', Ret tt) /\
    h_students (heap w') = h_students (heap w) /\
    h_instructors (heap w') = h_instructors (heap w) /\
    (forall c,
        course_at (heap w') c = course_at (heap w) c \/
        (c ∈ dict_values (courses (self w)) /\
         (exists i, instructor (course_at (heap w) c) = Some i /\
                    instructor_id (instructor_at (heap w) i) = iid) /\
         course_at (heap w') c = with_instructor None (course_at (heap w) c))) /\
    (forall c i, c ∈ dict_values (courses (self w)) ->
                 instructor (course_at (heap w) c) = Some i ->
                 instructor_id (instructor_at (heap w) i) = iid ->
                 instructor (course_at (heap w') c) = None) /\
    (iid ∉ map pr_id (t_instructors (conn (self w')))) /\
    (forall r, r ∈ t_courses (conn (self w')) ->
               cr_instructor_id r <> Some iid) /\
    students (self w') = students (self w) /\
    courses (self w') = courses (self w).
Proof.
  eexists. split; [apply delete_instructor_run|].
  set (h' := fold_left (cleared iid) (dict_values (courses (self w))) (heap w)).
  change (heap (set_heap h' _)) with h'.
  destruct (clear_loop_stores iid (dict_values (courses (self w))) (heap w))
    as [Es Ei].
  split; [exact Es|]. split; [exact Ei|].
  split; [intros c; apply clear_loop_effect|].
  split; [intros c i Hc Hi Hid; apply (clear_loop_clears iid _ _ c i);
          assumption|].
  split; [|split; [|split; reflexivity]].
  - intros H.
    change (iid ∈ map pr_id
              (filter (fun r => pr_id r <> iid)
                 (t_instructors (conn (self w))))) in H.
    apply person_keys_filter in H. destruct H as [_ H]. apply H. reflexivity.
  - intros r Hr.
    change (r ∈ t_courses (update_courses_null iid
              (sqlite3.delete_instructor iid (conn (self w))))) in Hr.
    destruct (courses_after_delete_instructor iid (conn (self w)))
      as (f & Hf & Hfr).
    rewrite Hf in Hr. apply list_elem_of_fmap in Hr.
    destruct Hr as (r0 & -> & _). apply Hfr.
Qed.

(** *** Files *)



(** *** Loading, the enrolments *)

Lemma ends_and {St A} (Q R : A -> St -> Prop) (r : St * outcome A) :
  ends Q r -> ends R r -> ends (fun a s => Q a s /\ R a s) r.
Proof. destruct r as [s [a|e|]]; simpl; auto. Qed.

(** A loop whose rounds take [I done] to [I (done ++ [x])] takes [I done]
    to [I (done ++ xs)]. *)
Lemma for_each_collect {St A} (I : list A -> St -> Prop) (xs : list A)
    (body : A -> M St unit) :
  (forall done x s, I done s -> ends (fun _ => I (done ++ [x])) (body x s)) ->
  forall done s, I done s ->
    ends (fun _ => I (done ++ xs)) (for_each xs body s).
Proof.
  induction xs as [|x xs IH]; intros Hbody done s Hs; simpl.
  - rewrite List.app_nil_r. exact Hs.
  - apply (bind_ends (fun _ => I (done ++ [x]))).
    + apply Hbody. exact Hs.
    + intros _ s' Hs'.
      replace (done ++ x :: xs) with ((done ++ [x]) ++ xs)
        by (rewrite <- List.app_assoc; reflexivity).
      apply IH; assumption.
Qed.

(** What an [add_] method leaves behind when it returns: the objects as
    they were, its own mirror as it was or with the entity under its
    identifier, the other mirrors as they were. *)
Lemma add_student_effect (s : nat) (w : World) :
  ends (fun _ w' =>
          heap w' = heap w /\
          (students (self w') = students (self w) \/
           students (self w') =
             dict_set (student_id (student_at (heap w) s)) s
               (students (self w))) /\
          instructors (self w') = instructors (self w) /\
          courses (self w') = courses (self w))
       (add_student s w).
Proof.
  change (add_student s w) with (add (the_student s) w).
  destruct (add_cases w (the_student s))
    as [[_ ->]|[(msg & _ & ->)|(ex & _ & ->)]]; simpl; auto.
Qed.

Lemma add_instructor_effect (i : nat) (w : World) :
  ends (fun _ w' =>
          heap w' = heap w /\
          students (self w') = students (self w) /\
          courses (self w') = courses (self w))
       (add_instructor i w).
Proof.
  change (add_instructor i w) with (add (the_instructor i) w).
  destruct (add_cases w (the_instructor i))
    as [[_ ->]|[(msg & _ & ->)|(ex & _ & ->)]]; simpl; auto.
Qed.

Lemma add_course_effect (c : nat) (w : World) :
  ends (fun _ w' =>
          heap w' = heap w /\
          students (self w') = students (self w) /\
          (courses (self w') = courses (self w) \/
           courses (self w') =
             dict_set (course_id (course_at (heap w) c)) c
               (courses (self w))))
       (add_course c w).
Proof.
  change (add_course c w) with (add (the_course c) w).
  destruct (add_cases w (the_course c))
    as [[_ ->]|[(msg & _ & ->)|(ex & _ & ->)]]; simpl; auto.
Qed.

Lemma students_live_same (w w' : World) :
  students (self w') = students (self w) ->
  length (h_students (heap w')) = length (h_students (heap w)) ->
  students_live w -> students_live w'.
Proof. intros Hm Hl Hlive k v. rewrite Hm, Hl. apply Hlive. Qed.

(** One round of the first loop: the mirror holds the identifier of the
    entry, keeps the identifiers it held, and its references stay live. *)
Lemma load_student_post (d : StudentDict) (w : World) :
  students_live w ->
  ends (fun _ w' =>
          students_live w' /\
          (exists v, dict_get (sd_student_id d) (students (self w')) = Some v) /\
          (forall k, (exists v, dict_get k (students (self w)) = Some v) ->
                     exists v, dict_get k (students (self w')) = Some v))
       (load_student d w).
Proof.
  intros Hlive.
  unfold load_student, on_heap, Student_from_dict, Student_init.
  unfold bind at 1. unfold bind at 2. unfold lift.
  pose proof (Person_init_ends (sd_name d) (sd_age d) (sd__email d)) as Hp.
  destruct (Person_init (sd_name d) (sd_age d) (sd__email d)) as [p|e|];
    [|exact I|congruence].
  cbn beta iota. unfold bind at 1. unfold get at 1. cbn beta iota.
  unfold bind at 1. unfold modify at 1. cbn beta iota.
  set (x := {| Student_super := p; student_id := sd_student_id d;
               registered_courses := [] |}).
  set (h1 := {| h_students := h_students (heap w) ++ [x];
                h_instructors := h_instructors (heap w);
                h_courses := h_courses (heap w) |}).
  set (n := length (h_students (heap w))).
  assert (Ex : student_at h1 n = x) by apply student_at_new.
  change (heap (set_heap h1 w)) with h1. rewrite Ex.
  change (student_id x) with (sd_student_id d).
  change (students (self (set_heap h1 w))) with (students (self w)).
  set (m1 := dict_set (sd_student_id d) n (students (self w))).
  set (w1 := set_students m1 (set_heap h1 w)).
  assert (Hm1 : forall k v, dict_get k m1 = Some v ->
                            v < length (h_students h1)).
  { intros k v. unfold m1. rewrite dict_get_set.
    unfold h1. simpl. rewrite length_app. simpl. fold n.
    destruct (decide (k = sd_student_id d)) as [->|Hne].
    - intros [= <-]. lia.
    - intros Hk. pose proof (Hlive k v Hk). fold n in H. lia. }
  eapply ends_weaken; [apply (add_student_effect n w1)|].
  intros _ w' (Hheap & Hst & _ & _).
  change (heap w1) with h1 in Hheap, Hst. rewrite Ex in Hst.
  change (student_id x) with (sd_student_id d) in Hst.
  change (students (self w1)) with m1 in Hst.
  assert (Hget : forall k, dict_get k (students (self w')) = dict_get k m1).
  { intros k. destruct Hst as [->| ->]; [reflexivity|].
    rewrite dict_get_set. destruct (decide (k = sd_student_id d)) as [->|Hne];
      [|reflexivity].
    unfold m1. rewrite dict_get_set, decide_True by reflexivity. reflexivity. }
  split; [|split].
  - intros k v. rewrite Hget, Hheap. apply Hm1.
  - rewrite Hget. unfold m1. rewrite dict_get_set, decide_True by reflexivity.
    eauto.
  - intros k [v Hk]. rewrite Hget. unfold m1. rewrite dict_get_set.
    destruct (decide (k = sd_student_id d)); eauto.
Qed.

(** A round of the second loop leaves the students alone. *)
Lemma load_instructor_students (d : InstructorDict) (w : World) :
  ends (fun _ w' =>
          students (self w') = students (self w) /\
          h_students (heap w') = h_students (heap w) /\
          courses (self w') = courses (self w))
       (load_instructor d w).
Proof.
  unfold load_instructor, on_heap, Instructor_from_dict, Instructor_init.
  unfold bind at 1. unfold bind at 2. unfold lift.
  pose proof (Person_init_ends (id_name d) (id_age d) (id__email d)) as Hp.
  destruct (Person_init (id_name d) (id_age d) (id__email d)) as [p|e|];
    [|exact I|congruence].
  cbn beta iota. unfold bind at 1. unfold get at 1. cbn beta iota.
  unfold bind at 1. unfold modify at 1. cbn beta iota.
  eapply ends_weaken; [apply add_instructor_effect|].
  intros _ w' (Hheap & Hst & Hcs). rewrite Hheap, Hst, Hcs. auto.
Qed.

(** [set_instructor] leaves the identifier of the course alone. *)
Lemma set_instructor_keeps_id (n : nat) (h : Heap) (c i : nat) (h' : Heap)
    (r : outcome unit) :
  i < length (h_instructors h) -> c < length (h_courses h) ->
  Course_set_instructor_rec (S (S (S n))) c (Some i) h = (h', r) ->
  course_id (course_at h' c) = course_id (course_at h c).
Proof.
  intros Hi Hc. run.
  change (instructor_at (update_course c ?f h) i) with (instructor_at h i).
  destruct (decide (c ∈ assigned_courses (instructor_at h i))) as [Hin|Hin].
  - intros [= <- _]. rewrite course_at_update_eq by exact Hc. reflexivity.
  - rewrite decide_False by exact Hin.
    set (h1 := update_course c (with_instructor (Some i)) h).
    set (h2 := update_instructor i _ h1).
    set (h3 := update_course c (with_instructor (Some i)) h2).
    assert (Hin3 : c ∈ assigned_courses (instructor_at h3 i)).
    { change (instructor_at h3 i) with (instructor_at h2 i).
      unfold h2. rewrite instructor_at_update_eq by exact Hi.
      simpl. apply elem_of_snoc. }
    rewrite decide_True by exact Hin3.
    intros [= <- _]. unfold h3.
    rewrite course_at_update_eq
      by (unfold h2, h1, update_instructor, update_course; simpl;
          rewrite length_alter; exact Hc).
    change (course_at h2 c) with (course_at h1 c). unfold h1.
    rewrite course_at_update_eq by exact Hc. reflexivity.
Qed.

(** One round of the third loop: the students are left alone, the mirror
    of courses holds the identifier of the entry and keeps the identifiers
    it held. *)
Lemma load_course_post (ids : list string) (d : CourseDict) (w : World) :
  mirror_live ids w ->
  ends (fun _ w' =>
          students (self w') = students (self w) /\
          length (h_students (heap w')) = length (h_students (heap w)) /\
          (exists v, dict_get (cd_course_id d) (courses (self w')) = Some v) /\
          (forall k, (exists v, dict_get k (courses (self w)) = Some v) ->
                     exists v, dict_get k (courses (self w')) = Some v))
       (load_course d w).
Proof.
  intros Hlive. rewrite load_course_run. cbn zeta.
  destruct (looked_up d w) as [i|] eqn:Hlook.
  - assert (Hi : i < length (h_instructors (heap w))).
    { unfold looked_up in Hlook. destruct (truthy _); [|discriminate].
      destruct (cd_instructor_id d) as [k|]; [|discriminate].
      apply (Hlive k i Hlook). }
    match goal with
    | |- context [Course_set_instructor ?c0 (Some i) ?hh] =>
        set (c := c0); set (h1 := hh)
    end.
    assert (Hc : c < length (h_courses h1)).
    { unfold h1, c. simpl. rewrite length_app. simpl. lia. }
    destruct (depth_enough_set_instructor 5 h1 c i Hi)
      as (h2 & Hrun & Hshape & _).
    assert (Hid : course_id (course_at h2 c) = cd_course_id d).
    { rewrite (set_instructor_keeps_id 5 h1 c i h2 (Ret tt) Hi Hc Hrun).
      unfold h1, c. rewrite course_at_new. reflexivity. }
    unfold Course_set_instructor, call_depth. rewrite Hrun, Hid.
    set (m1 := dict_set (cd_course_id d) c (courses (self w))).
    set (w1 := set_courses m1 (set_heap h2 w)).
    eapply ends_weaken; [apply (add_course_effect c w1)|].
    intros _ w' (Hheap & Hst & Hcs).
    change (heap w1) with h2 in Hheap, Hcs. rewrite Hid in Hcs.
    change (courses (self w1)) with m1 in Hcs.
    change (students (self w1)) with (students (self w)) in Hst.
    assert (Hget : forall k, dict_get k (courses (self w')) = dict_get k m1).
    { intros k. destruct Hcs as [->| ->]; [reflexivity|].
      rewrite dict_get_set. destruct (decide (k = cd_course_id d)) as [->|Hne];
        [|reflexivity].
      unfold m1. rewrite dict_get_set, decide_True by reflexivity.
      reflexivity. }
    split; [exact Hst|]. split; [|split].
    + rewrite Hheap. destruct Hshape as (Hlen & _). rewrite Hlen. reflexivity.
    + rewrite Hget. unfold m1.
      rewrite dict_get_set, decide_True by reflexivity. eauto.
    + intros k [v Hk]. rewrite Hget. unfold m1. rewrite dict_get_set.
      destruct (decide (k = cd_course_id d)); eauto.
  - unfold Course_set_instructor, call_depth. rewrite set_instructor_None.
    exact I.
Qed.

(** A found student is enrolled and then the missing method is called. *)
Lemma enrolment_raises (c s : nat) (sid cid : string) (w : World) :
  s < length (h_students (heap w)) ->
  raises ((on_heap (Course_add_student c s) >>
           register_student_in_course sid cid) w).
Proof.
  intros Hs.
  destruct (depth_enough_add_student 5 (heap w) c s Hs) as (h' & Hrun).
  unfold bind, on_heap, Course_add_student, call_depth. rewrite Hrun.
  exact I.
Qed.

(** A round of the last loop returns with nothing changed, or raises. *)
Lemma enroll_students_ends (d : CourseDict) (w : World) :
  students_live w -> ends (fun _ w' => w' = w) (enroll_students d w).
Proof.
  intros Hlive. unfold enroll_students. unfold bind at 1. unfold get at 1.
  cbn beta iota.
  destruct (dict_get (cd_course_id d) (courses (self w))) as [c|];
    [|reflexivity].
  apply (for_each_ends (fun s => s = w)); [|reflexivity].
  intros sid s _ ->. unfold bind at 1. unfold get at 1. cbn beta iota.
  destruct (dict_get sid (students (self w))) as [v|] eqn:Hv; [|reflexivity].
  apply raises_ends. apply enrolment_raises. apply (Hlive sid v Hv).
Qed.

Lemma enroll_students_raises (d : CourseDict) (sid : string) (w : World) :
  students_live w ->
  (exists v, dict_get (cd_course_id d) (courses (self w)) = Some v) ->
  sid ∈ cd_enrolled_students d ->
  (exists v, dict_get sid (students (self w)) = Some v) ->
  raises (enroll_students d w).
Proof.
  intros Hlive [c Hc] Hin [v Hv]. unfold enroll_students.
  unfold bind at 1. unfold get at 1. cbn beta iota. rewrite Hc.
  apply (for_each_raises (fun s => s = w) _ _ sid); [|exact Hin| |reflexivity].
  - intros x s _ ->. unfold bind at 1. unfold get at 1. cbn beta iota.
    destruct (dict_get x (students (self w))) as [v'|] eqn:Hv'; [|reflexivity].
    apply raises_ends. apply enrolment_raises. apply (Hlive x v' Hv').
  - intros s ->. unfold bind at 1. unfold get at 1. cbn beta iota.
    rewrite Hv. apply enrolment_raises. apply (Hlive sid v Hv).
Qed.

(** X19.  [load_data] of an existing file never returns normally when a
    course entry of the document lists the identifier of a student entry
    of the document: it raises, at the latest at the first such enrolment,
    where it calls [register_student_in_course], a method the class does
    not define. *)
Theorem load_data_raises_at_enrolment (w : World) (filename : string)
    (doc : Document) (d : CourseDict) (sid : string) :
  dict_get filename (files w) = Some doc ->
  d ∈ doc_courses doc ->
  sid ∈ cd_enrolled_students d ->
  sid ∈ map sd_student_id (doc_students doc) ->
  exists w' e, load_data filename w = (w', Raise e).
Proof.
  intros Hfile Hd Hsid Hstudent.
  apply raises_inv. rewrite (load_data_run _ doc) by exact Hfile.
  set (ids := map id_instructor_id (doc_instructors doc)).
  pose (found := fun (s : World) =>
          students_live s /\
          exists v, dict_get sid (students (self s)) = Some v).
  apply (bind_raises (fun _ s => students_live s /\
                                 has_keys [] (students (self s)))).
  { simpl. split.
    - intros k v Hk. discriminate Hk.
    - intros k Hk. inversion Hk. }
  intros _ w1 H1.
  apply (bind_raises (fun _ => found)).
  { eapply ends_weaken.
    - apply (for_each_collect
               (fun done s => students_live s /\
                  has_keys (map sd_student_id done) (students (self s)))
               (doc_students doc) load_student) with (done := []);
        [|exact H1].
      intros done x s [Hlive Hkeys].
      eapply ends_weaken; [apply load_student_post; exact Hlive|].
      intros _ s' (Hlive' & Hx & Hkeep). split; [exact Hlive'|].
      intros k Hk. rewrite map_app in Hk. apply elem_of_app in Hk.
      destruct Hk as [Hk|Hk].
      + apply Hkeep. apply Hkeys. exact Hk.
      + simpl in Hk. apply list_elem_of_singleton in Hk. subst k. exact Hx.
    - intros _ s [Hlive Hkeys]. split; [exact Hlive|].
      apply Hkeys. exact Hstudent. }
  intros _ w2 H2.
  apply (bind_raises (fun _ s => found s /\ mirror_live ids s)).
  { simpl. split; [exact H2|]. intros k v Hk. discriminate Hk. }
  intros _ w3 H3.
  apply (bind_raises (fun _ s => found s /\ mirror_live ids s)).
  { apply (for_each_ends (fun s => found s /\ mirror_live ids s));
      [|exact H3].
    intros x s Hx [[Hlive Hfound] Hmirror].
    eapply ends_weaken.
    - apply ends_and; [apply (load_instructor_ends ids x s)|
                       apply (load_instructor_students x s)];
        [|exact Hmirror].
      unfold ids. apply list_elem_of_fmap. exists x. split; [reflexivity|exact Hx].
    - intros _ s' [Hmirror' (Hst & Hh & _)]. split; [|exact Hmirror'].
      split.
      + apply (students_live_same s s'); [exact Hst| |exact Hlive].
        rewrite Hh. reflexivity.
      + rewrite Hst. exact Hfound. }
  intros _ w4 H4.
  apply (bind_raises (fun _ s => (found s /\ mirror_live ids s) /\
                                 has_keys [] (courses (self s)))).
  { simpl. split; [exact H4|]. intros k Hk. inversion Hk. }
  intros _ w5 H5.
  apply (bind_raises
           (fun _ s => found s /\
                       exists v, dict_get (cd_course_id d) (courses (self s))
                                 = Some v)).
  { eapply ends_weaken.
    - apply (for_each_collect
               (fun done s => (found s /\ mirror_live ids s) /\
                  has_keys (map cd_course_id done) (courses (self s)))
               (doc_courses doc) load_course) with (done := []);
        [|exact H5].
      intros done x s [[[Hlive Hfound] Hmirror] Hkeys].
      eapply ends_weaken.
      + apply ends_and; [apply (load_course_ends ids x s Hmirror)|
                         apply (load_course_post ids x s Hmirror)].
      + intros _ s' [Hmirror' (Hst & Hlen & Hx & Hkeep)].
        split; [split; [split|exact Hmirror']|].
        * apply (students_live_same s s'); assumption.
        * rewrite Hst. exact Hfound.
        * intros k Hk. rewrite map_app in Hk. apply elem_of_app in Hk.
          destruct Hk as [Hk|Hk].
          -- apply Hkeep. apply Hkeys. exact Hk.
          -- simpl in Hk. apply list_elem_of_singleton in Hk. subst k.
             exact Hx.
    - intros _ s [[Hfound _] Hkeys]. split; [exact Hfound|].
      apply Hkeys. simpl. apply list_elem_of_fmap. exists d.
      split; [reflexivity|exact Hd]. }
  intros _ w6 [[Hlive6 Hfound6] Hcourse6].
  apply (for_each_raises (fun s => s = w6) _ _ d); [|exact Hd| |reflexivity].
  - intros x s _ ->. apply enroll_students_ends. exact Hlive6.
  - intros s ->. apply (enroll_students_raises d sid); assumption.
Qed.

Lemma load_data_raises_at_enrolment_witness :
  exists w' e,
    load_data "school.json"
      (written "school.json"
         {| doc_students :=
              [{| sd_name := "Ann"; sd_age := PInt 20; sd__email := "a@b.com";
                  sd_student_id := "S1"; sd_registered_courses := ["C1"] |}];
            doc_instructors :=
              [{| id_name := "Bob"; id_age := PInt 40; id__email := "b@c.org";
                  id_instructor_id := "I1"; id_assigned_courses := ["C1"] |}];
            doc_courses :=
              [{| cd_course_id := "C1"; cd_course_name := "Algebra";
                  cd_instructor_id := Some "I1";
                  cd_enrolled_students := ["S1"] |}] |}%string
         (fresh_manager empty_db ann_saved)) = (w', Raise e).
Proof.
  eapply (load_data_raises_at_enrolment _ "school.json" _ _ "S1").
  - vm_compute. reflexivity.
  - apply list_elem_of_here.
  - apply list_elem_of_here.
  - apply list_elem_of_here.
Defined.

End data_manager_more.
